(** * ShopFlux storefront API: order workflow, catalog query, user sanitization

    A shallow embedding of the route handlers of the storefront
    ([app/api/orders/route.ts], [app/api/products/route.ts],
    [app/api/users/route.ts]) and the properties their specification
    states about them.

    Conventions of the embedding
    - A JavaScript number is [number]: a finite value, kept as the rational
      it denotes, or one of NaN, +Infinity, -Infinity; there is no signed
      zero.  A string is converted to the nearest binary64 value and a
      number is written with the shortest digits that read back, as the
      engine does; the arithmetic of the routes ([js_add], [js_sub],
      [js_mul]) rounds to binary64, except between whole numbers, where
      the exact result is kept (the same thing up to 2^53).  What the
      database does to a stock is exact.
    - A JavaScript value of JSON shape is [value]; an object is an
      association list in which the first binding of a key is the one read.
      [get_prop] reads own properties and is used with the keys the routes
      spell out, none of which is on a prototype; where the key comes from
      the request ([a[sort]]), [lookup] also follows the prototype chain.
    - A character is a UTF-16 code unit below 256 (the Latin-1 range);
      within it case mapping and the whitespace class are the engine's.
      Strings with other code units are not represented.
    - Code that may throw returns [Result]; handlers thread the store
      explicitly and return it next to the HTTP response. *)

From Stdlib Require Import ZArith QArith Qround Qabs String Ascii List Lia DecimalString.
From stdpp Require Import gmap strings list fin_maps.

Local Open Scope string_scope.

(* ===================================================================== *)
(** ** JavaScript numbers *)
(* ===================================================================== *)

Module JS.

Inductive number : Type :=
| Fin (q : Q)
| NaN
| PosInf
| NegInf.

Definition num_of_Z (z : Z) : number := Fin (inject_Z z).

(** [Number.isFinite] and [isNaN] on a value already known to be a number. *)
Definition isFinite (n : number) : bool :=
  match n with Fin _ => true | _ => false end.

Definition isNaN (n : number) : bool :=
  match n with NaN => true | _ => false end.

(** [a < b]: false as soon as one side is NaN. *)
Definition num_lt (a b : number) : bool :=
  match a, b with
  | NaN, _ | _, NaN => false
  | Fin x, Fin y => negb (Qle_bool y x)
  | NegInf, NegInf => false
  | NegInf, _ => true
  | _, NegInf => false
  | PosInf, _ => false
  | _, PosInf => true
  end.

(** [a <= b]. *)
Definition num_le (a b : number) : bool :=
  match a, b with
  | NaN, _ | _, NaN => false
  | Fin x, Fin y => Qle_bool x y
  | NegInf, _ => true
  | _, NegInf => false
  | _, PosInf => true
  | PosInf, _ => false
  end.

(** [a === b] on numbers: NaN differs from everything, itself included. *)
Definition num_eq (a b : number) : bool :=
  match a, b with
  | Fin x, Fin y => Qeq_bool x y
  | PosInf, PosInf | NegInf, NegInf => true
  | _, _ => false
  end.

Definition floor (n : number) : number :=
  match n with
  | Fin q => Fin (inject_Z (Qfloor q))
  | other => other
  end.

Definition is_zero (q : Q) : bool := Qeq_bool q 0.

Definition num_neg (a : number) : number :=
  match a with
  | Fin x => Fin (- x)
  | NaN => NaN
  | PosInf => NegInf
  | NegInf => PosInf
  end.

Definition num_add (a b : number) : number :=
  match a, b with
  | NaN, _ | _, NaN => NaN
  | Fin x, Fin y => Fin (Qred (x + y))
  | PosInf, NegInf | NegInf, PosInf => NaN
  | PosInf, _ | _, PosInf => PosInf
  | NegInf, _ | _, NegInf => NegInf
  end.

Definition num_sub (a b : number) : number := num_add a (num_neg b).

(** Sign of a non-NaN number: -1, 0 or 1. *)
Definition num_sgn (a : number) : Z :=
  match a with
  | Fin x => Z.sgn (Qnum x)
  | PosInf => 1
  | NegInf => -1
  | NaN => 0
  end.

Definition num_mul (a b : number) : number :=
  match a, b with
  | NaN, _ | _, NaN => NaN
  | Fin x, Fin y => Fin (Qred (x * y))
  | _, _ =>
      match (num_sgn a * num_sgn b)%Z with
      | Z0 => NaN
      | Zpos _ => PosInf
      | Zneg _ => NegInf
      end
  end.

(** [Math.max(a, b)] and [Math.min(a, b)]: NaN if either argument is. *)
Definition Math_max (a b : number) : number :=
  match a, b with
  | NaN, _ | _, NaN => NaN
  | _, _ => if num_lt a b then b else a
  end.

Definition Math_min (a b : number) : number :=
  match a, b with
  | NaN, _ | _, NaN => NaN
  | _, _ => if num_lt b a then b else a
  end.

(** [ToIntegerOrInfinity], as [Array.prototype.slice] applies it to its
    arguments: NaN becomes 0, finite values are truncated toward zero.
    The result is an integer or an infinity. *)
Inductive int_or_inf : Type :=
| IInt (z : Z)
| IPosInf
| INegInf.

Definition Qtrunc (q : Q) : Z := Z.quot (Qnum q) (Zpos (Qden q)).

Definition ToIntegerOrInfinity (n : number) : int_or_inf :=
  match n with
  | NaN => IInt 0
  | Fin q => IInt (Qtrunc q)
  | PosInf => IPosInf
  | NegInf => INegInf
  end.

(** ** Rounding to binary64 *)

(** The integer nearest to [q], the even one of two that are equally near. *)
Definition round_half_even (q : Q) : Z :=
  let f := Qfloor q in
  match Qcompare (q - inject_Z f)%Q (1 # 2)%Q with
  | Lt => f
  | Gt => (f + 1)%Z
  | Eq => if Z.even f then f else (f + 1)%Z
  end.

(** [floor (log2 q)] for a positive [q]. *)
Definition ilog2 (q : Q) : Z :=
  let e := (Z.log2 (Qnum q) - Z.log2 (Zpos (Qden q)))%Z in
  if Qle_bool (Qpower 2%Q e) q then e else (e - 1)%Z.

(** The binary64 value nearest to the real number [q], ties to even: 53
    significant bits, exponents down to -1074 (below which values round to
    a subnormal or to zero) and an infinity from 2^1024 on. *)
Definition binary64 (q : Q) : number :=
  if Qeq_bool q 0%Q then Fin 0%Q
  else
    let a := Qabs q in
    let e := Z.max (ilog2 a - 52) (-1074) in
    let m := round_half_even (a * Qpower 2%Q (- e))%Q in
    let r := (inject_Z m * Qpower 2%Q e)%Q in
    if Qle_bool (Qpower 2%Q 1024) r then
      (if Qle_bool 0%Q q then PosInf else NegInf)
    else Fin (Qred (if Qle_bool 0%Q q then r else (- r)%Q)).

(** ** Arithmetic as the engine does it *)

Definition is_integral (q : Q) : bool := Qeq_bool (inject_Z (Qfloor q)) q.

(** The engine rounds the exact result of an operation to binary64.
    Between whole numbers the model keeps the exact result, which is the
    same thing up to 2^53. *)
Definition rounded (a b exact : number) : number :=
  match a, b, exact with
  | Fin x, Fin y, Fin r =>
      if is_integral x && is_integral y then Fin r else binary64 r
  | _, _, other => other
  end.

(** [a + b], [a - b] and [a * b] *)
Definition js_add (a b : number) : number := rounded a b (num_add a b).
Definition js_sub (a b : number) : number := rounded a b (num_sub a b).
Definition js_mul (a b : number) : number := rounded a b (num_mul a b).

(* ===================================================================== *)
(** ** Strings *)
(* ===================================================================== *)

Definition is_upper (c : ascii) : bool :=
  let n := nat_of_ascii c in (65 <=? n)%nat && (n <=? 90)%nat.

Definition is_lower (c : ascii) : bool :=
  let n := nat_of_ascii c in (97 <=? n)%nat && (n <=? 122)%nat.

Definition is_digit (c : ascii) : bool :=
  let n := nat_of_ascii c in (48 <=? n)%nat && (n <=? 57)%nat.

(** The whitespace class [\s], which is also what [trim] strips: tab, line
    feed, vertical tab, form feed, carriage return, space and no-break
    space. *)
Definition is_space (c : ascii) : bool :=
  let n := nat_of_ascii c in
  ((9 <=? n)%nat && (n <=? 13)%nat) || (n =? 32)%nat || (n =? 160)%nat.

(** The word class [\w]: letters, digits, underscore. *)
Definition is_word (c : ascii) : bool :=
  is_upper c || is_lower c || is_digit c || (nat_of_ascii c =? 95)%nat.

Definition is_hyphen (c : ascii) : bool := (nat_of_ascii c =? 45)%nat.

(** The characters with a lower-case form: A to Z and, above them, the
    capital letters from 192 to 222, of which 215 (the multiplication sign)
    is not one.  The lower-case form is 32 further. *)
Definition has_lower (c : ascii) : bool :=
  let n := nat_of_ascii c in
  is_upper c || ((192 <=? n)%nat && (n <=? 222)%nat && negb (n =? 215)%nat).

Definition lower_char (c : ascii) : ascii :=
  if has_lower c then ascii_of_nat (nat_of_ascii c + 32) else c.

Fixpoint toLowerCase (s : string) : string :=
  match s with
  | EmptyString => EmptyString
  | String c rest => String (lower_char c) (toLowerCase rest)
  end.

(** [s.includes(sub)] *)
Fixpoint includes (s sub : string) : bool :=
  String.prefix sub s ||
  match s with
  | EmptyString => false
  | String _ rest => includes rest sub
  end.

Fixpoint trimStart (s : string) : string :=
  match s with
  | EmptyString => EmptyString
  | String c rest => if is_space c then trimStart rest else s
  end.

(** Dropping trailing whitespace: a character is kept when something that
    is kept follows it, or when it is not whitespace itself. *)
Fixpoint trimEnd (s : string) : string :=
  match s with
  | EmptyString => EmptyString
  | String c rest =>
      match trimEnd rest with
      | EmptyString => if is_space c then EmptyString else String c EmptyString
      | kept => String c kept
      end
  end.

Definition trim (s : string) : string := trimEnd (trimStart s).

Definition string_of_nat (n : nat) : string :=
  NilZero.string_of_uint (Nat.to_uint n).

Definition string_of_Z (z : Z) : string :=
  NilZero.string_of_int (Z.to_int z).

Definition is_empty (s : string) : bool :=
  match s with EmptyString => true | _ => false end.

(* ===================================================================== *)
(** ** Values, exceptions and the host runtime *)
(* ===================================================================== *)

#[local] Set Warnings "-register-all".

Inductive value : Type :=
| VUndefined
| VNull
| VBool (b : bool)
| VNum (n : number)
| VStr (s : string)
| VArr (elems : list value)
| VObj (fields : list (string * value)).

(** A computation that returns or throws [new Error(msg)]. *)
Inductive Result (A : Type) : Type :=
| Ok (a : A)
| Throw (msg : string).
Arguments Ok {A} a.
Arguments Throw {A} msg.

Definition bind {A B : Type} (r : Result A) (k : A -> Result B) : Result B :=
  match r with
  | Ok a => k a
  | Throw msg => Throw msg
  end.

Notation "'let!' x ':=' r 'in' k" := (bind r (fun x => k))
  (at level 10, x name, r at level 100, k at level 200).

(** What the host provides and the routes only call: locale-aware string
    comparison, the SHA-256 digest in hexadecimal, and the prototypes of
    arrays, strings, numbers and booleans.
    [inherited_number v k] is about a key [k] that is not an own property of
    [v]: [None] when the prototype chain of [v] has no property [k] either;
    otherwise that property is a method or a prototype object, and
    [Some n] tells what [Number] makes of it. *)
Class Runtime : Type := {
  localeCompare : string -> string -> number;
  sha256_hex : string -> string;
  inherited_number : value -> string -> option number
}.

Definition typeof (v : value) : string :=
  match v with
  | VUndefined => "undefined"
  | VNull => "object"
  | VBool _ => "boolean"
  | VNum _ => "number"
  | VStr _ => "string"
  | VArr _ => "object"
  | VObj _ => "object"
  end.

Definition is_undefined (v : value) : bool :=
  match v with VUndefined => true | _ => false end.

Definition is_null (v : value) : bool :=
  match v with VNull => true | _ => false end.

(** [v == null], the test behind [??] and optional chaining. *)
Definition nullish (v : value) : bool := is_undefined v || is_null v.

(** ToBoolean *)
Definition truthy (v : value) : bool :=
  match v with
  | VUndefined | VNull => false
  | VBool b => b
  | VNum (Fin q) => negb (is_zero q)
  | VNum NaN => false
  | VNum _ => true
  | VStr s => negb (is_empty s)
  | VArr _ | VObj _ => true
  end.

Definition isArray (v : value) : bool :=
  match v with VArr _ => true | _ => false end.

(** [a === b] for two values that were built apart: primitives are
    compared by value, objects and arrays are then never the same object. *)
Definition strict_equals (a b : value) : bool :=
  match a, b with
  | VUndefined, VUndefined | VNull, VNull => true
  | VBool x, VBool y => Bool.eqb x y
  | VNum x, VNum y => num_eq x y
  | VStr x, VStr y => String.eqb x y
  | _, _ => false
  end.

Fixpoint assoc (k : string) (fields : list (string * value)) : value :=
  match fields with
  | [] => VUndefined
  | (k', v) :: rest => if String.eqb k k' then v else assoc k rest
  end.

Fixpoint has_key (k : string) (fields : list (string * value)) : bool :=
  match fields with
  | [] => false
  | (k', _) :: rest => String.eqb k k' || has_key k rest
  end.

(** Element [k] of an array when [k] is the decimal spelling of an index. *)
Fixpoint array_get (elems : list value) (i : nat) (k : string) : value :=
  match elems with
  | [] => VUndefined
  | e :: rest => if String.eqb k (string_of_nat i) then e else array_get rest (S i) k
  end.

Fixpoint string_get (s : string) (i : nat) (k : string) : value :=
  match s with
  | EmptyString => VUndefined
  | String c rest =>
      if String.eqb k (string_of_nat i) then VStr (String c EmptyString)
      else string_get rest (S i) k
  end.

(** [v[k]] for a [v] that is neither null nor undefined. *)
Definition get_prop (v : value) (k : string) : value :=
  match v with
  | VObj fields => assoc k fields
  | VArr elems =>
      if String.eqb k "length" then VNum (num_of_Z (Z.of_nat (List.length elems)))
      else array_get elems 0 k
  | VStr s =>
      if String.eqb k "length" then VNum (num_of_Z (Z.of_nat (String.length s)))
      else string_get s 0 k
  | _ => VUndefined
  end.

(** [v[k]] in general: reading a property of null or undefined throws. *)
Definition read_prop (v : value) (k : string) : Result value :=
  if nullish v then Throw "Cannot read properties of null or undefined"
  else Ok (get_prop v k).

(** Own enumerable properties, as object spread and rest see them. *)
Definition index_fields (elems : list value) : list (string * value) :=
  imap (fun i e => (string_of_nat i, e)) elems.

Definition char_values (s : string) : list value :=
  map (fun c => VStr (String c EmptyString)) (list_ascii_of_string s).

Definition own_fields (v : value) : list (string * value) :=
  match v with
  | VObj fields => fields
  | VArr elems => index_fields elems
  | VStr s => index_fields (char_values s)
  | _ => []
  end.

(** ** Properties found on the prototype chain *)

(** The properties every object inherits from [Object.prototype]. *)
Definition Object_prototype : list string :=
  ["constructor"; "__defineGetter__"; "__defineSetter__"; "hasOwnProperty";
   "__lookupGetter__"; "__lookupSetter__"; "isPrototypeOf"; "propertyIsEnumerable";
   "toString"; "valueOf"; "__proto__"; "toLocaleString"].

Definition is_index (len : nat) (k : string) : bool :=
  existsb (fun i => String.eqb k (string_of_nat i)) (seq 0 len).

Definition has_own (v : value) (k : string) : bool :=
  match v with
  | VObj fields => has_key k fields
  | VArr elems => String.eqb k "length" || is_index (List.length elems) k
  | VStr s => String.eqb k "length" || is_index (String.length s) k
  | _ => false
  end.

(** What [v[k]] finds: an own property, which is a value of JSON shape (or
    nothing, which reads as undefined), or an inherited one, of which the
    model keeps what [Number] makes of it.  An inherited property is never
    undefined, a string or a [Date].  On an object read from JSON it is a
    method of [Object.prototype] or, for [__proto__], that prototype: both
    convert to NaN. *)
Inductive property : Type :=
| Own (v : value)
| Inherited (n : number).

Definition lookup `{Runtime} (v : value) (k : string) : property :=
  if has_own v k then Own (get_prop v k)
  else
    match v with
    | VObj _ =>
        if existsb (String.eqb k) Object_prototype then Inherited NaN
        else Own VUndefined
    | _ =>
        match inherited_number v k with
        | Some n => Inherited n
        | None => Own VUndefined
        end
    end.

(** [v[k]] with the prototype chain; on null or undefined it throws. *)
Definition index `{Runtime} (v : value) (k : string) : Result property :=
  if nullish v then Throw "Cannot read properties of null or undefined"
  else Ok (lookup v k).

(** ** Number to string *)

Definition two_pow_53 : Z := 2 ^ 53.

(** How many decimal digits a positive integer has. *)
Definition digits_of (z : Z) : Z := Z.of_nat (String.length (string_of_Z z)).

(** The [n] with [10^(n-1) <= q < 10^n], for a positive [q]. *)
Definition decimal_exponent (q : Q) : Z :=
  let n0 :=
    if Qle_bool 1%Q q then digits_of (Qfloor q)
    else (1 - digits_of (Qfloor (/ q)))%Z in
  if Qle_bool (Qpower 10%Q n0) q then (n0 + 1)%Z else n0.

Definition reads_back (x : Q) (s e : Z) : bool :=
  match binary64 (inject_Z s * Qpower 10%Q e)%Q with
  | Fin y => Qeq_bool y x
  | _ => false
  end.

(** The shortest decimal [s * 10^e] that reads back as the positive
    binary64 value [x], tried with [k], [k + 1], ... digits; of two that do
    with the same number of digits, the nearer to [x], and the even one if
    they are as near.  Seventeen digits always do. *)
Fixpoint shortest_decimal (fuel : nat) (k n : Z) (x : Q) : Z * Z :=
  match fuel with
  | O => (0%Z, 0%Z)
  | S fuel' =>
      let e := (n - k)%Z in
      let scaled := (x * Qpower 10%Q (- e))%Q in
      let lo := Qfloor scaled in
      let hi := (lo + 1)%Z in
      match reads_back x lo e, reads_back x hi e with
      | true, true =>
          match Qcompare (scaled - inject_Z lo)%Q (1 # 2)%Q with
          | Lt => (lo, e)
          | Gt => (hi, e)
          | Eq => if Z.even lo then (lo, e) else (hi, e)
          end
      | true, false => (lo, e)
      | false, true => (hi, e)
      | false, false => shortest_decimal fuel' (k + 1)%Z n x
      end
  end.

(** Digits that end in zeros are written without them, one power of ten
    higher for each. *)
Fixpoint strip_zeros (fuel : nat) (s e : Z) : Z * Z :=
  match fuel with
  | O => (s, e)
  | S fuel' =>
      if (0 <? s)%Z && (s mod 10 =? 0)%Z then strip_zeros fuel' (s / 10)%Z (e + 1)%Z
      else (s, e)
  end.

Fixpoint zeros (n : nat) : string :=
  match n with
  | O => EmptyString
  | S n' => String "0" (zeros n')
  end.

Definition exponent_part (n : Z) : string :=
  "e" +:+ (if (0 <=? n - 1)%Z then "+" else "-") +:+ string_of_Z (Z.abs (n - 1)).

(** The text of [s * 10^(n - k)], [k] being the number of digits of [s]:
    plain up to 21 digits before the point and 6 zeros after it, with an
    exponent beyond. *)
Definition decimal_string (s n : Z) : string :=
  let ds := string_of_Z s in
  let k := digits_of s in
  if (k <=? n)%Z && (n <=? 21)%Z then ds +:+ zeros (Z.to_nat (n - k))
  else if (0 <? n)%Z && (n <=? 21)%Z then
    String.substring 0 (Z.to_nat n) ds +:+ "."
    +:+ String.substring (Z.to_nat n) (Z.to_nat (k - n)) ds
  else if (-6 <? n)%Z && (n <=? 0)%Z then "0." +:+ zeros (Z.to_nat (- n)) +:+ ds
  else if (k =? 1)%Z then ds +:+ exponent_part n
  else
    String.substring 0 1 ds +:+ "."
    +:+ String.substring 1 (Z.to_nat (k - 1)) ds +:+ exponent_part n.

(** [Number.prototype.toString] of a positive binary64 value. *)
Definition positive_toString (x : Q) : string :=
  let found := shortest_decimal 17 1 (decimal_exponent x) x in
  let stripped := strip_zeros 17 (fst found) (snd found) in
  decimal_string (fst stripped) (digits_of (fst stripped) + snd stripped).

(** [Number.prototype.toString].  Whole numbers of magnitude up to 2^53
    are binary64 values that print with all their digits; in general the
    digits are the shortest that read back as the same binary64 value, so
    2^57 is written 144115188075855870.  A finite [q] that is no binary64
    value, which no JavaScript number is, is written as the nearest one. *)
Definition Number_toString (n : number) : string :=
  match n with
  | NaN => "NaN"
  | PosInf => "Infinity"
  | NegInf => "-Infinity"
  | Fin q =>
      if is_integral q && (Z.abs (Qfloor q) <=? two_pow_53)%Z
      then string_of_Z (Qfloor q)
      else
        match binary64 (Qabs q) with
        | Fin x =>
            if Qeq_bool x 0%Q then "0"
            else (if Qle_bool 0%Q q then "" else "-") +:+ positive_toString x
        | _ => if Qle_bool 0%Q q then "Infinity" else "-Infinity"
        end
  end.

(** Whether converting [v] to a primitive throws a TypeError.  An object
    read from JSON has no method of its own: an own property [toString]
    hides [Object.prototype.toString] and is not callable, and the inherited
    [valueOf] returns the object, so neither yields a primitive.  An array
    converts through [join], which converts each element that is not null
    or undefined. *)
Fixpoint unconvertible (v : value) : bool :=
  match v with
  | VObj fields => has_key "toString" fields
  | VArr elems => existsb unconvertible elems
  | _ => false
  end.

Definition cannot_convert : string := "Cannot convert object to primitive value".

(** ToString of a value that converts; an array joins its elements with
    commas, writing null and undefined elements as the empty string. *)
Fixpoint ToString `{Runtime} (v : value) : string :=
  match v with
  | VUndefined => "undefined"
  | VNull => "null"
  | VBool true => "true"
  | VBool false => "false"
  | VNum n => Number_toString n
  | VStr s => s
  | VArr elems =>
      String.concat ","
        (map (fun e => if nullish e then "" else ToString e) elems)
  | VObj _ => "[object Object]"
  end.

(** [arr.join(sep)] when every element converts. *)
Definition join `{Runtime} (elems : list value) (sep : string) : string :=
  String.concat sep (map (fun e => if nullish e then "" else ToString e) elems).

(** [arr.join(sep)] *)
Definition Array_join `{Runtime} (elems : list value) (sep : string) : Result string :=
  if existsb unconvertible elems then Throw cannot_convert
  else Ok (join elems sep).

(** ** String to number *)

Definition digit_of (c : ascii) : Z := Z.of_nat (nat_of_ascii c - 48).

(** Value of [c] as a digit in base [radix], if it is one. *)
Definition radix_digit (radix : Z) (c : ascii) : option Z :=
  let n := nat_of_ascii c in
  let d :=
    if is_digit c then Some (Z.of_nat (n - 48))
    else if (97 <=? n)%nat && (n <=? 102)%nat then Some (Z.of_nat (n - 87))
    else if (65 <=? n)%nat && (n <=? 70)%nat then Some (Z.of_nat (n - 55))
    else None in
  match d with
  | Some z => if (z <? radix)%Z then Some z else None
  | None => None
  end.

(** Longest prefix of decimal digits: its value on top of [acc], how many
    digits were read, and what follows. *)
Fixpoint take_digits (s : string) (acc : Z) (n : nat) : Z * nat * string :=
  match s with
  | EmptyString => (acc, n, EmptyString)
  | String c rest =>
      if is_digit c then take_digits rest (acc * 10 + digit_of c)%Z (S n)
      else (acc, n, s)
  end.

(** A whole string of base-[radix] digits, at least one. *)
Fixpoint radix_digits (radix : Z) (s : string) (acc : Z) (n : nat) : option Z :=
  match s with
  | EmptyString => if (n =? 0)%nat then None else Some acc
  | String c rest =>
      match radix_digit radix c with
      | Some d => radix_digits radix rest (acc * radix + d)%Z (S n)
      | None => None
      end
  end.

Definition take_sign (s : string) : Z * string :=
  match s with
  | String "+" rest => (1%Z, rest)
  | String "-" rest => ((-1)%Z, rest)
  | _ => (1%Z, s)
  end.

(** The exponent part, which must end the literal. *)
Definition parse_exponent (s : string) : option Z :=
  match s with
  | EmptyString => Some 0%Z
  | String c rest =>
      if Ascii.eqb c "e" || Ascii.eqb c "E" then
        let '(sg, r) := take_sign rest in
        match take_digits r 0 0 with
        | (e, S _, EmptyString) => Some (sg * e)%Z
        | _ => None
        end
      else None
  end.

(** The number a decimal literal denotes: the binary64 value nearest to
    [mant * 10^exp10]. *)
Definition scale (mant : Z) (exp10 : Z) : number :=
  binary64 (inject_Z mant * Qpower (inject_Z 10) exp10)%Q.

(** StrDecimalLiteral *)
Definition parse_decimal (s : string) : number :=
  let '(sg, body) := take_sign s in
  if String.eqb body "Infinity" then (if (sg <? 0)%Z then NegInf else PosInf)
  else
    let '(m1, n1, r1) := take_digits body 0 0 in
    let '(m2, n2, r2) :=
      match r1 with
      | String "." after => take_digits after m1 0
      | _ => (m1, 0%nat, r1)
      end in
    if (n1 + n2 =? 0)%nat then NaN
    else
      match parse_exponent r2 with
      | Some e => scale (sg * m2) (e - Z.of_nat n2)
      | None => NaN
      end.

(** StringToNumber: surrounding whitespace is dropped, the empty string is
    0, a literal with a radix prefix is an integer, anything that is not a
    numeric literal is NaN; the value of a literal is rounded to binary64. *)
Definition StringToNumber (s : string) : number :=
  match trim s with
  | EmptyString => Fin 0
  | String "0" (String p rest) as t =>
      let radix :=
        if Ascii.eqb p "x" || Ascii.eqb p "X" then Some 16%Z
        else if Ascii.eqb p "o" || Ascii.eqb p "O" then Some 8%Z
        else if Ascii.eqb p "b" || Ascii.eqb p "B" then Some 2%Z
        else None in
      match radix with
      | Some r =>
          match radix_digits r rest 0 0 with
          | Some z => binary64 (inject_Z z)
          | None => NaN
          end
      | None => parse_decimal t
      end
  | t => parse_decimal t
  end.

(** ToNumber of a value that converts. *)
Definition ToNumber `{Runtime} (v : value) : number :=
  match v with
  | VUndefined => NaN
  | VNull => Fin 0
  | VBool true => Fin 1
  | VBool false => Fin 0
  | VNum n => n
  | VStr s => StringToNumber s
  | VArr _ | VObj _ => StringToNumber (ToString v)
  end.

(** [Number(v)] *)
Definition Number_of `{Runtime} (v : value) : Result number :=
  if unconvertible v then Throw cannot_convert else Ok (ToNumber v).

(** [Number(a[k])] on what [lookup] found. *)
Definition Number_of_property `{Runtime} (p : property) : Result number :=
  match p with
  | Own v => Number_of v
  | Inherited n => Ok n
  end.

(** ** JSON *)

(** [JSON.parse(JSON.stringify(v))] for a [v] that is not undefined: a
    property whose value is undefined is left out, an undefined element of
    an array and a number that is not finite become null.  An object lists
    each key once. *)
Fixpoint JSON_roundtrip (v : value) : value :=
  match v with
  | VNum n => if isFinite n then VNum n else VNull
  | VArr elems =>
      VArr (map (fun e => if is_undefined e then VNull else JSON_roundtrip e) elems)
  | VObj fields =>
      VObj ((fix props (fs : list (string * value)) : list (string * value) :=
               match fs with
               | [] => []
               | (k, e) :: rest =>
                   if is_undefined e then props rest
                   else (k, JSON_roundtrip e) :: props rest
               end) fields)
  | other => other
  end.

End JS.

(* ===================================================================== *)
(** ** /api/orders *)
(* ===================================================================== *)

Module Orders.
Import JS.

(** *** Helper types *)

Record OrderItemRequest : Type := {
  productId : string;
  quantity : number;
  price : option number          (* [None] is [undefined] *)
}.

Record CreateOrderRequest : Type := {
  userId : string;
  items : list OrderItemRequest;
  shipping : option value;
  paymentMethod : option string;
  total : number
}.

(** Casts, applied only to values whose [typeof] was just tested. *)
Definition as_string (v : value) : string :=
  match v with VStr s => s | _ => EmptyString end.

Definition as_number (v : value) : number :=
  match v with VNum n => n | _ => NaN end.

Definition as_array (v : value) : list value :=
  match v with VArr l => l | _ => [] end.

(** [Number.isFinite(v)]: false for everything that is not a number. *)
Definition Number_isFinite (v : value) : bool :=
  match v with VNum n => isFinite n | _ => false end.

(** [arr.map((it, idx) => f(it, idx))] for a callback that may throw. *)
Fixpoint Array_map {B : Type} (f : value -> nat -> Result B)
    (arr : list value) (idx : nat) : Result (list B) :=
  match arr with
  | [] => Ok []
  | it :: rest =>
      let! b := f it idx in
      let! bs := Array_map f rest (S idx) in
      Ok (b :: bs)
  end.

(** The test that guards the quantity error. *)
Definition quantity_rejected (q : value) : bool :=
  negb (String.eqb (typeof q) "number")
  || negb (Number_isFinite q)
  || num_le (as_number q) (Fin 0)
  || negb (num_eq (floor (as_number q)) (as_number q)).

Definition quantity_error (idx : nat) : string :=
  "Missing or invalid 'quantity' for item at index " +:+ string_of_nat idx
  +:+ ". Must be a positive integer.".

(** The callback of [p.items.map] in [validateOrderPayload]. *)
Definition validateItem (it : value) (idx : nat) : Result OrderItemRequest :=
  if negb (String.eqb (typeof it) "object") || is_null it then
    Throw ("Item at index " +:+ string_of_nat idx +:+ " must be an object.")
  else
    let item := it in
    if negb (truthy (get_prop item "productId"))
       || negb (String.eqb (typeof (get_prop item "productId")) "string") then
      Throw ("Missing or invalid 'productId' for item at index "
             +:+ string_of_nat idx +:+ ".")
    else if quantity_rejected (get_prop item "quantity") then
      Throw (quantity_error idx)
    else
      let! price :=
        (if is_undefined (get_prop item "price") then Ok None
         else if String.eqb (typeof (get_prop item "price")) "number"
                 && Number_isFinite (get_prop item "price")
              then Ok (Some (as_number (get_prop item "price")))
              else Throw ("Invalid 'price' for item at index "
                          +:+ string_of_nat idx +:+ ".")) in
      Ok {| productId := as_string (get_prop item "productId");
            quantity := as_number (get_prop item "quantity");
            price := price |}.

Definition validateOrderPayload (payload : value) : Result CreateOrderRequest :=
  if negb (String.eqb (typeof payload) "object") || is_null payload then
    Throw "Payload must be a JSON object."
  else
    let p := payload in
    if negb (truthy (get_prop p "userId"))
       || negb (String.eqb (typeof (get_prop p "userId")) "string") then
      Throw "Missing or invalid 'userId'."
    else if negb (isArray (get_prop p "items"))
            || (List.length (as_array (get_prop p "items")) =? 0)%nat then
      Throw "'items' must be a non-empty array."
    else
      let! items := Array_map validateItem (as_array (get_prop p "items")) 0 in
      if negb (String.eqb (typeof (get_prop p "total")) "number")
         || negb (Number_isFinite (get_prop p "total"))
         || num_lt (as_number (get_prop p "total")) (Fin 0) then
        Throw "Missing or invalid 'total'. Must be a non-negative number."
      else
        let shipping :=
          if truthy (get_prop p "shipping")
             && String.eqb (typeof (get_prop p "shipping")) "object"
          then Some (get_prop p "shipping") else None in
        let paymentMethod :=
          if truthy (get_prop p "paymentMethod")
             && String.eqb (typeof (get_prop p "paymentMethod")) "string"
          then Some (as_string (get_prop p "paymentMethod")) else None in
        Ok {| userId := as_string (get_prop p "userId");
              items := items;
              shipping := shipping;
              paymentMethod := paymentMethod;
              total := as_number (get_prop p "total") |}.

(** *** The store *)

(** Modelled from the spec: the Prisma schema is not part of the sources.
    The tables carry the columns the handlers read and write; [User] and
    [Product] are keyed by their id, an order's id is its position in the
    [Order] table, and a column that may be null is an [option]. *)
Record UserRow : Type := {
  u_name : option string;
  u_email : string;
  u_password : string
}.

Record ProductRow : Type := {
  r_name : string;
  r_price : option number;
  r_stock : option number        (* [None]: stock is not tracked *)
}.

Record OrderRow : Type := {
  o_userId : string;
  o_total : number;
  o_status : string;
  o_paymentMethod : option string;
  o_shipping : option value
}.

Record OrderItemRow : Type := {
  oi_orderId : nat;
  oi_productId : string;
  oi_quantity : number;
  oi_price : number
}.

(** Modelled from the spec: the four tables behind the Prisma client,
    which the handlers reach only through its calls. *)
Record Store : Type := {
  users : gmap string UserRow;
  products : gmap string ProductRow;
  orders : list OrderRow;
  orderItems : list OrderItemRow
}.

(** A product as [findMany] returns it under
    [select: { id, price, stock, name }]. *)
Record Product : Type := {
  p_id : string;
  p_price : option number;
  p_stock : option number;
  p_name : string
}.

Definition select_product (kv : string * ProductRow) : Product :=
  {| p_id := kv.1; p_price := r_price kv.2; p_stock := r_stock kv.2;
     p_name := r_name kv.2 |}.

(** [prisma.user.findUnique({ where: { id } })] *)
Definition user_findUnique (id : string) (db : Store) : option UserRow :=
  users db !! id.

(** [prisma.product.findMany({ where: { id: { in: ids } }, select })] *)
Definition product_findMany_in (ids : list string) (db : Store) : list Product :=
  select_product <$>
    map_to_list (filter (fun kv : string * ProductRow => kv.1 ∈ ids) (products db)).

(** [tx.order.create({ data })]: the new table and the id of the new row. *)
Definition order_create (row : OrderRow) (db : Store) : Store * nat :=
  ({| users := users db; products := products db;
      orders := orders db ++ [row]; orderItems := orderItems db |},
   List.length (orders db)).

(** [tx.orderItem.create({ data })] *)
Definition orderItem_create (row : OrderItemRow) (db : Store) : Store :=
  {| users := users db; products := products db;
     orders := orders db; orderItems := orderItems db ++ [row] |}.

Definition decrement_stock (by_ : number) (row : ProductRow) : ProductRow :=
  {| r_name := r_name row; r_price := r_price row;
     r_stock := (fun s => num_sub s by_) <$> r_stock row |}.

(** [tx.product.update({ where: { id }, data: { stock: { decrement } } })]:
    the subtraction is done by the store on the row as it is now. *)
Definition product_update_decrement (id : string) (by_ : number) (db : Store) : Store :=
  {| users := users db;
     products := alter (decrement_stock by_) id (products db);
     orders := orders db; orderItems := orderItems db |}.

(** *** Responses *)

Record UserView : Type := {
  uv_id : string;
  uv_name : option string;
  uv_email : string
}.

Record FullItem : Type := {
  fi_row : OrderItemRow;
  fi_product : option ProductRow
}.

Record FullOrder : Type := {
  fo_id : nat;
  fo_row : OrderRow;
  fo_items : list FullItem;
  fo_user : option UserView
}.

(** [user: { select: { id: true, name: true, email: true } }] *)
Definition select_user (id : string) (u : UserRow) : UserView :=
  {| uv_id := id; uv_name := u_name u; uv_email := u_email u |}.

Definition include_product (db : Store) (row : OrderItemRow) : FullItem :=
  {| fi_row := row; fi_product := products db !! oi_productId row |}.

(** An order row with [include: { items: { include: { product } }, user }]. *)
Definition hydrate (db : Store) (id : nat) (row : OrderRow) : FullOrder :=
  {| fo_id := id;
     fo_row := row;
     fo_items :=
       include_product db <$>
         List.filter (fun it => (oi_orderId it =? id)%nat) (orderItems db);
     fo_user := select_user (o_userId row) <$> users db !! o_userId row |}.

(** [tx.order.findUnique({ where: { id }, include })] *)
Definition order_findUnique (id : nat) (db : Store) : option FullOrder :=
  hydrate db id <$> orders db !! id.

(** [prisma.order.findMany({ orderBy: { createdAt: "desc" }, include })]:
    rows are appended as they are created, so newest first is the table
    read backwards. *)
Definition order_findMany (db : Store) : list FullOrder :=
  reverse (imap (hydrate db) (orders db)).

Inductive Body : Type :=
| Failure (error : string)               (* { success: false, error } *)
| Created (data : option FullOrder)      (* { success: true, data } *)
| Listing (data : list FullOrder).       (* { success: true, data } *)

Record Response : Type := {
  status : nat;
  body : Body
}.

Definition json_option {A : Type} (f : A -> value) (o : option A) : value :=
  match o with Some a => f a | None => VNull end.

Definition user_json (u : UserView) : value :=
  VObj [("id", VStr (uv_id u));
        ("name", json_option VStr (uv_name u));
        ("email", VStr (uv_email u))].

Definition product_json (id : string) (r : ProductRow) : value :=
  VObj [("id", VStr id);
        ("name", VStr (r_name r));
        ("price", json_option VNum (r_price r));
        ("stock", json_option VNum (r_stock r))].

Definition item_json (it : FullItem) : value :=
  VObj [("orderId", VNum (num_of_Z (Z.of_nat (oi_orderId (fi_row it)))));
        ("productId", VStr (oi_productId (fi_row it)));
        ("quantity", VNum (oi_quantity (fi_row it)));
        ("price", VNum (oi_price (fi_row it)));
        ("product", json_option (product_json (oi_productId (fi_row it))) (fi_product it))].

Definition order_json (o : FullOrder) : value :=
  VObj [("id", VNum (num_of_Z (Z.of_nat (fo_id o))));
        ("userId", VStr (o_userId (fo_row o)));
        ("total", VNum (o_total (fo_row o)));
        ("status", VStr (o_status (fo_row o)));
        ("paymentMethod", json_option VStr (o_paymentMethod (fo_row o)));
        ("shipping", json_option (fun v => v) (o_shipping (fo_row o)));
        ("items", VArr (item_json <$> fo_items o));
        ("user", json_option user_json (fo_user o))].

(** The JSON document [NextResponse.json] sends. *)
Definition body_json (b : Body) : value :=
  match b with
  | Failure error => VObj [("success", VBool false); ("error", VStr error)]
  | Created data => VObj [("success", VBool true); ("data", json_option order_json data)]
  | Listing data => VObj [("success", VBool true); ("data", VArr (order_json <$> data))]
  end.

(** *** GET *)

Definition GET (db : Store) : Response :=
  {| status := 200; body := Listing (order_findMany db) |}.

(** *** POST *)

Record Request : Type := {
  json : Result value            (* [await request.json()] *)
}.

Definition insufficient_stock `{Runtime} (prod : Product) (item : OrderItemRequest)
    (stock : number) : string :=
  "Insufficient stock for product " +:+ p_name prod +:+ " (" +:+ p_id prod
  +:+ "). Requested " +:+ Number_toString (quantity item)
  +:+ ", available " +:+ Number_toString stock +:+ ".".

(** The first loop over [data.items]: [Some] is the response of an early
    [return], [None] means the loop ran to its end. *)
Fixpoint check_items `{Runtime} (productsById : gmap string Product)
    (its : list OrderItemRequest) : option Response :=
  match its with
  | [] => None
  | item :: rest =>
      match productsById !! productId item with
      | None =>
          Some {| status := 404;
                  body := Failure ("Product not found: " +:+ productId item) |}
      | Some prod =>
          match p_stock prod with
          | Some stock =>
              if num_lt stock (quantity item) then
                Some {| status := 400;
                        body := Failure (insufficient_stock prod item stock) |}
              else check_items productsById rest
          | None => check_items productsById rest
          end
      end
  end.

(** [a ?? b] on an optional number. *)
Definition nullish_or (a : option number) (b : number) : number :=
  match a with Some x => x | None => b end.

Definition item_price (item : OrderItemRequest) (prod : Product) : number :=
  match price item with
  | Some explicit => explicit
  | None => nullish_or (p_price prod) (Fin 0)
  end.

(** The second loop, inside the transaction.  [productsById.get(..)!]
    on an id that is not in the map yields undefined, and reading its
    price throws. *)
Fixpoint write_items (productsById : gmap string Product) (orderId : nat)
    (its : list OrderItemRequest) (db : Store) : Result Store :=
  match its with
  | [] => Ok db
  | item :: rest =>
      match productsById !! productId item with
      | None => Throw "Cannot read properties of undefined (reading 'price')"
      | Some prod =>
          let db1 :=
            orderItem_create
              {| oi_orderId := orderId;
                 oi_productId := productId item;
                 oi_quantity := quantity item;
                 oi_price := item_price item prod |} db in
          let db2 :=
            match p_stock prod with
            | Some _ => product_update_decrement (p_id prod) (quantity item) db1
            | None => db1
            end in
          write_items productsById orderId rest db2
      end
  end.

(** The callback of [prisma.$transaction]. *)
Definition create_order (data : CreateOrderRequest)
    (productsById : gmap string Product) (tx : Store)
  : Result (Store * option FullOrder) :=
  let '(tx1, orderId) :=
    order_create
      {| o_userId := userId data;
         o_total := total data;
         o_status := "pending";
         o_paymentMethod := paymentMethod data;
         o_shipping := shipping data |} tx in
  let! tx2 := write_items productsById orderId (items data) tx1 in
  let fullOrder := order_findUnique orderId tx2 in
  Ok (tx2, fullOrder).

(** The status the [catch] block picks from the message text. *)
Definition catch_status (message : string) : nat :=
  if (negb (is_empty message) && includes (toLowerCase message) "missing")
     || includes (toLowerCase message) "invalid"
  then 400 else 500.

Definition on_error (message : string) : Response :=
  {| status := catch_status message; body := Failure message |}.

(** The handler: the store after the request and the response.  A throw
    inside the transaction leaves the store as it was. *)
Definition POST `{Runtime} (request : Request) (db : Store) : Store * Response :=
  match (let! payload := json request in validateOrderPayload payload) with
  | Throw message => (db, on_error message)
  | Ok data =>
      match user_findUnique (userId data) db with
      | None => (db, {| status := 404; body := Failure "User not found." |})
      | Some user =>
          let productIds := remove_dups (productId <$> items data) in
          let products := product_findMany_in productIds db in
          let productsById : gmap string Product :=
            list_to_map ((fun p => (p_id p, p)) <$> products) in
          match check_items productsById (items data) with
          | Some response => (db, response)
          | None =>
              match create_order data productsById db with
              | Throw message => (db, on_error message)
              | Ok (db', createdOrder) =>
                  (db', {| status := 201; body := Created createdOrder |})
              end
          end
      end
  end.

End Orders.

(* ===================================================================== *)
(** ** /api/products *)
(* ===================================================================== *)

Module Products.
Import JS.

(** *** slugify *)

(** [replace(/\s+/g, "-")]: every maximal run of whitespace becomes one
    hyphen.  [in_run] tells that the previous character was whitespace. *)
Fixpoint spaces_to_hyphen (in_run : bool) (s : string) : string :=
  match s with
  | EmptyString => EmptyString
  | String c rest =>
      if is_space c then
        (if in_run then spaces_to_hyphen true rest
         else String "-" (spaces_to_hyphen true rest))
      else String c (spaces_to_hyphen false rest)
  end.

(** [replace(/[^\w\-]+/g, "")] *)
Fixpoint strip_non_word (s : string) : string :=
  match s with
  | EmptyString => EmptyString
  | String c rest =>
      if is_word c || is_hyphen c then String c (strip_non_word rest)
      else strip_non_word rest
  end.

(** [replace(/\-\-+/g, "-")]: a run of two or more hyphens becomes one;
    [after_hyphen] tells that the previous character was a hyphen. *)
Fixpoint collapse_hyphens (after_hyphen : bool) (s : string) : string :=
  match s with
  | EmptyString => EmptyString
  | String c rest =>
      if is_hyphen c then
        (if after_hyphen then collapse_hyphens true rest
         else String c (collapse_hyphens true rest))
      else String c (collapse_hyphens false rest)
  end.

Definition slugify (str : string) : string :=
  collapse_hyphens false
    (strip_non_word
       (spaces_to_hyphen false
          (toLowerCase (trim str)))).

(** *** The fallback file store

    The content of [data/products.json], already parsed; [None] is a
    content that [JSON.parse] rejects.  The file is there and can be read;
    what a failing disk does to a request is in [Env] below. *)
Definition DataFile : Type := option value.

Definition readProductsFromFile (file : DataFile) : list value :=
  match file with
  | Some (VArr parsed) => parsed
  | _ => []
  end.

(** The file holds the JSON text of the products, so what is read back is
    what JSON keeps of them. *)
Definition writeProductsToFile (products : list value) : DataFile :=
  Some (JSON_roundtrip (VArr products)).

(** *** validateProductPayload *)

Record PartialProduct : Type := {
  v_name : option string;
  v_price : option number;
  v_description : option string;
  v_image : option string;
  v_stock : option number;
  v_category : option string;
  v_slug : option string
}.

Inductive Validation : Type :=
| Valid (value : PartialProduct)
| Invalid (errors : list string).

Definition as_string (v : value) : string :=
  match v with VStr s => s | _ => EmptyString end.

(** [x && typeof x === "string"] *)
Definition nonempty_string (v : value) : bool :=
  truthy v && String.eqb (typeof v) "string".

(** [price === undefined || price === null || isNaN(Number(price))] *)
Definition price_rejected `{Runtime} (price : value) : Result bool :=
  if is_undefined price || is_null price then Ok true
  else let! n := Number_of price in Ok (isNaN n).

(** [stock !== undefined], then [isNaN(s) || !Number.isFinite(s)] for
    [s = Number(stock)]. *)
Definition stock_rejected `{Runtime} (stock : value) : Result bool :=
  if is_undefined stock then Ok false
  else let! s := Number_of stock in Ok (isNaN s || negb (isFinite s)).

(** The validator throws when [Number] does, on the price or else on the
    stock. *)
Definition validateProductPayload `{Runtime} (body : value) : Result Validation :=
  if negb (truthy body) || negb (String.eqb (typeof body) "object") then
    Ok (Invalid ["Invalid JSON payload"])
  else
    let name := get_prop body "name" in
    let price := get_prop body "price" in
    let description := get_prop body "description" in
    let image := get_prop body "image" in
    let stock := get_prop body "stock" in
    let category := get_prop body "category" in
    let slug := get_prop body "slug" in
    let name_bad :=
      negb (truthy name) || negb (String.eqb (typeof name) "string")
      || (String.length (trim (as_string name)) <? 1)%nat in
    let! price_bad := price_rejected price in
    let! stock_bad := stock_rejected stock in
    let errors :=
      ((if name_bad then ["name is required and must be a non-empty string"] else [])
       ++ (if price_bad then ["price is required and must be a number"] else [])
       ++ (if stock_bad then ["stock must be a number"] else []))%list in
    let value :=
      {| v_name := if name_bad then None else Some (trim (as_string name));
         v_price := if price_bad then None else Some (ToNumber price);
         v_description :=
           if nonempty_string description then Some (trim (as_string description))
           else None;
         v_image :=
           if nonempty_string image then Some (trim (as_string image)) else None;
         v_stock :=
           if is_undefined stock || stock_bad then None else Some (ToNumber stock);
         v_category :=
           if nonempty_string category then Some (trim (as_string category))
           else None;
         v_slug :=
           if nonempty_string slug then Some (slugify (as_string slug)) else None |} in
    Ok (if (0 <? List.length errors)%nat then Invalid errors else Valid value).

(** *** GET: the effective query *)

(** [url.searchParams]: the first value of a name is the one [get] returns. *)
Definition SearchParams : Type := list (string * string).

Fixpoint searchParams_get (params : SearchParams) (name : string) : option string :=
  match params with
  | [] => None
  | (k, v) :: rest => if String.eqb k name then Some v else searchParams_get rest name
  end.

(** [a || b] for a parameter that is a string or null. *)
Definition or_else {A : Type} (a : option string) (inj : string -> A) (b : A) : A :=
  match a with
  | Some s => if is_empty s then b else inj s
  | None => b
  end.

Record Query : Type := {
  search : string;
  category : option string;
  page : number;
  limit : number;
  sort : string;
  order : string
}.

Definition parse_query `{Runtime} (params : SearchParams) : Query :=
  {| search :=
       or_else (searchParams_get params "q") (fun s => s)
         (or_else (searchParams_get params "search") (fun s => s) "");
     category := or_else (searchParams_get params "category") Some None;
     page :=
       Math_max (Fin 1)
         (ToNumber (or_else (searchParams_get params "page") VStr (VNum (Fin 1))));
     limit :=
       Math_min (Fin 100)
         (Math_max (Fin 1)
            (ToNumber (or_else (searchParams_get params "limit") VStr (VNum (Fin 20)))));
     sort := or_else (searchParams_get params "sort") (fun s => s) "createdAt";
     order := toLowerCase (or_else (searchParams_get params "order") (fun s => s) "desc") |}.

(** *** GET: filter, sort, paginate over the file store *)

Definition not_a_function : string := "toLowerCase is not a function".

(** [v && v.toLowerCase().includes(s)], as a condition. *)
Definition text_matches (v : value) (s : string) : Result bool :=
  if truthy v then
    match v with
    | VStr t => Ok (includes (toLowerCase t) s)
    | _ => Throw not_a_function
    end
  else Ok false.

(** The callback of the search filter. *)
Definition matches_search `{Runtime} (s : string) (p : value) : Result bool :=
  let! name := read_prop p "name" in
  let! by_name := text_matches name s in
  if by_name then Ok true
  else
    let description := get_prop p "description" in
    let! by_description := text_matches description s in
    if by_description then Ok true
    else
      let category := get_prop p "category" in
      if String.eqb (typeof category) "string"
         && includes (toLowerCase (as_string category)) s then Ok true
      else
        match category with
        | VArr l => let! joined := Array_join l " " in Ok (includes (toLowerCase joined) s)
        | _ => Ok false
        end.

Definition is_string_equal (v : value) (s : string) : bool :=
  match v with VStr t => String.eqb t s | _ => false end.

(** The callback of the category filter. *)
Definition matches_category (category : string) (p : value) : Result bool :=
  let! c := read_prop p "category" in
  match c with
  | VArr l => Ok (existsb (fun e => is_string_equal e category) l)
  | _ => Ok (is_string_equal c category)
  end.

(** [arr.filter(f)] for a callback that may throw. *)
Fixpoint Array_filter (f : value -> Result bool) (arr : list value) : Result (list value) :=
  match arr with
  | [] => Ok []
  | p :: rest =>
      let! keep := f p in
      let! kept := Array_filter f rest in
      Ok (if keep then p :: kept else kept)
  end.

(** [aVal === undefined] *)
Definition reads_undefined (p : property) : bool :=
  match p with Own VUndefined => true | _ => false end.

(** [typeof aVal === "string"] *)
Definition reads_string (p : property) : bool :=
  match p with Own (VStr _) => true | _ => false end.

Definition string_read (p : property) : string :=
  match p with Own (VStr s) => s | _ => EmptyString end.

(** The comparator handed to [filtered.sort].  [a[sort]] follows the
    prototype chain, since [sort] is the caller's.  Neither a value read
    from a JSON file nor an inherited property is a [Date], so that branch
    is never taken. *)
Definition compare `{Runtime} (sort order : string) (a b : value) : Result number :=
  let! aVal := index a sort in
  let! bVal := index b sort in
  if reads_undefined aVal && reads_undefined bVal then Ok (Fin 0)
  else if reads_undefined aVal then
    Ok (if String.eqb order "asc" then Fin (-1) else Fin 1)
  else if reads_undefined bVal then
    Ok (if String.eqb order "asc" then Fin 1 else Fin (-1))
  else if reads_string aVal && reads_string bVal then
    Ok (if String.eqb order "asc"
        then localeCompare (string_read aVal) (string_read bVal)
        else localeCompare (string_read bVal) (string_read aVal))
  else if String.eqb order "asc" then
    let! x := Number_of_property aVal in
    let! y := Number_of_property bVal in
    Ok (js_sub x y)
  else
    let! y := Number_of_property bVal in
    let! x := Number_of_property aVal in
    Ok (js_sub y x).

(** [Array.prototype.sort] is stable; with a comparator that is a
    consistent ordering its result is the one of this insertion sort, in
    which [x] stays ahead of [y] unless the comparator says that [x] comes
    after [y]. *)
Fixpoint insert_sorted (cmp : value -> value -> Result number) (x : value)
    (sorted : list value) : Result (list value) :=
  match sorted with
  | [] => Ok [x]
  | y :: rest =>
      let! c := cmp x y in
      if num_lt (Fin 0) c then
        let! tail := insert_sorted cmp x rest in Ok (y :: tail)
      else Ok (x :: y :: rest)
  end.

Fixpoint Array_sort (cmp : value -> value -> Result number) (arr : list value)
  : Result (list value) :=
  match arr with
  | [] => Ok []
  | x :: rest =>
      let! sorted := Array_sort cmp rest in
      insert_sorted cmp x sorted
  end.

(** The index [slice] derives from an argument, for an array of [len]
    elements. *)
Definition relative_index (len : nat) (n : number) : nat :=
  match ToIntegerOrInfinity n with
  | INegInf => 0
  | IPosInf => len
  | IInt z =>
      if (z <? 0)%Z then Z.to_nat (Z.max (Z.of_nat len + z) 0)
      else Nat.min (Z.to_nat z) len
  end.

(** [arr.slice(start, end)] *)
Definition Array_slice {A : Type} (arr : list A) (start end_ : number) : list A :=
  let k := relative_index (List.length arr) start in
  let final := relative_index (List.length arr) end_ in
  take (final - k) (drop k arr).

Record Meta : Type := {
  meta_total : nat;
  meta_page : number;
  meta_limit : number
}.

(** What the handler hands to [NextResponse.json], which sends its JSON
    text. *)
Inductive Body : Type :=
| PageOf (data : list value) (meta : Meta)   (* { data, meta } *)
| Stored (data : value)                      (* { data } *)
| Rejected (errors : list string)            (* { errors } *)
| Failure (error : string).                  (* { error } *)

Record Response : Type := {
  status : nat;
  body : Body
}.

(** The three stages on the products read from the file. *)
Definition query_file `{Runtime} (q : Query) (products : list value)
  : Result (list value * Meta) :=
  let! filtered1 :=
    (if is_empty (search q) then Ok products
     else Array_filter (matches_search (toLowerCase (search q))) products) in
  let! filtered2 :=
    match category q with
    | Some c => Array_filter (matches_category c) filtered1
    | None => Ok filtered1
    end in
  let! filtered := Array_sort (compare (sort q) (order q)) filtered2 in
  let total := List.length filtered in
  let start := js_mul (js_sub (page q) (Fin 1)) (limit q) in
  let paged := Array_slice filtered start (js_add start (limit q)) in
  Ok (paged, {| meta_total := total; meta_page := page q; meta_limit := limit q |}).

(** GET when no database client is detected and the data file can be
    read.  (With a client, the same [page] and [limit] go to the query
    engine as [skip] and [take].) *)
Definition GET `{Runtime} (params : SearchParams) (file : DataFile) : Response :=
  match query_file (parse_query params) (readProductsFromFile file) with
  | Ok (paged, meta) => {| status := 200; body := PageOf paged meta |}
  | Throw _ => {| status := 500; body := Failure "Internal Server Error" |}
  end.

(** *** POST *)

(** What the handler takes from its environment: the generated id, the
    current time in ISO format, and how the file system behaves.
    [io_failure] is [None] when reading and writing the data file succeed,
    and [Some remains] when one of them fails, with the file then
    holding [remains]. *)
Record Env : Type := {
  new_id : string;
  now : string;
  io_failure : option DataFile
}.

Definition default {A : Type} (o : option A) (d : A) : A :=
  match o with Some a => a | None => d end.

(** [payload.slug ?? slugify(payload.name!)]: [slugify] starts with
    [str.toString()], which throws on undefined. *)
Definition slug_or_default (payload : PartialProduct) : Result string :=
  match v_slug payload with
  | Some s => Ok s
  | None =>
      match v_name payload with
      | Some n => Ok (slugify n)
      | None => Throw "Cannot read properties of undefined (reading 'toString')"
      end
  end.

Definition newProduct (env : Env) (payload : PartialProduct) : Result value :=
  let! slug := slug_or_default payload in
  Ok (VObj
        [("id", VStr (new_id env));
         ("name", match v_name payload with Some n => VStr n | None => VUndefined end);
         ("description", VStr (default (v_description payload) ""));
         ("price", VNum (default (v_price payload) (Fin 0)));
         ("image", match v_image payload with Some i => VStr i | None => VNull end);
         ("stock", VNum (default (v_stock payload) (Fin 0)));
         ("category", VStr (default (v_category payload) "uncategorized"));
         ("slug", VStr slug);
         ("createdAt", VStr (now env));
         ("updatedAt", VStr (now env))]).

(** The [data] handed to [prisma.product.create] when a database client
    is detected: the fields of [newProduct], the price replaced by its
    [value] when it is an object. *)
Definition prisma_create_data (newProduct : value) : Result value :=
  let! price :=
    (if String.eqb (typeof (get_prop newProduct "price")) "object"
     then read_prop (get_prop newProduct "price") "value"
     else Ok (get_prop newProduct "price")) in
  Ok (VObj
        [("id", get_prop newProduct "id");
         ("name", get_prop newProduct "name");
         ("description", get_prop newProduct "description");
         ("price", price);
         ("image", get_prop newProduct "image");
         ("stock", get_prop newProduct "stock");
         ("category", get_prop newProduct "category");
         ("slug", get_prop newProduct "slug");
         ("createdAt", get_prop newProduct "createdAt");
         ("updatedAt", get_prop newProduct "updatedAt")]).

(** POST when no database client is detected.  [body] is [None] when the
    request body is not JSON ([req.json().catch(() => null)]). *)
Definition POST `{Runtime} (env : Env) (body : option value) (file : DataFile)
  : DataFile * Response :=
  match validateProductPayload (default body VNull) with
  | Throw _ => (file, {| status := 500; body := Failure "Internal Server Error" |})
  | Ok (Invalid errors) => (file, {| status := 400; body := Rejected errors |})
  | Ok (Valid payload) =>
      match newProduct env payload with
      | Throw _ => (file, {| status := 500; body := Failure "Internal Server Error" |})
      | Ok created =>
          match io_failure env with
          | Some remains =>
              (remains, {| status := 500; body := Failure "Internal Server Error" |})
          | None =>
              let products := readProductsFromFile file in
              (writeProductsToFile (created :: products),
               {| status := 201; body := Stored created |})
          end
      end
  end.

End Products.

(* ===================================================================== *)
(** ** /api/users *)
(* ===================================================================== *)

Module Users.
Import JS.

(** [hashPassword]: [Hash.update] accepts a string and throws on the other
    values a JSON body can hold. *)
Definition hashPassword `{Runtime} (password : value) : Result string :=
  match password with
  | VStr s => Ok (sha256_hex s)
  | _ => Throw "The data argument must be of type string"
  end.

Definition without_key (k : string) (fields : list (string * value))
  : list (string * value) :=
  List.filter (fun kv => negb (String.eqb (fst kv) k)) fields.

(** Remove sensitive fields before returning user objects in responses. *)
Definition sanitizeUser (user : value) : value :=
  if negb (truthy user) then user
  else VObj (without_key "password" (own_fields user)).

(** The interface [getDbAdapter] returns, over a store of type [S].  Every
    operation may throw; the writing ones return the store they leave. *)
Record Adapter (S : Type) : Type := {
  getAll : S -> Result value;
  getById : value -> S -> Result value;
  getByEmail : value -> S -> Result value;
  create : value -> S -> Result (S * value);
  updateById : value -> value -> S -> Result (S * value);
  deleteById : value -> S -> Result (S * value)
}.
Arguments getAll {S}.
Arguments getById {S}.
Arguments getByEmail {S}.
Arguments create {S}.
Arguments updateById {S}.
Arguments deleteById {S}.

(** [obj.k = v]: an existing property keeps its place. *)
Fixpoint set_prop (k : string) (v : value) (fields : list (string * value))
  : list (string * value) :=
  match fields with
  | [] => [(k, v)]
  | (k', v') :: rest =>
      if String.eqb k k' then (k, v) :: without_key k rest
      else (k', v') :: set_prop k v rest
  end.

(** [{ ...a, ...b }] *)
Definition spread (a b : list (string * value)) : list (string * value) :=
  fold_left (fun acc kv => set_prop (fst kv) (snd kv) acc) b a.

(** The in-memory fallback store: a [Map] from id to record, in insertion
    order.  [uuid] and [now] are what [crypto.randomUUID()] and
    [new Date().toISOString()] return during the call.  Keys are strings:
    the handlers create records without an id, so every key is a generated
    UUID, and they look records up by a query parameter or by the id of a
    record read from the store. *)
Definition Memory : Type := list (string * value).

Fixpoint map_get (id : string) (m : Memory) : option value :=
  match m with
  | [] => None
  | (k, v) :: rest => if String.eqb k id then Some v else map_get id rest
  end.

Fixpoint map_set (id : string) (v : value) (m : Memory) : Memory :=
  match m with
  | [] => [(id, v)]
  | (k, v') :: rest =>
      if String.eqb k id then (k, v) :: rest else (k, v') :: map_set id v rest
  end.

Definition map_delete (id : string) (m : Memory) : Memory :=
  List.filter (fun kv => negb (String.eqb (fst kv) id)) m.

Definition key_of (v : value) : option string :=
  match v with VStr s => Some s | _ => None end.

Definition or_null (o : option value) : value :=
  match o with Some v => v | None => VNull end.

Definition memoryStore (uuid now : string) : Adapter Memory :=
  {| getAll := fun m => Ok (VArr (snd <$> m));
     getById := fun id m => Ok (or_null (key_of id ≫= fun k => map_get k m));
     getByEmail := fun email m =>
       Ok (or_null
             (List.find (fun v => strict_equals (get_prop v "email") email)
                (snd <$> m)));
     create := fun data m =>
       let id := if nullish (get_prop data "id") then VStr uuid else get_prop data "id" in
       let record :=
         VObj (set_prop "updatedAt" (VStr now)
                 (set_prop "createdAt" (VStr now)
                    (spread [("id", id)] (own_fields data)))) in
       match key_of id with
       | Some k => Ok (map_set k record m, record)
       | None => Throw "memoryStore: an id that is not a string is outside the model"
       end;
     updateById := fun id updates m =>
       match key_of id ≫= fun k => map_get k m with
       | None => Ok (m, VNull)
       | Some existing =>
           let updated :=
             VObj (set_prop "updatedAt" (VStr now)
                     (spread (own_fields existing) (own_fields updates))) in
           Ok (map_set (default EmptyString (key_of id)) updated m, updated)
       end;
     deleteById := fun id m =>
       match key_of id ≫= fun k => map_get k m with
       | None => Ok (m, VNull)
       | Some existed => Ok (map_delete (default EmptyString (key_of id)) m, existed)
       end |}.

(** *** Handlers *)

Record Request : Type := {
  param_id : option string;       (* [url.searchParams.get('id')] *)
  param_email : option string;    (* [url.searchParams.get('email')] *)
  json : Result value             (* [await request.json()] *)
}.

Record Response : Type := {
  status : nat;
  body : value
}.

Definition error_body (message : string) : value :=
  VObj [("error", VStr message)].

Definition respond (status : nat) (body : value) : Response :=
  {| status := status; body := body |}.

(** A string-or-null parameter as a value. *)
Definition json_string (o : option string) : value :=
  match o with Some s => VStr s | None => VNull end.

(** A query parameter that is present and not empty. *)
Definition given (p : option string) : option string :=
  match p with
  | Some s => if is_empty s then None else Some s
  | None => None
  end.

Section Handlers.
Context `{Runtime} {S : Type} (adapter : Adapter S).

(** What the [try] blocks compute; the handlers below add the [catch]. *)
Definition GET_try (request : Request) (db : S) : Result Response :=
  match given (param_id request) with
  | Some id =>
      let! result := getById adapter (VStr id) db in
      if negb (truthy result) then Ok (respond 404 (error_body "User not found"))
      else Ok (respond 200 (sanitizeUser result))
  | None =>
      match given (param_email request) with
      | Some email =>
          let! result := getByEmail adapter (VStr email) db in
          if negb (truthy result) then Ok (respond 404 (error_body "User not found"))
          else Ok (respond 200 (sanitizeUser result))
      | None =>
          let! users := getAll adapter db in
          let sanitized :=
            match users with
            | VArr l => sanitizeUser <$> l
            | _ => []
            end in
          Ok (respond 200 (VArr sanitized))
      end
  end.

Definition GET (request : Request) (db : S) : Response :=
  match GET_try request db with
  | Ok response => response
  | Throw message => respond 500 (error_body message)
  end.

Definition nullish_default (v d : value) : value :=
  if nullish v then d else v.

Definition POST_try (now : string) (request : Request) (db : S)
  : Result (S * Response) :=
  let! body := json request in
  if negb (truthy body) || negb (truthy (get_prop body "email"))
     || negb (truthy (get_prop body "password")) then
    Ok (db, respond 400 (error_body "Email and password are required"))
  else
    let! existing := getByEmail adapter (get_prop body "email") db in
    if truthy existing then
      Ok (db, respond 409 (error_body "Email already in use"))
    else
      let! hashed := hashPassword (get_prop body "password") in
      let toCreate :=
        VObj [("name", nullish_default (get_prop body "name") VNull);
              ("email", get_prop body "email");
              ("password", VStr hashed);
              ("role", nullish_default (get_prop body "role") (VStr "user"));
              ("createdAt", VStr now);
              ("updatedAt", VStr now)] in
      let! out := create adapter toCreate db in
      let created := snd out in
      Ok (fst out, respond 201 (sanitizeUser created)).

Definition with_catch (db : S) (r : Result (S * Response)) : S * Response :=
  match r with
  | Ok out => out
  | Throw message => (db, respond 500 (error_body message))
  end.

Definition POST (now : string) (request : Request) (db : S) : S * Response :=
  with_catch db (POST_try now request db).

(** [id ? getById(id) : getByEmail(email!)] *)
Definition find_existing (id email : option string) (db : S) : Result value :=
  match id with
  | Some i => getById adapter (VStr i) db
  | None => getByEmail adapter (json_string email) db
  end.

Definition PUT_try (now : string) (request : Request) (db : S)
  : Result (S * Response) :=
  let id := given (param_id request) in
  let email := given (param_email request) in
  match id, email with
  | None, None =>
      Ok (db, respond 400 (error_body "id or email query parameter is required"))
  | _, _ =>
      let! updates := json request in
      let! existing := find_existing id email db in
      if negb (truthy existing) then Ok (db, respond 404 (error_body "User not found"))
      else
        let! password := read_prop updates "password" in
        let! updatePayload1 :=
          (if truthy password then
             let! hashed := hashPassword password in
             Ok (set_prop "password" (VStr hashed) (own_fields updates))
           else Ok (own_fields updates)) in
        let updatePayload := VObj (set_prop "updatedAt" (VStr now) updatePayload1) in
        let targetId := nullish_default (get_prop existing "id") (json_string id) in
        if negb (truthy targetId) then
          Ok (db, respond 500 (error_body "Unable to determine user id"))
        else
          let! out := updateById adapter targetId updatePayload db in
          let updated := snd out in
          Ok (fst out, respond 200 (sanitizeUser updated))
  end.

Definition PUT (now : string) (request : Request) (db : S) : S * Response :=
  with_catch db (PUT_try now request db).

Definition DELETE_try (request : Request) (db : S) : Result (S * Response) :=
  let id := given (param_id request) in
  let email := given (param_email request) in
  match id, email with
  | None, None =>
      Ok (db, respond 400 (error_body "id or email query parameter is required"))
  | _, _ =>
      let! existing := find_existing id email db in
      if negb (truthy existing) then Ok (db, respond 404 (error_body "User not found"))
      else
        let targetId := nullish_default (get_prop existing "id") (json_string id) in
        if negb (truthy targetId) then
          Ok (db, respond 500 (error_body "Unable to determine user id"))
        else
          let! out := deleteById adapter targetId db in
          let deleted := snd out in
          Ok (fst out, respond 200 (VObj [("success", VBool true);
                                          ("user", sanitizeUser deleted)]))
  end.

Definition DELETE (request : Request) (db : S) : S * Response :=
  with_catch db (DELETE_try request db).

End Handlers.

End Users.

(* ===================================================================== *)
(** ** types/user.ts *)
(* ===================================================================== *)

Module UserTypes.
Import JS.

(** Utility type guard to determine if an object is a SafeUser. *)
Definition isSafeUser (obj : value) : bool :=
  if negb (truthy obj) || negb (String.eqb (typeof obj) "object") then false
  else String.eqb (typeof (get_prop obj "id")) "string"
       && String.eqb (typeof (get_prop obj "email")) "string".

End UserTypes.

(* ===================================================================== *)
(** ** components/Cart.tsx: checkout *)
(* ===================================================================== *)

Module Cart.
Import JS.

(** Helper to get numeric price from product which may have price as
    number or object.  Reading [p.price] throws when [p] is null or
    undefined. *)
Definition getPriceValue (p : value) : Result number :=
  let! pr := read_prop p "price" in
  if is_undefined pr || is_null pr then Ok (Fin 0)
  else if String.eqb (typeof pr) "number" then
    Ok (match pr with VNum n => n | _ => NaN end)
  else if String.eqb (typeof pr) "object"
          && String.eqb (typeof (get_prop pr "value")) "number" then
    Ok (match get_prop pr "value" with VNum n => n | _ => NaN end)
  else Ok (Fin 0).

(** The callback of [items.map] in [handleCheckout]. *)
Definition checkout_item (i : value) : Result value :=
  let! id := read_prop i "id" in
  let! name := read_prop i "name" in
  let! price := getPriceValue i in
  let! quantity := read_prop i "quantity" in
  Ok (VObj [("productId", id); ("name", name); ("price", VNum price);
            ("quantity", quantity)]).

Fixpoint checkout_items (items : list value) : Result (list value) :=
  match items with
  | [] => Ok []
  | i :: rest =>
      let! line := checkout_item i in
      let! lines := checkout_items rest in
      Ok (line :: lines)
  end.

(** The payload of the checkout request.  [meta] stands for the object of
    subtotal, tax, shipping and total, which the component computes in
    binary floating point. *)
Definition checkout_payload (items : list value) (meta : value) : Result value :=
  let! lines := checkout_items items in
  Ok (VObj [("items", VArr lines); ("meta", meta)]).

(** [res.ok] *)
Definition ok (status : nat) : bool := (200 <=? status)%nat && (status <=? 299)%nat.

(** The message of the error thrown on a response that is not ok:
    [errBody?.message || `Failed to create order (${res.status})`]. *)
Definition failure_message `{Runtime} (response : Orders.Response) : string :=
  let errBody := Orders.body_json (Orders.body response) in
  let message := if nullish errBody then VUndefined else get_prop errBody "message" in
  if truthy message then ToString message
  else "Failed to create order (" +:+ string_of_nat (Orders.status response) +:+ ")".

(** [error?.message || "Checkout failed. Please try again."] *)
Definition shown (message : string) : string :=
  if is_empty message then "Checkout failed. Please try again." else message.

(** What a checkout leaves: the cart, the message shown, the server's store. *)
Record Outcome : Type := {
  cart : list value;
  text : string;
  store : Orders.Store
}.

(** [handleCheckout], with the order route behind [fetch("/api/orders")]. *)
Definition handleCheckout `{Runtime} (items : list value) (meta : value)
    (db : Orders.Store) : Outcome :=
  if (List.length items =? 0)%nat then
    {| cart := items; text := "Your cart is empty."; store := db |}
  else
    match checkout_payload items meta with
    | Throw message => {| cart := items; text := shown message; store := db |}
    | Ok payload =>
        let '(db', res) :=
          Orders.POST {| Orders.json := Ok (JSON_roundtrip payload) |} db in
        if negb (ok (Orders.status res)) then
          {| cart := items; text := shown (failure_message res); store := db' |}
        else
          {| cart := []; text := "Order placed successfully."; store := db' |}
    end.

End Cart.

(* ===================================================================== *)
(** * Vocabulary of the specification *)
(* ===================================================================== *)

Import JS.
Local Open Scope list_scope.

(** ** Orders *)

Section OrderVocabulary.
Import Orders.

(** A quantity the specification calls valid: a finite number that is
    strictly positive and has no fractional part. *)
Definition positive_integer (v : value) : Prop :=
  exists x : Q, v = VNum (Fin x) /\ (0 < x)%Q /\ (inject_Z (Qfloor x) == x)%Q.

(** An item that gets as far as the quantity test: an object with a
    usable product id. *)
Definition reaches_quantity_check (it : value) : Prop :=
  String.eqb (typeof it) "object" = true /\ is_null it = false /\
  truthy (get_prop it "productId") = true /\
  String.eqb (typeof (get_prop it "productId")) "string" = true.

(** A quantity that passed validation, as a number. *)
Definition valid_quantity (n : number) : Prop :=
  exists x : Q, n = Fin x /\ (0 < x)%Q /\ (inject_Z (Qfloor x) == x)%Q.

(** A payload that gets as far as mapping over its items. *)
Definition reaches_items (payload : value) (arr : list value) : Prop :=
  String.eqb (typeof payload) "object" = true /\ is_null payload = false /\
  truthy (get_prop payload "userId") = true /\
  String.eqb (typeof (get_prop payload "userId")) "string" = true /\
  get_prop payload "items" = VArr arr.

(** [productsById], as [POST] builds it from the rows it fetched. *)
Definition fetched (db : Store) (ids : list string) : gmap string Product :=
  list_to_map ((fun p => (p_id p, p)) <$> product_findMany_in ids db).

(** An item passes the first loop when its product was fetched and, if the
    product tracks stock, the fetched stock is not below the quantity. *)
Definition passes (productsById : gmap string Product) (item : OrderItemRequest) : Prop :=
  exists prod, productsById !! productId item = Some prod /\
    forall stock, p_stock prod = Some stock -> num_lt stock (quantity item) = false.

(** The same condition read on the store: the product exists and, if it
    tracks stock, has at least the quantity. *)
Definition in_stock (db : Store) (item : OrderItemRequest) : Prop :=
  exists row, products db !! productId item = Some row /\
    forall stock, r_stock row = Some stock -> num_lt stock (quantity item) = false.

(** The price the code is to record for an item: the explicit price when
    given, else the catalog price of the product in the store, else 0. *)
Definition snapshot_price (db : Store) (item : OrderItemRequest) : number :=
  match price item with
  | Some explicit => explicit
  | None =>
      match products db !! productId item with
      | Some row => match r_price row with Some catalog => catalog | None => Fin 0 end
      | None => Fin 0
      end
  end.

Definition item_row (db : Store) (orderId : nat) (item : OrderItemRequest) : OrderItemRow :=
  {| oi_orderId := orderId; oi_productId := productId item;
     oi_quantity := quantity item; oi_price := snapshot_price db item |}.

Definition order_row (data : CreateOrderRequest) : OrderRow :=
  {| o_userId := userId data; o_total := total data; o_status := "pending";
     o_paymentMethod := paymentMethod data; o_shipping := shipping data |}.

(** The effect of one item on the product table, decided on the stock of
    the product as it was in [db0] when the products were fetched. *)
Definition decrement_for (db0 : Store) (m : gmap string ProductRow)
    (item : OrderItemRequest) : gmap string ProductRow :=
  match products db0 !! productId item with
  | Some row =>
      match r_stock row with
      | Some _ => alter (decrement_stock (quantity item)) (productId item) m
      | None => m
      end
  | None => m
  end.

(** The quantities ordered of product [k], in payload order. *)
Definition quantities (k : string) (its : list OrderItemRequest) : list number :=
  quantity <$> List.filter (fun item => String.eqb (productId item) k) its.

Definition decrement_all (qs : list number) (row : ProductRow) : ProductRow :=
  foldl (fun r q => decrement_stock q r) row qs.

(** The sum of a list of numbers, as the total quantity ordered. *)
Definition sum_numbers (qs : list number) : number := foldr num_add (Fin 0) qs.

Definition ordered_quantity (k : string) (its : list OrderItemRequest) : number :=
  sum_numbers (quantities k its).

(** The store a successful creation leaves. *)
Definition store_after (db : Store) (data : CreateOrderRequest) : Store :=
  {| users := users db;
     products := foldl (decrement_for db) (products db) (items data);
     orders := orders db ++ [order_row data];
     orderItems :=
       orderItems db ++ (item_row db (List.length (orders db)) <$> items data) |}.

End OrderVocabulary.

(** ** Catalog *)

Section CatalogVocabulary.
Import Products.

(** A catalog file with three products, the second without a price. *)
Definition three_products : DataFile :=
  Some (VArr [VObj [("name", VStr "Anvil"); ("price", VNum (Fin 3))];
              VObj [("name", VStr "Bucket")];
              VObj [("name", VStr "Candle"); ("price", VNum (Fin 1))]]).

Fixpoint all_chars (P : ascii -> bool) (s : string) : bool :=
  match s with
  | EmptyString => true
  | String c rest => P c && all_chars P rest
  end.

(** The characters a slug is made of: lower-case letters, digits,
    underscore, hyphen. *)
Definition slug_char (c : ascii) : bool :=
  is_lower c || is_digit c || Ascii.eqb c "_" || Ascii.eqb c "-".

Definition starts_with_hyphen (s : string) : bool :=
  match s with
  | EmptyString => false
  | String c _ => is_hyphen c
  end.

(** *** The slug as the specification words it

    "Derived from name via lowercase / whitespace-to-hyphen /
    strip-non-word-chars transformation, with repeated-hyphen collapsing",
    written out step by step on character codes. *)

Definition code_in (lo hi : nat) (c : ascii) : bool :=
  (lo <=? nat_of_ascii c)%nat && (nat_of_ascii c <=? hi)%nat.

(** Capital letters: A to Z and the accented capitals. *)
Definition spec_capital (c : ascii) : bool :=
  code_in 65 90 c || code_in 192 214 c || code_in 216 222 c.

Fixpoint spec_lowercase (s : string) : string :=
  match s with
  | EmptyString => EmptyString
  | String c rest =>
      String (if spec_capital c then ascii_of_nat (nat_of_ascii c + 32) else c)
        (spec_lowercase rest)
  end.

Definition spec_whitespace (c : ascii) : bool :=
  existsb (Nat.eqb (nat_of_ascii c)) [9; 10; 11; 12; 13; 32; 160]%nat.

(** A stretch of characters of one kind gives one hyphen, written where the
    stretch ends. *)
Fixpoint stretches_to_hyphen (kind : ascii -> bool) (s : string) : string :=
  match s with
  | EmptyString => EmptyString
  | String c rest =>
      if kind c then
        match rest with
        | EmptyString => "-"
        | String c' _ =>
            if kind c' then stretches_to_hyphen kind rest
            else String "-" (stretches_to_hyphen kind rest)
        end
      else String c (stretches_to_hyphen kind rest)
  end.

(** Letters, digits, underscores and hyphens stay. *)
Definition spec_kept (c : ascii) : bool :=
  code_in 97 122 c || code_in 65 90 c || code_in 48 57 c
  || Ascii.eqb c "_" || Ascii.eqb c "-".

Fixpoint spec_strip (s : string) : string :=
  match s with
  | EmptyString => EmptyString
  | String c rest =>
      if spec_kept c then String c (spec_strip rest) else spec_strip rest
  end.

Definition spec_slug (name : string) : string :=
  stretches_to_hyphen (Ascii.eqb "-")
    (spec_strip
       (stretches_to_hyphen spec_whitespace
          (spec_lowercase name))).

End CatalogVocabulary.

(** ** Users *)

Section UserVocabulary.
Import Users.

(** A value shows a password when it has an own property of that name. *)
Definition exposes_password (v : value) : bool := has_key "password" (own_fields v).

(** A body of the user routes shows no password: none of its elements
    does when it is an array, and it does not itself otherwise. *)
Definition password_free (body : value) : Prop :=
  match body with
  | VArr l => Forall (fun u => exposes_password u = false) l
  | other => exposes_password other = false
  end.

(** The user an order response carries: null, or an object with exactly
    the keys id, name and email. *)
Definition user_projection_only (order : value) : Prop :=
  get_prop order "user" = VNull \/
  exists id name email,
    get_prop order "user" = VObj [("id", id); ("name", name); ("email", email)].

(** The orders a response of the order routes carries. *)
Definition orders_in (b : Orders.Body) : list Orders.FullOrder :=
  match b with
  | Orders.Failure _ => []
  | Orders.Created data => option_list data
  | Orders.Listing data => data
  end.

End UserVocabulary.

(** ** Sample data *)

(** Stand-ins for the host functions, to run the handlers on examples. *)
Definition example_runtime : Runtime :=
  {| localeCompare := fun a b =>
       match String.compare a b with
       | Lt => Fin (-1)
       | Eq => Fin 0
       | Gt => Fin 1
       end;
     sha256_hex := fun s => "sha256:" +:+ s;
     inherited_number := fun v k =>
       if String.eqb k "__proto__" then Some (Fin 0)
       else if existsb (String.eqb k) Object_prototype then Some NaN
       else None |}.

Module Sample.
Import Orders.

(** A store with one user, a mug priced 20 with 5 in stock, a poster that
    tracks no stock, a lamp with 3 in stock; no orders yet. *)
Definition shop : Store :=
  {| users := {[ "u1" := {| u_name := Some "Ann"; u_email := "ann@example.com";
                            u_password := "9f86d081884c7d65" |} ]};
     products :=
       {[ "p1" := {| r_name := "Mug"; r_price := Some (Fin 20); r_stock := Some (Fin 5) |};
          "p2" := {| r_name := "Poster"; r_price := None; r_stock := None |};
          "p3" := {| r_name := "Lamp"; r_price := Some (Fin 45); r_stock := Some (Fin 3) |} ]};
     orders := [];
     orderItems := [] |}.

Definition line (pid : string) (qty : Z) : value :=
  VObj [("productId", VStr pid); ("quantity", VNum (num_of_Z qty))].

Definition payload (user : string) (lines : list value) (total : Z) : value :=
  VObj [("userId", VStr user); ("items", VArr lines); ("total", VNum (num_of_Z total))].

Definition request (p : value) : Request := {| json := Ok p |}.

Definition item (pid : string) (qty : Z) : OrderItemRequest :=
  {| productId := pid; quantity := num_of_Z qty; price := None |}.

Definition data (user : string) (its : list OrderItemRequest) (total : Z)
  : CreateOrderRequest :=
  {| userId := user; items := its; shipping := None; paymentMethod := None;
     total := num_of_Z total |}.

End Sample.

(** ** Further vocabulary *)

Section MoreOrderVocabulary.
Import Orders.

(** Every item row belongs to an order that is in the table. *)
Definition items_reference_orders (db : Store) : Prop :=
  Forall (fun row => (oi_orderId row < List.length (orders db))%nat) (orderItems db).

(** What validation guarantees of an item it returns. *)
Definition well_formed_item (item : OrderItemRequest) : Prop :=
  productId item <> EmptyString /\
  valid_quantity (quantity item) /\
  (forall p, price item = Some p -> isFinite p = true).

End MoreOrderVocabulary.

Section MoreCatalogVocabulary.
Import Products.
Context `{Runtime}.





End MoreCatalogVocabulary.

(** ** Further sample data *)

Module MoreSample.

(** The shop after Ann ordered two mugs. *)
Definition after_two_mugs : Orders.Store :=
  (@Orders.POST example_runtime
     (Sample.request (Sample.payload "u1" [Sample.line "p1" 2] 40)) Sample.shop).1.

Definition anvil : value := VObj [("name", VStr "Anvil"); ("price", VNum (Fin 3))].
Definition bucket : value := VObj [("name", VStr "Bucket")].
Definition candle : value := VObj [("name", VStr "Candle"); ("price", VNum (Fin 1))].

(** Two per page, by name, first page. *)
Definition by_name : Products.Query :=
  {| Products.search := ""; Products.category := None;
     Products.page := Fin 1; Products.limit := Fin 2;
     Products.sort := "name"; Products.order := "asc" |}.

Definition clock : string := "2025-01-01T00:00:00.000Z".

Definition ann : value :=
  VObj [("id", VStr "uuid-1"); ("name", VNull); ("email", VStr "ann@example.com");
        ("password", VStr "sha256:secret"); ("role", VStr "user");
        ("createdAt", VStr clock); ("updatedAt", VStr clock)].

Definition accounts : Users.Memory := [("uuid-1", ann)].

Definition registration : value :=
  VObj [("email", VStr "ann@example.com"); ("password", VStr "secret")].

(** Two mugs in the cart. *)
Definition mugs : value :=
  VObj [("id", VStr "p1"); ("name", VStr "Mug"); ("price", VNum (Fin 20));
        ("quantity", VNum (Fin 2))].

End MoreSample.

(* ===================================================================== *)
(** * Properties *)
(* ===================================================================== *)

(** ** Numbers and strings *)

Lemma num_lt_fin (x y : Q) : num_lt (Fin x) (Fin y) = true <-> (x < y)%Q.
Proof.
  simpl. rewrite negb_true_iff. split.
  - intros Hle. apply Qnot_le_lt. intros Hyx.
    apply Qle_bool_iff in Hyx. congruence.
  - intros Hlt. destruct (Qle_bool y x) eqn:E; [|reflexivity].
    apply Qle_bool_iff in E. exfalso. apply (Qlt_not_le _ _ Hlt E).
Qed.

Lemma num_le_fin (x y : Q) : num_le (Fin x) (Fin y) = true <-> (x <= y)%Q.
Proof. simpl. apply Qle_bool_iff. Qed.

Lemma prefix_app (b c : string) : String.prefix b (b +:+ c) = true.
Proof.
  induction b as [|ch b IH]; simpl.
  - destruct c; reflexivity.
  - rewrite IH. destruct (ascii_dec ch ch); [reflexivity | congruence].
Qed.

Lemma includes_unfold (s sub : string) :
  includes s sub =
  String.prefix sub s
  || match s with
     | EmptyString => false
     | String _ rest => includes rest sub
     end.
Proof. destruct s; reflexivity. Qed.

Lemma includes_middle (a b c : string) : includes (a +:+ b +:+ c) b = true.
Proof.
  induction a as [|ch a IH].
  - change (EmptyString +:+ b +:+ c) with (b +:+ c).
    rewrite includes_unfold, prefix_app. reflexivity.
  - change (String ch a +:+ b +:+ c) with (String ch (a +:+ b +:+ c)).
    rewrite includes_unfold, IH. apply orb_true_r.
Qed.

(** ** Order payload validation *)

Section OrderValidation.
Import Orders.

Lemma quantity_rejected_false (v : value) :
  quantity_rejected v = false <-> positive_integer v.
Proof.
  unfold quantity_rejected, positive_integer. split.
  - intros Hq.
    destruct v as [| |b|n|s|l|f]; simpl in Hq; try discriminate.
    destruct n as [x| | |]; simpl in Hq; try discriminate.
    apply orb_false_iff in Hq as [Hle Hfl].
    exists x. split; [reflexivity|]. split.
    + apply Qnot_le_lt. intros Hx. apply Qle_bool_iff in Hx. congruence.
    + apply negb_false_iff in Hfl. apply Qeq_bool_iff in Hfl. exact Hfl.
  - intros (x & -> & Hpos & Hint). simpl.
    apply orb_false_iff. split.
    + destruct (Qle_bool x 0) eqn:E; [|reflexivity].
      apply Qle_bool_iff in E. exfalso. apply (Qlt_not_le _ _ Hpos E).
    + apply negb_false_iff. apply Qeq_bool_iff. exact Hint.
Qed.

Lemma quantity_rejected_true (v : value) :
  quantity_rejected v = true <-> ~ positive_integer v.
Proof.
  rewrite <- quantity_rejected_false.
  destruct (quantity_rejected v); split; congruence.
Qed.

Lemma validateItem_quantity (it : value) (idx : nat) :
  reaches_quantity_check it ->
  (validateItem it idx = Throw (quantity_error idx)
   <-> quantity_rejected (get_prop it "quantity") = true).
Proof.
  intros (Hobj & Hnull & Hpid & Hstr).
  unfold validateItem. rewrite Hobj, Hnull, Hpid, Hstr. simpl negb. simpl orb.
  cbv iota.
  destruct (quantity_rejected (get_prop it "quantity")) eqn:Hq.
  - split; reflexivity.
  - split; [|discriminate].
    destruct (is_undefined (get_prop it "price")); simpl; [discriminate|].
    destruct (_ && _); simpl; [discriminate|].
    unfold quantity_error. intros [= Habs].
Qed.

(** What a successful run of the item callback tells. *)
Lemma validateItem_Ok (it : value) (idx : nat) (item : OrderItemRequest) :
  validateItem it idx = Ok item ->
  quantity_rejected (get_prop it "quantity") = false /\
  productId item = as_string (get_prop it "productId") /\
  quantity item = as_number (get_prop it "quantity").
Proof.
  unfold validateItem.
  destruct (negb (String.eqb (typeof it) "object") || is_null it); [discriminate|].
  destruct (negb (truthy (get_prop it "productId")) || _); [discriminate|].
  destruct (quantity_rejected (get_prop it "quantity")); [discriminate|].
  destruct (is_undefined (get_prop it "price")); simpl.
  - intros [= <-]. auto.
  - destruct (_ && _); simpl; [|discriminate]. intros [= <-]. auto.
Qed.

Lemma Array_map_validateItem_quantity (arr : list value) (idx : nat)
    (its : list OrderItemRequest) :
  Array_map validateItem arr idx = Ok its ->
  Forall (fun item => valid_quantity (quantity item)) its.
Proof.
  revert idx its. induction arr as [|it rest IH]; intros idx its; simpl.
  - intros [= <-]. constructor.
  - destruct (validateItem it idx) as [item|] eqn:Hit; simpl; [|discriminate].
    destruct (Array_map validateItem rest (S idx)) as [its'|] eqn:Hrest; simpl;
      [|discriminate].
    intros [= <-]. constructor; [|eapply IH; eassumption].
    apply validateItem_Ok in Hit as (Hq & _ & Hquant).
    apply quantity_rejected_false in Hq as (x & Hx & Hpos & Hint).
    exists x. rewrite Hquant, Hx. auto.
Qed.

(** What a successful validation tells about the request it returns. *)
Lemma validateOrderPayload_Ok (payload : value) (data : CreateOrderRequest) :
  validateOrderPayload payload = Ok data ->
  Array_map validateItem (as_array (get_prop payload "items")) 0 = Ok (items data) /\
  get_prop payload "total" = VNum (total data) /\
  get_prop payload "userId" = VStr (userId data).
Proof.
  unfold validateOrderPayload.
  destruct (negb (String.eqb (typeof payload) "object") || is_null payload);
    [discriminate|].
  destruct (negb (truthy (get_prop payload "userId")) || _) eqn:Huser; [discriminate|].
  destruct (negb (isArray (get_prop payload "items")) || _); [discriminate|].
  destruct (Array_map validateItem _ 0) as [its|]; simpl; [|discriminate].
  destruct (negb (String.eqb (typeof (get_prop payload "total")) "number") || _ || _)
    eqn:Htotal; [discriminate|].
  intros [= <-]. simpl. split; [reflexivity|]. split.
  - destruct (get_prop payload "total"); simpl in Htotal; try discriminate. reflexivity.
  - apply orb_false_iff in Huser as [_ Huser].
    destruct (get_prop payload "userId"); simpl in Huser; try discriminate. reflexivity.
Qed.

Lemma validated_quantities (payload : value) (data : CreateOrderRequest) :
  validateOrderPayload payload = Ok data ->
  Forall (fun item => valid_quantity (quantity item)) (items data).
Proof.
  intros Hv. apply validateOrderPayload_Ok in Hv as (Hmap & _).
  eapply Array_map_validateItem_quantity. exact Hmap.
Qed.

End OrderValidation.

(** ** The order workflow *)

Section OrderWorkflow.
Import Orders.
Context `{Runtime}.

Lemma fetched_lookup (db : Store) (ids : list string) (k : string) :
  fetched db ids !! k =
  if decide (k ∈ ids)
  then (fun r => select_product (k, r)) <$> products db !! k
  else None.
Proof.
  unfold fetched, product_findMany_in.
  set (m := filter (fun kv : string * ProductRow => kv.1 ∈ ids) (products db)).
  rewrite <- list_fmap_compose.
  set (l := (_ <$> map_to_list m)).
  assert (Hfst : l.*1 = (map_to_list m).*1).
  { unfold l. rewrite <- list_fmap_compose. apply list_fmap_ext. intros ? [? ?]. reflexivity. }
  assert (Hm : forall r, m !! k = Some r <-> (k ∈ ids /\ products db !! k = Some r)).
  { intros r. unfold m. rewrite map_lookup_filter_Some. simpl. tauto. }
  destruct (decide (k ∈ ids)) as [Hin|Hnin];
    [destruct (products db !! k) as [r|] eqn:Hdb|]; simpl.
  - apply elem_of_list_to_map_1.
    + rewrite Hfst. apply NoDup_fst_map_to_list.
    + unfold l. apply list_elem_of_fmap. exists (k, r). split; [reflexivity|].
      apply elem_of_map_to_list. apply Hm. auto.
  - apply not_elem_of_list_to_map_1. rewrite Hfst.
    intros Hk. apply list_elem_of_fmap in Hk as ([k' r] & -> & Hk).
    apply elem_of_map_to_list in Hk. apply Hm in Hk as [_ Hk]. congruence.
  - apply not_elem_of_list_to_map_1. rewrite Hfst.
    intros Hk. apply list_elem_of_fmap in Hk as ([k' r] & -> & Hk).
    apply elem_of_map_to_list in Hk. apply Hm in Hk as [Hk _]. contradiction.
Qed.

Lemma check_items_None (productsById : gmap string Product) (its : list OrderItemRequest) :
  check_items productsById its = None <-> Forall (passes productsById) its.
Proof.
  induction its as [|item rest IH]; simpl.
  - split; [constructor | reflexivity].
  - destruct (productsById !! productId item) as [prod|] eqn:Hprod.
    + destruct (p_stock prod) as [stock|] eqn:Hstock.
      * destruct (num_lt stock (quantity item)) eqn:Hlt.
        -- split; [discriminate|]. intros Hall. inversion Hall as [|? ? Hp _]; subst.
           destruct Hp as (prod' & Hprod' & Hok). rewrite Hprod in Hprod'.
           injection Hprod' as <-. specialize (Hok _ Hstock). congruence.
        -- rewrite IH. split.
           ++ intros Hall. constructor; [|exact Hall].
              exists prod. split; [exact Hprod|]. intros s Hs. congruence.
           ++ intros Hall. inversion Hall; assumption.
      * rewrite IH. split.
        -- intros Hall. constructor; [|exact Hall].
           exists prod. split; [exact Hprod|]. intros s Hs. congruence.
        -- intros Hall. inversion Hall; assumption.
    + split; [discriminate|]. intros Hall. inversion Hall as [|? ? Hp _]; subst.
      destruct Hp as (prod' & Hprod' & _). congruence.
Qed.

Lemma passes_fetched (db : Store) (ids : list string) (item : OrderItemRequest) :
  productId item ∈ ids ->
  (passes (fetched db ids) item <-> in_stock db item).
Proof.
  intros Hin. unfold passes, in_stock.
  rewrite fetched_lookup, decide_True by exact Hin.
  split.
  - intros (prod & Hprod & Hok).
    destruct (products db !! productId item) as [row|]; [|discriminate].
    injection Hprod as <-. exists row. split; [reflexivity|]. exact Hok.
  - intros (row & -> & Hok). eexists. split; [reflexivity|]. exact Hok.
Qed.

Lemma productId_in_ids (its : list OrderItemRequest) (item : OrderItemRequest) :
  item ∈ its -> productId item ∈ remove_dups (productId <$> its).
Proof.
  intros Hin. apply elem_of_remove_dups. apply list_elem_of_fmap. eauto.
Qed.

Lemma Forall_passes_fetched (db : Store) (its : list OrderItemRequest) :
  Forall (passes (fetched db (remove_dups (productId <$> its)))) its
  <-> Forall (in_stock db) its.
Proof.
  rewrite !Forall_forall. split; intros Hall item Hin.
  - apply (passes_fetched db _ item (productId_in_ids _ _ Hin)). auto.
  - apply (passes_fetched db _ item (productId_in_ids _ _ Hin)). auto.
Qed.

(** *** What the transaction writes *)

Lemma decrement_for_row (db0 : Store) (m : gmap string ProductRow)
    (item : OrderItemRequest) (row : ProductRow) :
  products db0 !! productId item = Some row ->
  decrement_for db0 m item =
  match r_stock row with
  | Some _ => alter (decrement_stock (quantity item)) (productId item) m
  | None => m
  end.
Proof. intros Hrow. unfold decrement_for. rewrite Hrow. reflexivity. Qed.

Lemma item_price_fetched (db0 : Store) (item : OrderItemRequest) (row : ProductRow) :
  products db0 !! productId item = Some row ->
  item_price item (select_product (productId item, row)) = snapshot_price db0 item.
Proof.
  intros Hrow. unfold item_price, snapshot_price. rewrite Hrow.
  destruct (price item); [reflexivity|]. simpl. destruct (r_price row); reflexivity.
Qed.

Lemma write_items_fetched (db0 : Store) (ids : list string) (orderId : nat)
    (its : list OrderItemRequest) (db : Store) :
  Forall (fun item => productId item ∈ ids /\ is_Some (products db0 !! productId item)) its ->
  write_items (fetched db0 ids) orderId its db =
  Ok {| users := users db;
        products := foldl (decrement_for db0) (products db) its;
        orders := orders db;
        orderItems := orderItems db ++ (item_row db0 orderId <$> its) |}.
Proof.
  revert db. induction its as [|item rest IH]; intros db Hall.
  - simpl. rewrite app_nil_r. destruct db; reflexivity.
  - inversion Hall as [|? ? [Hin [row Hrow]] Hrest]; subst.
    cbn [write_items]. rewrite fetched_lookup, decide_True by exact Hin.
    rewrite Hrow. cbn [fmap option_fmap option_map].
    rewrite (item_price_fetched db0 item row Hrow).
    fold (item_row db0 orderId item).
    cbn [p_stock p_id select_product fst snd].
    rewrite IH by exact Hrest.
    cbn [foldl fmap list_fmap]. rewrite (decrement_for_row db0 _ item row Hrow).
    destruct (r_stock row); simpl; rewrite <- app_assoc; reflexivity.
Qed.

Lemma products_after_tracked (db0 : Store) (k : string) (row0 : ProductRow)
    (its : list OrderItemRequest) (m : gmap string ProductRow) :
  products db0 !! k = Some row0 -> is_Some (r_stock row0) ->
  foldl (decrement_for db0) m its !! k = decrement_all (quantities k its) <$> m !! k.
Proof.
  intros Hrow [s0 Hs0]. revert m. induction its as [|item rest IH]; intros m.
  - simpl. destruct (m !! k); reflexivity.
  - cbn [foldl]. rewrite IH. unfold quantities. cbn [List.filter].
    destruct (String.eqb (productId item) k) eqn:E.
    + apply String.eqb_eq in E. unfold decrement_for. rewrite E, Hrow, Hs0.
      rewrite lookup_alter_eq. destruct (m !! k); reflexivity.
    + apply String.eqb_neq in E. unfold decrement_for.
      destruct (products db0 !! productId item) as [row|]; [|reflexivity].
      destruct (r_stock row); [|reflexivity].
      rewrite lookup_alter_ne by exact E. reflexivity.
Qed.

Lemma products_after_untracked (db0 : Store) (k : string)
    (its : list OrderItemRequest) (m : gmap string ProductRow) :
  (forall row0, products db0 !! k = Some row0 -> r_stock row0 = None) ->
  foldl (decrement_for db0) m its !! k = m !! k.
Proof.
  intros Hk. revert m. induction its as [|item rest IH]; intros m; [reflexivity|].
  cbn [foldl]. rewrite IH. unfold decrement_for.
  destruct (products db0 !! productId item) as [row|] eqn:Hrow; [|reflexivity].
  destruct (r_stock row) eqn:Hs; [|reflexivity].
  apply lookup_alter_ne. intros Heq. subst k. specialize (Hk _ Hrow). congruence.
Qed.

Lemma products_after_unreferenced (db0 : Store) (k : string)
    (its : list OrderItemRequest) (m : gmap string ProductRow) :
  Forall (fun item => productId item <> k) its ->
  foldl (decrement_for db0) m its !! k = m !! k.
Proof.
  intros Hall. revert m. induction its as [|item rest IH]; intros m; [reflexivity|].
  inversion Hall; subst. cbn [foldl]. rewrite IH by assumption. unfold decrement_for.
  destruct (products db0 !! productId item) as [row|]; [|reflexivity].
  destruct (r_stock row); [|reflexivity].
  apply lookup_alter_ne. assumption.
Qed.

Lemma decrement_all_row (qs : list number) (row : ProductRow) :
  decrement_all qs row =
  {| r_name := r_name row; r_price := r_price row;
     r_stock := (fun s => foldl num_sub s qs) <$> r_stock row |}.
Proof.
  revert row. induction qs as [|q qs IH]; intros row.
  - destruct row as [n p [s|]]; reflexivity.
  - unfold decrement_all. cbn [foldl]. fold (decrement_all qs (decrement_stock q row)).
    rewrite IH. destruct row as [n p [s|]]; reflexivity.
Qed.

Lemma sum_numbers_fin (xs : list Q) : exists t, sum_numbers (Fin <$> xs) = Fin t.
Proof.
  induction xs as [|x xs [t IH]].
  - exists 0%Q. reflexivity.
  - change (sum_numbers (Fin <$> x :: xs))
      with (num_add (Fin x) (sum_numbers (Fin <$> xs))).
    rewrite IH. simpl. eauto.
Qed.

Lemma num_sub_sub (s : number) (a b : Q) :
  num_sub (num_sub s (Fin a)) (Fin b) = num_sub s (num_add (Fin a) (Fin b)).
Proof.
  destruct s; simpl; try reflexivity.
  f_equal. apply Qred_complete. rewrite !Qred_correct. ring.
Qed.

Lemma num_sub_zero (s : number) (a : Q) :
  num_sub s (Fin a) = num_sub s (num_add (Fin a) (Fin 0)).
Proof.
  destruct s; simpl; try reflexivity.
  f_equal. apply Qred_complete. rewrite !Qred_correct. ring.
Qed.

Lemma foldl_num_sub (s : number) (x : Q) (xs : list Q) :
  foldl num_sub s (Fin <$> x :: xs) = num_sub s (sum_numbers (Fin <$> x :: xs)).
Proof.
  revert s x. induction xs as [|y ys IH]; intros s x.
  - simpl. apply num_sub_zero.
  - change (foldl num_sub s (Fin <$> x :: y :: ys))
      with (foldl num_sub (num_sub s (Fin x)) (Fin <$> y :: ys)).
    rewrite IH.
    destruct (sum_numbers_fin (y :: ys)) as [t Ht].
    change (sum_numbers (Fin <$> x :: y :: ys))
      with (num_add (Fin x) (sum_numbers (Fin <$> y :: ys))).
    rewrite Ht. apply num_sub_sub.
Qed.

Lemma valid_quantities_fin (qs : list number) :
  Forall valid_quantity qs -> exists xs, qs = Fin <$> xs.
Proof.
  induction 1 as [|q qs (x & -> & _) _ [xs ->]].
  - exists []. reflexivity.
  - exists (x :: xs). reflexivity.
Qed.

Lemma quantities_valid (k : string) (its : list OrderItemRequest) :
  Forall (fun item => valid_quantity (quantity item)) its ->
  Forall valid_quantity (quantities k its).
Proof.
  intros Hall. unfold quantities. apply Forall_fmap.
  apply Forall_forall. intros item Hin.
  apply list_elem_of_In, filter_In in Hin as [Hin _]. apply list_elem_of_In in Hin.
  rewrite Forall_forall in Hall. apply Hall. exact Hin.
Qed.

Lemma quantities_nonempty (k : string) (its : list OrderItemRequest) (item : OrderItemRequest) :
  item ∈ its -> productId item = k -> quantities k its <> [].
Proof.
  intros Hin Hk Hnil. unfold quantities in Hnil. apply fmap_nil_inv in Hnil.
  assert (Hf : In item (List.filter (fun item => String.eqb (productId item) k) its)).
  { apply filter_In. split; [apply list_elem_of_In; exact Hin|]. apply String.eqb_eq. exact Hk. }
  rewrite Hnil in Hf. destruct Hf.
Qed.

(** *** The handler, case by case *)

Lemma in_stock_fetchable (db : Store) (its : list OrderItemRequest) :
  Forall (in_stock db) its ->
  Forall (fun item => productId item ∈ remove_dups (productId <$> its)
                      /\ is_Some (products db !! productId item)) its.
Proof.
  rewrite !Forall_forall. intros Hall item Hin. split.
  - apply productId_in_ids. exact Hin.
  - destruct (Hall item Hin) as (row & Hrow & _). eauto.
Qed.

Lemma POST_validated (request : Request) (db : Store) (payload : value)
    (data : CreateOrderRequest) :
  json request = Ok payload -> validateOrderPayload payload = Ok data ->
  POST request db =
  match users db !! userId data with
  | None => (db, {| status := 404; body := Failure "User not found." |})
  | Some _ =>
      match check_items (fetched db (remove_dups (productId <$> items data))) (items data) with
      | Some response => (db, response)
      | None =>
          match create_order data
                  (fetched db (remove_dups (productId <$> items data))) db with
          | Throw message => (db, on_error message)
          | Ok (db', createdOrder) =>
              (db', {| status := 201; body := Created createdOrder |})
          end
      end
  end.
Proof.
  intros Hjson Hvalid. unfold POST. rewrite Hjson. cbn [bind]. rewrite Hvalid.
  reflexivity.
Qed.

Lemma create_order_fetched (db : Store) (data : CreateOrderRequest) :
  Forall (in_stock db) (items data) ->
  create_order data (fetched db (remove_dups (productId <$> items data))) db =
  Ok (store_after db data,
      Some (hydrate (store_after db data) (List.length (orders db)) (order_row data))).
Proof.
  intros Hall. unfold create_order, order_create.
  rewrite write_items_fetched by (apply in_stock_fetchable; exact Hall).
  cbn [bind users products orders orderItems]. fold (order_row data).
  fold (store_after db data).
  unfold order_findUnique.
  assert (Hlook : orders (store_after db data) !! List.length (orders db)
                  = Some (order_row data)).
  { cbn [store_after orders]. apply list_lookup_middle. reflexivity. }
  rewrite Hlook. reflexivity.
Qed.

Lemma POST_success (request : Request) (db : Store) (payload : value)
    (data : CreateOrderRequest) :
  json request = Ok payload -> validateOrderPayload payload = Ok data ->
  is_Some (users db !! userId data) ->
  Forall (in_stock db) (items data) ->
  POST request db =
  (store_after db data,
   {| status := 201;
      body := Created (Some (hydrate (store_after db data)
                               (List.length (orders db)) (order_row data))) |}).
Proof.
  intros Hjson Hvalid [user Huser] Hall.
  rewrite (POST_validated _ _ _ _ Hjson Hvalid), Huser.
  rewrite (proj2 (check_items_None _ _)) by (apply Forall_passes_fetched; exact Hall).
  rewrite create_order_fetched by exact Hall. reflexivity.
Qed.

Lemma check_items_status (productsById : gmap string Product)
    (its : list OrderItemRequest) (response : Response) :
  check_items productsById its = Some response ->
  status response = 404 \/ status response = 400.
Proof.
  induction its as [|item rest IH]; simpl; [discriminate|].
  destruct (productsById !! productId item) as [prod|].
  - destruct (p_stock prod) as [stock|]; [|exact IH].
    destruct (num_lt stock (quantity item)); [|exact IH].
    intros [= <-]. right. reflexivity.
  - intros [= <-]. left. reflexivity.
Qed.

Lemma POST_201 (request : Request) (db : Store) (payload : value)
    (data : CreateOrderRequest) :
  json request = Ok payload -> validateOrderPayload payload = Ok data ->
  status (POST request db).2 = 201 ->
  is_Some (users db !! userId data) /\ Forall (in_stock db) (items data).
Proof.
  intros Hjson Hvalid. rewrite (POST_validated _ _ _ _ Hjson Hvalid).
  destruct (users db !! userId data) as [user|]; [|discriminate].
  destruct (check_items _ (items data)) as [response|] eqn:Hcheck.
  - intros Hst. apply check_items_status in Hcheck. simpl in Hst.
    destruct Hcheck; congruence.
  - intros _. split; [eauto|].
    apply Forall_passes_fetched, check_items_None. exact Hcheck.
Qed.

Lemma check_items_first_failure (productsById : gmap string Product)
    (before after : list OrderItemRequest) (item : OrderItemRequest)
    (prod : Product) (stock : number) :
  Forall (passes productsById) before ->
  productsById !! productId item = Some prod ->
  p_stock prod = Some stock ->
  num_lt stock (quantity item) = true ->
  check_items productsById (before ++ item :: after) =
  Some {| status := 400; body := Failure (insufficient_stock prod item stock) |}.
Proof.
  intros Hbefore Hprod Hstock Hlt.
  induction Hbefore as [|it rest (prod' & Hprod' & Hok) _ IH]; simpl.
  - rewrite Hprod, Hstock, Hlt. reflexivity.
  - rewrite Hprod'. destruct (p_stock prod') as [s|] eqn:Hs; [|exact IH].
    rewrite (Hok s eq_refl). exact IH.
Qed.


(** Whole numbers of magnitude up to 2^53 are written with all their
    digits. *)
Lemma Number_toString_whole (z : Z) :
  (Z.abs z <= 2 ^ 53)%Z -> Number_toString (num_of_Z z) = string_of_Z z.
Proof.
  intros Hz. unfold Number_toString, num_of_Z, is_integral.
  rewrite Qfloor_Z. replace (Qeq_bool (inject_Z z) (inject_Z z)) with true
    by (symmetry; apply Qeq_bool_iff; reflexivity).
  replace (Z.abs z <=? two_pow_53)%Z with true
    by (symmetry; apply Z.leb_le; exact Hz).
  reflexivity.
Qed.

(** Beyond 2^53 the digits are the shortest that read back as the same
    number: 2^57, a valid quantity, is 144115188075855872 and is written
    with a last digit 0; fractions and large and small numbers are written
    as JavaScript writes them. *)
Lemma Number_toString_beyond :
  Number_toString (num_of_Z (2 ^ 57)) = "144115188075855870" /\
  Number_toString (Fin (5 # 2)) = "2.5" /\
  Number_toString (StringToNumber "0.1") = "0.1" /\
  Number_toString (StringToNumber "-0.000001") = "-0.000001" /\
  Number_toString (StringToNumber "1e-7") = "1e-7" /\
  Number_toString (StringToNumber "123456789012345678901") = "123456789012345680000" /\
  Number_toString (StringToNumber "1e21") = "1e+21" /\
  Number_toString (StringToNumber "1e23") = "1e+23" /\
  Number_toString (StringToNumber "1.7976931348623157e308") = "1.7976931348623157e+308" /\
  Number_toString (StringToNumber "5e-324") = "5e-324" /\
  Number_toString (StringToNumber "0.30000000000000004") = "0.30000000000000004" /\
  Number_toString (StringToNumber "9007199254740993") = "9007199254740992".
Proof. vm_compute. repeat split; reflexivity. Qed.

(** C2, amended: when the payload passes validation, the user exists, and
    the first item to fail a check is one whose product tracks a stock
    below the requested quantity, the answer is 400 with a message that
    names the product (name and id) and states the requested quantity and
    the available stock, as JavaScript writes numbers: a whole number of
    magnitude up to 2^53 with all its digits; the store is left as it
    was. *)
Theorem insufficient_stock_rejected (request : Request) (db : Store) (payload : value)
    (data : CreateOrderRequest) (before after : list OrderItemRequest)
    (item : OrderItemRequest) (row : ProductRow) (stock : number) :
  json request = Ok payload ->
  validateOrderPayload payload = Ok data ->
  is_Some (users db !! userId data) ->
  items data = before ++ item :: after ->
  Forall (in_stock db) before ->
  products db !! productId item = Some row ->
  r_stock row = Some stock ->
  num_lt stock (quantity item) = true ->
  POST request db =
  (db,
   {| status := 400;
      body := Failure ("Insufficient stock for product " +:+ r_name row +:+ " ("
                       +:+ productId item +:+ "). Requested "
                       +:+ Number_toString (quantity item) +:+ ", available "
                       +:+ Number_toString stock +:+ ".") |}) /\
  (forall z : Z, (Z.abs z <= 2 ^ 53)%Z ->
     (quantity item = num_of_Z z -> Number_toString (quantity item) = string_of_Z z) /\
     (stock = num_of_Z z -> Number_toString stock = string_of_Z z)).
Proof.
  intros Hjson Hvalid [user Huser] Hitems Hbefore Hrow Hstock Hlt.
  split; [|intros z Hz; split; intros ->; apply Number_toString_whole; exact Hz].
  rewrite (POST_validated _ _ _ _ Hjson Hvalid), Huser.
  set (ids := remove_dups (productId <$> items data)).
  assert (Hids : forall it, it ∈ items data -> productId it ∈ ids).
  { intros it Hin. apply productId_in_ids. exact Hin. }
  rewrite Hitems in Hids |- *.
  rewrite (check_items_first_failure (fetched db ids) before after item
             (select_product (productId item, row)) stock).
  - reflexivity.
  - rewrite Forall_forall in Hbefore |- *. intros it Hin.
    apply passes_fetched; [|auto].
    apply Hids. apply elem_of_app. left. exact Hin.
  - rewrite fetched_lookup, decide_True, Hrow; [reflexivity|].
    apply Hids. apply elem_of_app. right. left.
  - exact Hstock.
  - exact Hlt.
Qed.

(** C3: after a creation answered with 201, a product that tracks stock
    and is referenced by the order has its stock lowered by the sum of the
    quantities ordered of it and is otherwise as before; a product that
    does not track stock is as before; so is every product the order does
    not reference. *)
Theorem stock_decremented_by_ordered_quantity (request : Request) (db : Store)
    (payload : value) (data : CreateOrderRequest) :
  json request = Ok payload ->
  validateOrderPayload payload = Ok data ->
  status (POST request db).2 = 201 ->
  (forall k row stock,
      products db !! k = Some row -> r_stock row = Some stock ->
      k ∈ productId <$> items data ->
      products (POST request db).1 !! k =
      Some {| r_name := r_name row; r_price := r_price row;
              r_stock := Some (num_sub stock (ordered_quantity k (items data))) |}) /\
  (forall k row,
      products db !! k = Some row -> r_stock row = None ->
      products (POST request db).1 !! k = Some row) /\
  (forall k,
      k ∉ productId <$> items data ->
      products (POST request db).1 !! k = products db !! k).
Proof.
  intros Hjson Hvalid Hst.
  destruct (POST_201 _ _ _ _ Hjson Hvalid Hst) as [Huser Hall].
  rewrite (POST_success _ _ _ _ Hjson Hvalid Huser Hall).
  cbn [fst store_after products].
  pose proof (validated_quantities _ _ Hvalid) as Hq.
  split; [|split].
  - intros k row stock Hrow Hstock Href.
    rewrite (products_after_tracked db k row) by (rewrite ?Hstock; eauto).
    rewrite Hrow. cbn [fmap option_fmap option_map]. f_equal.
    rewrite decrement_all_row, Hstock. cbn [fmap option_fmap option_map].
    f_equal. f_equal.
    apply list_elem_of_fmap in Href as (item & -> & Hin).
    pose proof (quantities_nonempty _ _ _ Hin eq_refl) as Hne.
    destruct (valid_quantities_fin _ (quantities_valid (productId item) _ Hq)) as [xs Hxs].
    unfold ordered_quantity. rewrite Hxs in Hne |- *.
    destruct xs as [|x xs]; [exfalso; apply Hne; reflexivity|]. apply foldl_num_sub.
  - intros k row Hrow Hstock.
    rewrite products_after_untracked; [exact Hrow|].
    intros row0 Hrow0. congruence.
  - intros k Hk. apply products_after_unreferenced.
    apply Forall_forall. intros item Hin Heq. apply Hk.
    apply list_elem_of_fmap. eauto.
Qed.

End OrderWorkflow.

(** ** Quantity validation, on an item and on the whole payload *)

Section QuantityValidation.
Import Orders.

Lemma Array_map_stops (f : value -> nat -> Result OrderItemRequest)
    (before after : list value) (it : value) (idx : nat)
    (goods : list OrderItemRequest) (message : string) :
  Array_map f before idx = Ok goods ->
  f it (idx + List.length before) = Throw message ->
  Array_map f (before ++ it :: after) idx = Throw message.
Proof.
  revert idx goods. induction before as [|b rest IH]; intros idx goods; simpl.
  - intros _ Hit. rewrite Nat.add_0_r in Hit. rewrite Hit. reflexivity.
  - destruct (f b idx) as [g|]; simpl; [|discriminate].
    destruct (Array_map f rest (S idx)) as [gs|] eqn:Hrest; simpl; [|discriminate].
    intros _ Hit. rewrite (IH (S idx) gs Hrest); [reflexivity|].
    rewrite <- Hit. f_equal. lia.
Qed.

Lemma validateOrderPayload_item_throws (payload : value) (before after : list value)
    (it : value) (goods : list OrderItemRequest) (message : string) :
  reaches_items payload (before ++ it :: after) ->
  Array_map validateItem before 0 = Ok goods ->
  validateItem it (List.length before) = Throw message ->
  validateOrderPayload payload = Throw message.
Proof.
  intros (Hobj & Hnull & Huser & Hstr & Hitems) Hbefore Hit.
  unfold validateOrderPayload. rewrite Hobj, Hnull, Huser, Hstr, Hitems.
  cbn [negb orb isArray as_array].
  rewrite length_app. cbn [List.length].
  replace (List.length before + S (List.length after) =? 0)%nat with false
    by (symmetry; apply Nat.eqb_neq; lia).
  rewrite (Array_map_stops _ _ _ _ _ _ _ Hbefore Hit). reflexivity.
Qed.

(** C4: for an item that is an object with a usable product id, the item
    callback throws the quantity error exactly when the quantity is not a
    finite, strictly positive, integral number; so NaN, the infinities,
    zero, negative and fractional numbers are all rejected; the message
    spells the item's index; and when the items before it are valid, the
    whole validation fails with that message. *)
Theorem quantity_accepted_iff_positive_integer (it : value) (idx : nat) :
  reaches_quantity_check it ->
  (validateItem it idx = Throw (quantity_error idx)
   <-> ~ positive_integer (get_prop it "quantity")) /\
  (forall n, get_prop it "quantity" = VNum n ->
     n = NaN \/ n = PosInf \/ n = NegInf \/
     (exists x, n = Fin x /\ ((x <= 0)%Q \/ ~ (inject_Z (Qfloor x) == x)%Q)) ->
     validateItem it idx = Throw (quantity_error idx)) /\
  includes (quantity_error idx) (string_of_nat idx) = true /\
  (forall payload before after goods,
     reaches_items payload (before ++ it :: after) ->
     Array_map validateItem before 0 = Ok goods ->
     idx = List.length before ->
     ~ positive_integer (get_prop it "quantity") ->
     validateOrderPayload payload = Throw (quantity_error idx)).
Proof.
  intros Hreach.
  assert (Hiff : validateItem it idx = Throw (quantity_error idx)
                 <-> ~ positive_integer (get_prop it "quantity")).
  { rewrite (validateItem_quantity it idx Hreach). apply quantity_rejected_true. }
  split; [exact Hiff|]. split; [|split].
  - intros n Hn Hbad. apply Hiff. intros (x & Hx & Hpos & Hint).
    rewrite Hn in Hx. injection Hx as ->.
    destruct Hbad as [Hb|[Hb|[Hb|(y & Hy & Hb)]]]; try discriminate.
    injection Hy as <-. destruct Hb as [Hle|Hfrac].
    + apply (Qlt_not_le _ _ Hpos Hle).
    + apply Hfrac. exact Hint.
  - unfold quantity_error. apply includes_middle.
  - intros payload before after goods Hitems Hbefore -> Hbad.
    apply (validateOrderPayload_item_throws payload before after it goods); auto.
    apply Hiff. exact Hbad.
Qed.

End QuantityValidation.

(** ** The order workflow on examples, and where it departs from the text *)

Section OrderExamples.
Import Orders.


(** The example of the specification: two mugs ordered, price 20 recorded,
    stock 5 becomes 3. *)
Example two_mugs :
  let out := @POST example_runtime
               (Sample.request (Sample.payload "u1" [Sample.line "p1" 2] 40)) Sample.shop in
  status out.2 = 201 /\
  orderItems out.1 =
    [{| oi_orderId := 0; oi_productId := "p1"; oi_quantity := Fin 2; oi_price := Fin 20 |}] /\
  products out.1 !! "p1" =
    Some {| r_name := "Mug"; r_price := Some (Fin 20); r_stock := Some (Fin 3) |}.
Proof. vm_compute. repeat split; reflexivity. Qed.

Lemma insufficient_stock_rejected_witness :
  @POST example_runtime (Sample.request (Sample.payload "u1" [Sample.line "p1" 10] 200))
    Sample.shop
  = (Sample.shop,
     {| status := 400;
        body := Failure "Insufficient stock for product Mug (p1). Requested 10, available 5." |}) /\
  (forall z : Z, (Z.abs z <= 2 ^ 53)%Z ->
     (quantity (Sample.item "p1" 10) = num_of_Z z ->
      Number_toString (quantity (Sample.item "p1" 10)) = string_of_Z z) /\
     (Fin 5 = num_of_Z z -> Number_toString (Fin 5) = string_of_Z z)).
Proof.
  apply (@insufficient_stock_rejected example_runtime
           (Sample.request (Sample.payload "u1" [Sample.line "p1" 10] 200))
           Sample.shop
           (Sample.payload "u1" [Sample.line "p1" 10] 200)
           (Sample.data "u1" [Sample.item "p1" 10] 200)
           [] [] (Sample.item "p1" 10)
           {| r_name := "Mug"; r_price := Some (Fin 20); r_stock := Some (Fin 5) |}
           (Fin 5)).
  - reflexivity.
  - vm_compute. reflexivity.
  - exists {| u_name := Some "Ann"; u_email := "ann@example.com";
              u_password := "9f86d081884c7d65" |}.
    vm_compute. reflexivity.
  - reflexivity.
  - constructor.
  - vm_compute. reflexivity.
  - reflexivity.
  - vm_compute. reflexivity.
Defined.

(** C2 as written fails: the item asks for 10 mugs where 5 are in stock,
    yet the answer is 404, because the user is looked up first. *)
Lemma insufficient_stock_not_always_400 :
  validateOrderPayload (Sample.payload "ghost" [Sample.line "p1" 10] 200)
  = Ok (Sample.data "ghost" [Sample.item "p1" 10] 200) /\
  Sample.item "p1" 10 ∈ items (Sample.data "ghost" [Sample.item "p1" 10] 200) /\
  (exists row,
     products Sample.shop !! productId (Sample.item "p1" 10) = Some row /\
     r_stock row = Some (Fin 5) /\
     num_lt (Fin 5) (quantity (Sample.item "p1" 10)) = true) /\
  @POST example_runtime (Sample.request (Sample.payload "ghost" [Sample.line "p1" 10] 200))
    Sample.shop
  = (Sample.shop, {| status := 404; body := Failure "User not found." |}).
Proof.
  split; [vm_compute; reflexivity|].
  split; [left|].
  split; [|vm_compute; reflexivity].
  exists {| r_name := "Mug"; r_price := Some (Fin 20); r_stock := Some (Fin 5) |}.
  vm_compute. repeat split; reflexivity.
Qed.

(** With two items over stock the message speaks of the first only: the
    lamp, asked 7 times with 3 in stock, is not named. *)
Example only_first_shortage_reported :
  let out := @POST example_runtime
               (Sample.request
                  (Sample.payload "u1" [Sample.line "p1" 10; Sample.line "p3" 7] 500))
               Sample.shop in
  out.2 = {| status := 400;
             body := Failure "Insufficient stock for product Mug (p1). Requested 10, available 5." |}.
Proof. vm_compute. reflexivity. Qed.

Lemma stock_decremented_by_ordered_quantity_witness :
  (forall k row stock,
      products Sample.shop !! k = Some row -> r_stock row = Some stock ->
      k ∈ productId <$> items (Sample.data "u1" [Sample.item "p1" 2; Sample.item "p2" 1] 40) ->
      products (@POST example_runtime
                  (Sample.request
                     (Sample.payload "u1" [Sample.line "p1" 2; Sample.line "p2" 1] 40))
                  Sample.shop).1 !! k =
      Some {| r_name := r_name row; r_price := r_price row;
              r_stock :=
                Some (num_sub stock
                        (ordered_quantity k
                           (items (Sample.data "u1" [Sample.item "p1" 2; Sample.item "p2" 1] 40)))) |}) /\
  (forall k row,
      products Sample.shop !! k = Some row -> r_stock row = None ->
      products (@POST example_runtime
                  (Sample.request
                     (Sample.payload "u1" [Sample.line "p1" 2; Sample.line "p2" 1] 40))
                  Sample.shop).1 !! k = Some row) /\
  (forall k,
      k ∉ productId <$> items (Sample.data "u1" [Sample.item "p1" 2; Sample.item "p2" 1] 40) ->
      products (@POST example_runtime
                  (Sample.request
                     (Sample.payload "u1" [Sample.line "p1" 2; Sample.line "p2" 1] 40))
                  Sample.shop).1 !! k = products Sample.shop !! k).
Proof.
  apply (@stock_decremented_by_ordered_quantity example_runtime
           (Sample.request (Sample.payload "u1" [Sample.line "p1" 2; Sample.line "p2" 1] 40))
           Sample.shop
           (Sample.payload "u1" [Sample.line "p1" 2; Sample.line "p2" 1] 40)
           (Sample.data "u1" [Sample.item "p1" 2; Sample.item "p2" 1] 40)).
  - reflexivity.
  - vm_compute. reflexivity.
  - vm_compute. reflexivity.
Defined.

Lemma quantity_accepted_iff_positive_integer_witness :
  (validateItem (VObj [("productId", VStr "p1"); ("quantity", VNum (Fin (5 # 2)))]) 0
   = Throw (quantity_error 0)
   <-> ~ positive_integer
         (get_prop (VObj [("productId", VStr "p1"); ("quantity", VNum (Fin (5 # 2)))])
            "quantity")) /\
  (forall n,
     get_prop (VObj [("productId", VStr "p1"); ("quantity", VNum (Fin (5 # 2)))]) "quantity"
     = VNum n ->
     n = NaN \/ n = PosInf \/ n = NegInf \/
     (exists x, n = Fin x /\ ((x <= 0)%Q \/ ~ (inject_Z (Qfloor x) == x)%Q)) ->
     validateItem (VObj [("productId", VStr "p1"); ("quantity", VNum (Fin (5 # 2)))]) 0
     = Throw (quantity_error 0)) /\
  includes (quantity_error 0) (string_of_nat 0) = true /\
  (forall payload before after goods,
     reaches_items payload
       (before ++ VObj [("productId", VStr "p1"); ("quantity", VNum (Fin (5 # 2)))] :: after) ->
     Array_map validateItem before 0 = Ok goods ->
     0 = List.length before ->
     ~ positive_integer
         (get_prop (VObj [("productId", VStr "p1"); ("quantity", VNum (Fin (5 # 2)))])
            "quantity") ->
     validateOrderPayload payload = Throw (quantity_error 0)).
Proof.
  apply (quantity_accepted_iff_positive_integer
           (VObj [("productId", VStr "p1"); ("quantity", VNum (Fin (5 # 2)))]) 0).
  repeat split; reflexivity.
Defined.

(** Quantities the validator turns away, and the message it gives. *)
Example rejected_quantities :
  Forall (fun q =>
            validateOrderPayload
              (Sample.payload "u1"
                 [Sample.line "p1" 1;
                  VObj [("productId", VStr "p1"); ("quantity", q)]] 10)
            = Throw "Missing or invalid 'quantity' for item at index 1. Must be a positive integer.")
    [VNum (Fin 0); VNum (Fin (-3)); VNum (Fin (5 # 2)); VNum NaN; VNum PosInf;
     VNum NegInf; VStr "2"; VNull; VUndefined].
Proof. repeat constructor. Qed.

End OrderExamples.

Section OrderCorners.
Import Orders.
Context `{Runtime}.

(** Messages that start with "Missing or invalid" or with "Invalid" are
    answered with 400. *)
Lemma catch_status_missing (rest : string) :
  catch_status ("Missing or invalid " +:+ rest) = 400.
Proof. reflexivity. Qed.

Lemma catch_status_invalid (rest : string) :
  catch_status ("Invalid " +:+ rest) = 400.
Proof.
  unfold catch_status.
  replace (includes (toLowerCase ("Invalid " +:+ rest)) "invalid") with true
    by reflexivity.
  rewrite orb_true_r. reflexivity.
Qed.

(** C5, on the code: three of the validator's failures carry a message
    with neither "missing" nor "invalid" in it, and the handler answers
    them with 500: a payload that is not an object, an empty item list, an
    item that is not an object. *)
Theorem shape_errors_answered_500 (db : Store) :
  POST (Sample.request VNull) db
  = (db, {| status := 500; body := Failure "Payload must be a JSON object." |}) /\
  POST (Sample.request (Sample.payload "u1" [] 0)) db
  = (db, {| status := 500; body := Failure "'items' must be a non-empty array." |}) /\
  POST (Sample.request (Sample.payload "u1" [VNum (Fin 7)] 0)) db
  = (db, {| status := 500; body := Failure "Item at index 0 must be an object." |}).
Proof. repeat split; reflexivity. Qed.

(** C6: the first loop lets a list of items through exactly when each
    item, taken alone, finds its product among those fetched with a stock
    that is untracked or not below the item's own quantity; quantities of
    items that name the same product are never added up.  So there is a
    payload with two items for one product, each within the stock and their
    sum above it, that is answered with 201, adds an order, and leaves the
    product with a negative stock. *)
Theorem duplicate_lines_checked_separately :
  (forall (productsById : gmap string Product) (its : list OrderItemRequest),
      check_items productsById its = None <->
      Forall (fun item =>
                exists prod, productsById !! productId item = Some prod /\
                  forall stock, p_stock prod = Some stock ->
                                num_lt stock (quantity item) = false) its) /\
  (exists (payload : value) (data : CreateOrderRequest) (db : Store)
          (k : string) (available : number),
      validateOrderPayload payload = Ok data /\
      is_Some (users db !! userId data) /\
      (exists row, products db !! k = Some row /\ r_stock row = Some available) /\
      Forall (fun item => productId item = k /\ num_le (quantity item) available = true)
        (items data) /\
      num_lt available (ordered_quantity k (items data)) = true /\
      status (POST (Sample.request payload) db).2 = 201 /\
      List.length (orders (POST (Sample.request payload) db).1) = S (List.length (orders db)) /\
      (exists row' left,
          products (POST (Sample.request payload) db).1 !! k = Some row' /\
          r_stock row' = Some left /\ num_lt left (Fin 0) = true)).
Proof.
  split; [exact check_items_None|].
  exists (Sample.payload "u1" [Sample.line "p1" 3; Sample.line "p1" 3] 120),
         (Sample.data "u1" [Sample.item "p1" 3; Sample.item "p1" 3] 120),
         Sample.shop, "p1", (Fin 5).
  split; [vm_compute; reflexivity|].
  split; [eexists; vm_compute; reflexivity|].
  split; [eexists; split; vm_compute; reflexivity|].
  split; [repeat constructor|].
  split; [vm_compute; reflexivity|].
  split; [vm_compute; reflexivity|].
  split; [vm_compute; reflexivity|].
  exists {| r_name := "Mug"; r_price := Some (Fin 20); r_stock := Some (Fin (-1)) |}, (Fin (-1)).
  vm_compute. repeat split; reflexivity.
Qed.

End OrderCorners.

(** ** The catalog query *)

Section CatalogQuery.
Import Products.
Context `{Runtime}.

(** C8, on the code: a [page] or [limit] parameter that is not a numeric
    literal becomes NaN and passes through [Math.max] and [Math.min]
    unclamped, so the effective page is not at least 1 and the effective
    limit is not within 1..100; and with a fractional limit the page
    returned can hold more items than the limit. *)
Theorem page_and_limit_not_clamped :
  page (parse_query [("page", "abc")]) = NaN /\
  num_le (Fin 1) (page (parse_query [("page", "abc")])) = false /\
  limit (parse_query [("limit", "ten")]) = NaN /\
  num_le (Fin 1) (limit (parse_query [("limit", "ten")])) = false /\
  GET [("page", "abc")] three_products
  = {| status := 200;
       body := PageOf [] {| meta_total := 3; meta_page := NaN; meta_limit := Fin 20 |} |} /\
  (exists paged total,
      GET [("page", "2"); ("limit", "1.5")] three_products
      = {| status := 200;
           body := PageOf paged {| meta_total := total; meta_page := Fin 2;
                                   meta_limit := Fin (3 # 2) |} |} /\
      List.length paged = 2%nat /\
      num_le (num_of_Z (Z.of_nat (List.length paged))) (Fin (3 # 2)) = false).
Proof.
  repeat split; try reflexivity.
  eexists _, _. split; [vm_compute; reflexivity|]. split; reflexivity.
Qed.

(** What does hold for every query: a parameter that is absent or empty
    gives page 1 and limit 20, and a page or limit that is a number is
    clamped. *)
Lemma default_page_and_limit (params : SearchParams) :
  searchParams_get params "page" = None ->
  searchParams_get params "limit" = None ->
  page (parse_query params) = Fin 1 /\ limit (parse_query params) = Fin 20.
Proof.
  intros Hp Hl. unfold parse_query. cbn [page limit]. rewrite Hp, Hl.
  split; reflexivity.
Qed.

Lemma Math_max_lower (n : number) :
  n <> NaN -> num_le (Fin 1) (Math_max (Fin 1) n) = true.
Proof.
  intros Hn. destruct n as [x| | |]; try congruence; try reflexivity.
  unfold Math_max. destruct (num_lt (Fin 1) (Fin x)) eqn:E.
  - apply num_lt_fin in E. apply num_le_fin. apply Qlt_le_weak. exact E.
  - reflexivity.
Qed.

Lemma Math_min_upper (n : number) :
  n <> NaN -> num_le (Fin 1) n = true ->
  num_le (Fin 1) (Math_min (Fin 100) n) = true /\
  num_le (Math_min (Fin 100) n) (Fin 100) = true.
Proof.
  intros Hn Hle. destruct n as [x| | |]; try congruence; try discriminate.
  - unfold Math_min. destruct (num_lt (Fin x) (Fin 100)) eqn:E.
    + split; [exact Hle|]. apply num_lt_fin in E. apply num_le_fin.
      apply Qlt_le_weak. exact E.
    + split; reflexivity.
  - split; reflexivity.
Qed.

Lemma numeric_page_and_limit_clamped (params : SearchParams) :
  page (parse_query params) <> NaN ->
  limit (parse_query params) <> NaN ->
  num_le (Fin 1) (page (parse_query params)) = true /\
  num_le (Fin 1) (limit (parse_query params)) = true /\
  num_le (limit (parse_query params)) (Fin 100) = true.
Proof.
  unfold parse_query. cbn [page limit].
  set (p := ToNumber _). set (l := ToNumber _). intros Hp Hl.
  assert (Hp' : p <> NaN) by (intros E; apply Hp; rewrite E; reflexivity).
  assert (Hl' : l <> NaN).
  { intros E. apply Hl. rewrite E. reflexivity. }
  split; [apply Math_max_lower; exact Hp'|].
  apply Math_min_upper.
  - intros E. apply Hl. rewrite E. reflexivity.
  - apply Math_max_lower. exact Hl'.
Qed.

(** The total reported is the number of products that pass the filters,
    whatever the page and the limit. *)
Lemma total_independent_of_page (q : Query) (p l : number) (products : list value)
    (paged : list value) (meta : Meta) :
  query_file q products = Ok (paged, meta) ->
  exists paged',
    query_file {| search := search q; category := category q; page := p; limit := l;
                  sort := sort q; order := order q |} products
    = Ok (paged', {| meta_total := meta_total meta; meta_page := p; meta_limit := l |}).
Proof.
  unfold query_file. cbn [search category page limit sort order].
  destruct (if is_empty (search q) then _ else _) as [f1|]; simpl; [|discriminate].
  destruct (match category q with Some c => _ | None => _ end) as [f2|]; simpl;
    [|discriminate].
  destruct (Array_sort _ f2) as [f|]; simpl; [|discriminate].
  intros [= <- <-]. eexists. reflexivity.
Qed.

(** *** The in-memory sort *)

Lemma compare_missing_left (sort order : string) (a b : value) :
  nullish a = false -> nullish b = false ->
  lookup a sort = Own VUndefined -> lookup b sort <> Own VUndefined ->
  compare sort order a b = Ok (if String.eqb order "asc" then Fin (-1) else Fin 1).
Proof.
  intros Ha Hb Hma Hpb. unfold compare, index. rewrite Ha, Hb. cbn [bind].
  rewrite Hma. destruct (lookup b sort) as [[]|]; try reflexivity. congruence.
Qed.

Lemma compare_missing_right (sort order : string) (a b : value) :
  nullish a = false -> nullish b = false ->
  lookup a sort = Own VUndefined -> lookup b sort <> Own VUndefined ->
  compare sort order b a = Ok (if String.eqb order "asc" then Fin 1 else Fin (-1)).
Proof.
  intros Ha Hb Hma Hpb. unfold compare, index. rewrite Ha, Hb. cbn [bind].
  rewrite Hma. destruct (lookup b sort) as [[]|]; try reflexivity. congruence.
Qed.

(** C9, amended: of two records of which exactly one lacks the sort key,
    that is, for which [a[sort]] is undefined, the one lacking it is sorted
    before the other when the order is ascending and after it when the
    order is descending, whichever came first in the input and whichever
    of the two the sort hands to the comparator first. *)
Theorem missing_key_first_when_ascending (sort : string) (a b : value) :
  nullish a = false -> nullish b = false ->
  lookup a sort = Own VUndefined -> lookup b sort <> Own VUndefined ->
  (compare sort "asc" a b = Ok (Fin (-1)) /\
   compare sort "asc" b a = Ok (Fin 1) /\
   Array_sort (compare sort "asc") [a; b] = Ok [a; b] /\
   Array_sort (compare sort "asc") [b; a] = Ok [a; b]) /\
  (compare sort "desc" a b = Ok (Fin 1) /\
   compare sort "desc" b a = Ok (Fin (-1)) /\
   Array_sort (compare sort "desc") [a; b] = Ok [b; a] /\
   Array_sort (compare sort "desc") [b; a] = Ok [b; a]).
Proof.
  intros Ha Hb Hma Hpb.
  pose proof (compare_missing_left sort "asc" a b Ha Hb Hma Hpb) as Hl1.
  pose proof (compare_missing_right sort "asc" a b Ha Hb Hma Hpb) as Hr1.
  pose proof (compare_missing_left sort "desc" a b Ha Hb Hma Hpb) as Hl2.
  pose proof (compare_missing_right sort "desc" a b Ha Hb Hma Hpb) as Hr2.
  cbn in Hl1, Hr1, Hl2, Hr2.
  repeat split; try assumption; cbn [Array_sort insert_sorted bind];
    rewrite ?Hl1, ?Hr1, ?Hl2, ?Hr2; reflexivity.
Qed.

(** A key that an object does not have itself but inherits, such as
    [constructor], is not a missing key: the comparator converts what it
    finds to NaN, answers NaN in both directions and for both orders, and
    the sort leaves the two records as they came. *)
Lemma inherited_key_keeps_input_order (sort order : string)
    (fa fb : list (string * value)) :
  existsb (String.eqb sort) Object_prototype = true ->
  has_key sort fa = false -> has_key sort fb = false ->
  lookup (VObj fa) sort <> Own VUndefined /\
  compare sort order (VObj fa) (VObj fb) = Ok NaN /\
  Array_sort (compare sort order) [VObj fa; VObj fb] = Ok [VObj fa; VObj fb] /\
  Array_sort (compare sort order) [VObj fb; VObj fa] = Ok [VObj fb; VObj fa].
Proof.
  intros Hproto Hfa Hfb.
  assert (Hla : lookup (VObj fa) sort = Inherited NaN).
  { unfold lookup. cbn [has_own]. rewrite Hfa, Hproto. reflexivity. }
  assert (Hlb : lookup (VObj fb) sort = Inherited NaN).
  { unfold lookup. cbn [has_own]. rewrite Hfb, Hproto. reflexivity. }
  assert (Hcmp : forall x y, (x = VObj fa \/ x = VObj fb) -> (y = VObj fa \/ y = VObj fb) ->
                   compare sort order x y = Ok NaN).
  { intros x y Hx Hy. unfold compare, index.
    assert (Hlx : lookup x sort = Inherited NaN) by (destruct Hx as [->| ->]; assumption).
    assert (Hly : lookup y sort = Inherited NaN) by (destruct Hy as [->| ->]; assumption).
    assert (Hnx : nullish x = false) by (destruct Hx as [->| ->]; reflexivity).
    assert (Hny : nullish y = false) by (destruct Hy as [->| ->]; reflexivity).
    rewrite Hnx, Hny. cbn [bind]. rewrite Hlx, Hly.
    destruct (String.eqb order "asc"); reflexivity. }
  split; [rewrite Hla; discriminate|].
  split; [apply Hcmp; auto|].
  split; cbn [Array_sort insert_sorted bind]; rewrite Hcmp by auto; reflexivity.
Qed.

End CatalogQuery.

Section CatalogExamples.
Import Products.

Lemma missing_key_first_when_ascending_witness :
  (@compare example_runtime "price" "asc"
     (VObj [("name", VStr "Bucket")])
     (VObj [("name", VStr "Anvil"); ("price", VNum (Fin 3))]) = Ok (Fin (-1)) /\
   @compare example_runtime "price" "asc"
     (VObj [("name", VStr "Anvil"); ("price", VNum (Fin 3))])
     (VObj [("name", VStr "Bucket")]) = Ok (Fin 1) /\
   Array_sort (@compare example_runtime "price" "asc")
     [VObj [("name", VStr "Bucket")]; VObj [("name", VStr "Anvil"); ("price", VNum (Fin 3))]]
   = Ok [VObj [("name", VStr "Bucket")]; VObj [("name", VStr "Anvil"); ("price", VNum (Fin 3))]] /\
   Array_sort (@compare example_runtime "price" "asc")
     [VObj [("name", VStr "Anvil"); ("price", VNum (Fin 3))]; VObj [("name", VStr "Bucket")]]
   = Ok [VObj [("name", VStr "Bucket")]; VObj [("name", VStr "Anvil"); ("price", VNum (Fin 3))]]) /\
  (@compare example_runtime "price" "desc"
     (VObj [("name", VStr "Bucket")])
     (VObj [("name", VStr "Anvil"); ("price", VNum (Fin 3))]) = Ok (Fin 1) /\
   @compare example_runtime "price" "desc"
     (VObj [("name", VStr "Anvil"); ("price", VNum (Fin 3))])
     (VObj [("name", VStr "Bucket")]) = Ok (Fin (-1)) /\
   Array_sort (@compare example_runtime "price" "desc")
     [VObj [("name", VStr "Bucket")]; VObj [("name", VStr "Anvil"); ("price", VNum (Fin 3))]]
   = Ok [VObj [("name", VStr "Anvil"); ("price", VNum (Fin 3))]; VObj [("name", VStr "Bucket")]] /\
   Array_sort (@compare example_runtime "price" "desc")
     [VObj [("name", VStr "Anvil"); ("price", VNum (Fin 3))]; VObj [("name", VStr "Bucket")]]
   = Ok [VObj [("name", VStr "Anvil"); ("price", VNum (Fin 3))]; VObj [("name", VStr "Bucket")]]).
Proof.
  apply (@missing_key_first_when_ascending example_runtime "price"
           (VObj [("name", VStr "Bucket")])
           (VObj [("name", VStr "Anvil"); ("price", VNum (Fin 3))])).
  - reflexivity.
  - reflexivity.
  - reflexivity.
  - vm_compute. discriminate.
Defined.

(** C9 as written fails: sorted by price, the product without a price comes
    first, not last, when the order is ascending, and last, not first, when
    it is descending. *)
Lemma missing_key_not_last_when_ascending :
  @GET example_runtime [("sort", "price"); ("order", "asc")] three_products
  = {| status := 200;
       body := PageOf [VObj [("name", VStr "Bucket")];
                       VObj [("name", VStr "Candle"); ("price", VNum (Fin 1))];
                       VObj [("name", VStr "Anvil"); ("price", VNum (Fin 3))]]
                 {| meta_total := 3; meta_page := Fin 1; meta_limit := Fin 20 |} |} /\
  @GET example_runtime [("sort", "price"); ("order", "desc")] three_products
  = {| status := 200;
       body := PageOf [VObj [("name", VStr "Anvil"); ("price", VNum (Fin 3))];
                       VObj [("name", VStr "Candle"); ("price", VNum (Fin 1))];
                       VObj [("name", VStr "Bucket")]]
                 {| meta_total := 3; meta_page := Fin 1; meta_limit := Fin 20 |} |}.
Proof. split; vm_compute; reflexivity. Qed.

End CatalogExamples.

(** ** Product creation *)

Section ProductCreation.
Import Products.
Context `{Runtime}.

Lemma lower_char_not_upper (c : ascii) : is_upper (lower_char c) = false.
Proof. destruct c as [[] [] [] [] [] [] [] []]; reflexivity. Qed.

Lemma is_hyphen_eq (c : ascii) : is_hyphen c = true <-> c = "-"%char.
Proof.
  split; [|intros ->; reflexivity].
  destruct c as [[] [] [] [] [] [] [] []]; simpl; intros E;
    first [reflexivity | discriminate E].
Qed.

Lemma slug_char_of_word (c : ascii) :
  is_upper c = false -> is_word c || is_hyphen c = true -> slug_char c = true.
Proof.
  destruct c as [[] [] [] [] [] [] [] []]; simpl; intros E1 E2;
    first [reflexivity | discriminate E1 | discriminate E2].
Qed.

Lemma all_chars_toLowerCase (s : string) :
  all_chars (fun c => negb (is_upper c)) (toLowerCase s) = true.
Proof.
  induction s as [|c s IH]; simpl; [reflexivity|].
  rewrite lower_char_not_upper, IH. reflexivity.
Qed.

Lemma all_chars_spaces_to_hyphen (P : ascii -> bool) (in_run : bool) (s : string) :
  P "-"%char = true -> all_chars P s = true ->
  all_chars P (spaces_to_hyphen in_run s) = true.
Proof.
  intros Hh. revert in_run. induction s as [|c s IH]; intros in_run; simpl;
    [reflexivity|].
  intros Hs. apply andb_true_iff in Hs as [Hc Hs].
  destruct (is_space c); [destruct in_run|]; simpl; rewrite ?Hh, ?Hc, IH; auto.
Qed.

Lemma all_chars_strip_non_word (s : string) :
  all_chars (fun c => negb (is_upper c)) s = true ->
  all_chars slug_char (strip_non_word s) = true.
Proof.
  induction s as [|c s IH]; simpl; [reflexivity|].
  intros Hs. apply andb_true_iff in Hs as [Hc Hs].
  destruct (is_word c || is_hyphen c) eqn:E; simpl; [|auto].
  rewrite IH by exact Hs. rewrite slug_char_of_word; auto.
  apply negb_true_iff. exact Hc.
Qed.

Lemma all_chars_collapse_hyphens (P : ascii -> bool) (after_hyphen : bool) (s : string) :
  all_chars P s = true -> all_chars P (collapse_hyphens after_hyphen s) = true.
Proof.
  revert after_hyphen. induction s as [|c s IH]; intros after_hyphen; simpl;
    [reflexivity|].
  intros Hs. apply andb_true_iff in Hs as [Hc Hs].
  destruct (is_hyphen c); [destruct after_hyphen|]; simpl; rewrite ?Hc, IH; auto.
Qed.

Lemma slugify_chars (str : string) : all_chars slug_char (slugify str) = true.
Proof.
  unfold slugify. apply all_chars_collapse_hyphens, all_chars_strip_non_word.
  apply all_chars_spaces_to_hyphen; [reflexivity|]. apply all_chars_toLowerCase.
Qed.

Lemma collapse_after_hyphen (s : string) :
  starts_with_hyphen (collapse_hyphens true s) = false.
Proof.
  induction s as [|c s IH]; simpl; [reflexivity|].
  destruct (is_hyphen c) eqn:E; simpl; auto.
Qed.

Lemma prefix_cons (a b : ascii) (s1 s2 : string) :
  String.prefix (String a s1) (String b s2)
  = if ascii_dec a b then String.prefix s1 s2 else false.
Proof. reflexivity. Qed.

Lemma prefix_one_hyphen (t : string) : String.prefix "-" t = starts_with_hyphen t.
Proof.
  destruct t as [|d t]; [reflexivity|].
  rewrite prefix_cons. cbn [starts_with_hyphen].
  destruct (ascii_dec "-" d) as [<-|Hne].
  - destruct t; reflexivity.
  - destruct (is_hyphen d) eqn:E; [|reflexivity].
    apply is_hyphen_eq in E. congruence.
Qed.

Lemma prefix_two_hyphens (c : ascii) (t : string) :
  String.prefix "--" (String c t) = is_hyphen c && starts_with_hyphen t.
Proof.
  rewrite prefix_cons, prefix_one_hyphen.
  destruct (ascii_dec "-" c) as [<-|Hne]; [reflexivity|].
  destruct (is_hyphen c) eqn:E; [|reflexivity].
  apply is_hyphen_eq in E. congruence.
Qed.

Lemma collapse_no_double_hyphen (after_hyphen : bool) (s : string) :
  includes (collapse_hyphens after_hyphen s) "--" = false.
Proof.
  revert after_hyphen. induction s as [|c s IH]; intros after_hyphen;
    [reflexivity|].
  cbn [collapse_hyphens].
  destruct (is_hyphen c) eqn:E; [destruct after_hyphen|]; auto;
    rewrite includes_unfold, prefix_two_hyphens, IH, E; simpl;
    rewrite ?collapse_after_hyphen; reflexivity.
Qed.

Lemma slugify_no_double_hyphen (str : string) : includes (slugify str) "--" = false.
Proof. apply collapse_no_double_hyphen. Qed.

(** *** The slug of the code and the slug of the specification *)

Lemma lower_char_spec (c : ascii) :
  lower_char c = if spec_capital c then ascii_of_nat (nat_of_ascii c + 32) else c.
Proof. destruct c as [[] [] [] [] [] [] [] []]; reflexivity. Qed.

Lemma is_space_spec (c : ascii) : is_space c = spec_whitespace c.
Proof. destruct c as [[] [] [] [] [] [] [] []]; reflexivity. Qed.

Lemma is_kept_spec (c : ascii) : is_word c || is_hyphen c = spec_kept c.
Proof. destruct c as [[] [] [] [] [] [] [] []]; reflexivity. Qed.

Lemma is_hyphen_spec (c : ascii) : is_hyphen c = Ascii.eqb "-" c.
Proof. destruct c as [[] [] [] [] [] [] [] []]; reflexivity. Qed.

Lemma toLowerCase_spec (s : string) : toLowerCase s = spec_lowercase s.
Proof.
  induction s as [|c s IH]; [reflexivity|].
  cbn [toLowerCase spec_lowercase]. rewrite lower_char_spec, IH. reflexivity.
Qed.

Lemma strip_non_word_spec (s : string) : strip_non_word s = spec_strip s.
Proof.
  induction s as [|c s IH]; [reflexivity|].
  cbn [strip_non_word spec_strip]. rewrite is_kept_spec, IH. reflexivity.
Qed.

Lemma stretches_to_hyphen_ext (k1 k2 : ascii -> bool) (s : string) :
  (forall c, k1 c = k2 c) -> stretches_to_hyphen k1 s = stretches_to_hyphen k2 s.
Proof.
  intros Hk. induction s as [|c s IH]; [reflexivity|].
  cbn [stretches_to_hyphen]. rewrite Hk, IH.
  destruct s as [|c' s']; [reflexivity|]. rewrite Hk. reflexivity.
Qed.

(** Writing the hyphen where a stretch starts, as the code does, or where
    it ends gives the same string. *)
Lemma spaces_to_hyphen_stretches (s : string) :
  spaces_to_hyphen false s = stretches_to_hyphen is_space s /\
  stretches_to_hyphen is_space s
  = match s with
    | String c _ =>
        if is_space c then String "-" (spaces_to_hyphen true s)
        else spaces_to_hyphen true s
    | EmptyString => spaces_to_hyphen true s
    end.
Proof.
  induction s as [|c rest [IH1 IH2]]; [split; reflexivity|].
  cbn [spaces_to_hyphen stretches_to_hyphen].
  destruct (is_space c) eqn:Hc.
  - assert (Hrun : stretches_to_hyphen is_space (String c rest)
                   = String "-" (spaces_to_hyphen true rest)).
    { cbn [stretches_to_hyphen]. rewrite Hc.
      destruct rest as [|c' r']; [reflexivity|].
      rewrite IH2. destruct (is_space c'); reflexivity. }
    cbn [stretches_to_hyphen] in Hrun. rewrite Hc in Hrun.
    split; symmetry; exact Hrun || (rewrite Hrun; reflexivity).
  - rewrite IH1. split; reflexivity.
Qed.

Lemma collapse_hyphens_stretches (s : string) :
  collapse_hyphens false s = stretches_to_hyphen is_hyphen s /\
  stretches_to_hyphen is_hyphen s
  = match s with
    | String c _ =>
        if is_hyphen c then String "-" (collapse_hyphens true s)
        else collapse_hyphens true s
    | EmptyString => collapse_hyphens true s
    end.
Proof.
  induction s as [|c rest [IH1 IH2]]; [split; reflexivity|].
  cbn [collapse_hyphens stretches_to_hyphen].
  destruct (is_hyphen c) eqn:Hc.
  - pose proof (proj1 (is_hyphen_eq c) Hc) as ->.
    assert (Hrun : stretches_to_hyphen is_hyphen (String "-" rest)
                   = String "-" (collapse_hyphens true rest)).
    { cbn [stretches_to_hyphen]. rewrite Hc.
      destruct rest as [|c' r']; [reflexivity|].
      rewrite IH2. destruct (is_hyphen c'); reflexivity. }
    cbn [stretches_to_hyphen] in Hrun. rewrite Hc in Hrun.
    split; symmetry; exact Hrun || (rewrite Hrun; reflexivity).
  - rewrite IH1. split; reflexivity.
Qed.

Lemma trimStart_starts (s : string) :
  match trimStart s with
  | String c _ => is_space c = false
  | EmptyString => True
  end.
Proof.
  induction s as [|c s IH]; [exact I|].
  cbn [trimStart]. destruct (is_space c) eqn:Hc; [exact IH | exact Hc].
Qed.

Lemma trimEnd_twice (s : string) : trimEnd (trimEnd s) = trimEnd s.
Proof.
  induction s as [|c s IH]; [reflexivity|].
  cbn [trimEnd]. destruct (trimEnd s) as [|k ks] eqn:Hk.
  - destruct (is_space c) eqn:Hc; [reflexivity|].
    cbn [trimEnd]. rewrite Hc. reflexivity.
  - change (trimEnd (String c (String k ks)))
      with (match trimEnd (String k ks) with
            | EmptyString => if is_space c then EmptyString else String c EmptyString
            | kept => String c kept
            end).
    rewrite IH. reflexivity.
Qed.

Lemma trimEnd_starts (s : string) :
  match s with String c _ => is_space c = false | EmptyString => True end ->
  trimStart (trimEnd s) = trimEnd s.
Proof.
  destruct s as [|c s]; [reflexivity|]. intros Hc.
  cbn [trimEnd]. destruct (trimEnd s) as [|k ks].
  - rewrite Hc. cbn [trimStart]. rewrite Hc. reflexivity.
  - cbn [trimStart]. rewrite Hc. reflexivity.
Qed.

Lemma trim_twice (s : string) : trim (trim s) = trim s.
Proof.
  unfold trim. rewrite (trimEnd_starts _ (trimStart_starts s)). apply trimEnd_twice.
Qed.

(** On a name that was trimmed, which is what the validator hands over,
    [slugify] computes the slug of the specification. *)
Lemma slugify_spec (name : string) : slugify (trim name) = spec_slug (trim name).
Proof.
  unfold slugify, spec_slug. rewrite trim_twice.
  rewrite (proj1 (collapse_hyphens_stretches _)), strip_non_word_spec.
  rewrite (proj1 (spaces_to_hyphen_stretches _)), toLowerCase_spec.
  rewrite (stretches_to_hyphen_ext is_hyphen (Ascii.eqb "-") _ is_hyphen_spec).
  rewrite (stretches_to_hyphen_ext is_space spec_whitespace _ is_space_spec).
  reflexivity.
Qed.

(** What a passed validation tells about the name. *)
Lemma validateProductPayload_name (body : value) (payload : PartialProduct) :
  validateProductPayload body = Ok (Valid payload) ->
  exists name, get_prop body "name" = VStr name /\ v_name payload = Some (trim name).
Proof.
  unfold validateProductPayload.
  destruct (negb (truthy body) || _); [discriminate|].
  cbv zeta.
  destruct (price_rejected _) as [price_bad|]; cbn [bind]; [|discriminate].
  destruct (stock_rejected _) as [stock_bad|]; cbn [bind]; [|discriminate].
  destruct (negb (truthy (get_prop body "name")) || _ || _) eqn:Hname.
  - destruct price_bad, stock_bad; discriminate.
  - destruct price_bad, stock_bad; try discriminate.
    cbn [app List.length Nat.ltb Nat.leb]. intros [= <-]. cbn [v_name].
    apply orb_false_iff in Hname as [Hname _].
    apply orb_false_iff in Hname as [_ Hname].
    destruct (get_prop body "name") as [| | | |name| |]; simpl in Hname;
      try discriminate.
    exists name. split; reflexivity.
Qed.

Lemma validateProductPayload_omitted (body : value) (payload : PartialProduct) :
  validateProductPayload body = Ok (Valid payload) ->
  (get_prop body "description" = VUndefined -> v_description payload = None) /\
  (get_prop body "image" = VUndefined -> v_image payload = None) /\
  (get_prop body "category" = VUndefined -> v_category payload = None) /\
  (get_prop body "slug" = VUndefined -> v_slug payload = None) /\
  (get_prop body "stock" = VUndefined -> v_stock payload = None).
Proof.
  unfold validateProductPayload.
  destruct (negb (truthy body) || _); [discriminate|].
  cbv zeta.
  destruct (price_rejected _) as [price_bad|]; cbn [bind]; [|discriminate].
  destruct (stock_rejected _) as [stock_bad|]; cbn [bind]; [|discriminate].
  destruct (negb (truthy (get_prop body "name")) || _ || _);
    destruct price_bad, stock_bad; try discriminate.
  cbn [app List.length Nat.ltb Nat.leb]. intros [= <-].
  cbn [v_description v_image v_category v_slug v_stock].
  repeat split; intros ->; reflexivity.
Qed.

(** C10: a valid payload is stored, at the head of the file, with its
    omitted fields filled in, in the response and in the file alike:
    description the empty string, image null, category "uncategorized",
    stock the number 0, slug the slugified name, which is the slug of the
    specification (the trimmed name in lower case, each stretch of
    whitespace turned into a hyphen, everything but letters, digits,
    underscores and hyphens dropped, each stretch of hyphens reduced to
    one) and so holds only lower-case letters, digits, underscores and
    single hyphens; and the data a database client would be given carries
    the same five fields. *)
Theorem omitted_fields_get_defaults (env : Env) (body : value) (file : DataFile)
    (payload : PartialProduct) :
  validateProductPayload body = Ok (Valid payload) ->
  io_failure env = None ->
  exists (created stored : value) (older : list value),
    POST env (Some body) file
    = (Some (VArr (stored :: older)), {| status := 201; body := Stored created |}) /\
    Some (VArr (stored :: older))
    = writeProductsToFile (created :: readProductsFromFile file) /\
    (get_prop body "description" = VUndefined ->
     get_prop created "description" = VStr "" /\
     get_prop stored "description" = VStr "") /\
    (get_prop body "image" = VUndefined ->
     get_prop created "image" = VNull /\ get_prop stored "image" = VNull) /\
    (get_prop body "category" = VUndefined ->
     get_prop created "category" = VStr "uncategorized" /\
     get_prop stored "category" = VStr "uncategorized") /\
    (get_prop body "slug" = VUndefined ->
     exists name, get_prop body "name" = VStr name /\
       get_prop created "slug" = VStr (slugify (trim name)) /\
       get_prop stored "slug" = VStr (slugify (trim name)) /\
       slugify (trim name) = spec_slug (trim name) /\
       all_chars slug_char (slugify (trim name)) = true /\
       includes (slugify (trim name)) "--" = false) /\
    (get_prop body "stock" = VUndefined ->
     get_prop created "stock" = VNum (Fin 0) /\
     get_prop stored "stock" = VNum (Fin 0) /\
     typeof (get_prop stored "stock") = "number") /\
    (exists data, prisma_create_data created = Ok data /\
       Forall (fun field => get_prop data field = get_prop created field)
         ["description"; "image"; "category"; "slug"; "stock"]).
Proof.
  intros Hvalid Hio.
  destruct (validateProductPayload_name _ _ Hvalid) as (name & Hname & Hvname).
  destruct (validateProductPayload_omitted _ _ Hvalid)
    as (Hdesc & Himage & Hcat & Hslug & Hstock).
  unfold POST. cbn [default]. rewrite Hvalid.
  unfold newProduct, slug_or_default. rewrite Hvname, Hio.
  unfold writeProductsToFile.
  destruct (v_slug payload) as [slug|] eqn:Eslug; cbn [bind];
    destruct (v_image payload) as [image|] eqn:Eimage;
    eexists _, _, _; (split; [reflexivity|]); (split; [reflexivity|]);
    cbn [get_prop assoc String.eqb Ascii.eqb Bool.eqb];
    (split; [intros E; rewrite (Hdesc E); split; reflexivity|]);
    (split; [intros E; specialize (Himage E); first [discriminate | split; reflexivity]|]);
    (split; [intros E; rewrite (Hcat E); split; reflexivity|]);
    (split; [|split;
                [intros E; rewrite (Hstock E); repeat split; reflexivity
                |eexists; split; [reflexivity|repeat constructor]]]).
  1,2: intros E; specialize (Hslug E); discriminate.
  all: intros _; exists name; split; [exact Hname|]; split; [reflexivity|];
    split; [reflexivity|]; split; [apply slugify_spec|];
    split; [apply slugify_chars | apply slugify_no_double_hyphen].
Qed.

End ProductCreation.

Section ProductExamples.
Import Products.

Lemma omitted_fields_get_defaults_witness :
  exists (created stored : value) (older : list value),
    @POST example_runtime
      {| new_id := "id-1"; now := "2025-01-01T00:00:00.000Z"; io_failure := None |}
      (Some (VObj [("name", VStr " Red  Mug (Large) "); ("price", VStr "12.5")]))
      three_products
    = (Some (VArr (stored :: older)), {| status := 201; body := Stored created |}) /\
    Some (VArr (stored :: older))
    = writeProductsToFile (created :: readProductsFromFile three_products) /\
    (get_prop (VObj [("name", VStr " Red  Mug (Large) "); ("price", VStr "12.5")]) "description"
     = VUndefined ->
     get_prop created "description" = VStr "" /\
     get_prop stored "description" = VStr "") /\
    (get_prop (VObj [("name", VStr " Red  Mug (Large) "); ("price", VStr "12.5")]) "image"
     = VUndefined ->
     get_prop created "image" = VNull /\ get_prop stored "image" = VNull) /\
    (get_prop (VObj [("name", VStr " Red  Mug (Large) "); ("price", VStr "12.5")]) "category"
     = VUndefined ->
     get_prop created "category" = VStr "uncategorized" /\
     get_prop stored "category" = VStr "uncategorized") /\
    (get_prop (VObj [("name", VStr " Red  Mug (Large) "); ("price", VStr "12.5")]) "slug"
     = VUndefined ->
     exists name,
       get_prop (VObj [("name", VStr " Red  Mug (Large) "); ("price", VStr "12.5")]) "name"
       = VStr name /\
       get_prop created "slug" = VStr (slugify (trim name)) /\
       get_prop stored "slug" = VStr (slugify (trim name)) /\
       slugify (trim name) = spec_slug (trim name) /\
       all_chars slug_char (slugify (trim name)) = true /\
       includes (slugify (trim name)) "--" = false) /\
    (get_prop (VObj [("name", VStr " Red  Mug (Large) "); ("price", VStr "12.5")]) "stock"
     = VUndefined ->
     get_prop created "stock" = VNum (Fin 0) /\
     get_prop stored "stock" = VNum (Fin 0) /\
     typeof (get_prop stored "stock") = "number") /\
    (exists data, prisma_create_data created = Ok data /\
       Forall (fun field => get_prop data field = get_prop created field)
         ["description"; "image"; "category"; "slug"; "stock"]).
Proof.
  apply (@omitted_fields_get_defaults example_runtime
           {| new_id := "id-1"; now := "2025-01-01T00:00:00.000Z"; io_failure := None |}
           (VObj [("name", VStr " Red  Mug (Large) "); ("price", VStr "12.5")])
           three_products
           {| v_name := Some "Red  Mug (Large)"; v_price := Some (Fin (25 # 2));
              v_description := None; v_image := None; v_stock := None;
              v_category := None; v_slug := None |}).
  - vm_compute. reflexivity.
  - reflexivity.
Defined.

(** The product that request stores, and its slug step by step: lower
    case, a hyphen for each stretch of whitespace, the parentheses
    dropped. *)
Example red_mug_stored :
  @POST example_runtime
    {| new_id := "id-1"; now := "2025-01-01T00:00:00.000Z"; io_failure := None |}
    (Some (VObj [("name", VStr " Red  Mug (Large) "); ("price", VStr "12.5")]))
    None
  = (Some (VArr [VObj [("id", VStr "id-1"); ("name", VStr "Red  Mug (Large)");
                       ("description", VStr ""); ("price", VNum (Fin (25 # 2)));
                       ("image", VNull); ("stock", VNum (Fin 0));
                       ("category", VStr "uncategorized");
                       ("slug", VStr "red-mug-large");
                       ("createdAt", VStr "2025-01-01T00:00:00.000Z");
                       ("updatedAt", VStr "2025-01-01T00:00:00.000Z")]]),
     {| status := 201;
        body := Stored (VObj [("id", VStr "id-1"); ("name", VStr "Red  Mug (Large)");
                              ("description", VStr ""); ("price", VNum (Fin (25 # 2)));
                              ("image", VNull); ("stock", VNum (Fin 0));
                              ("category", VStr "uncategorized");
                              ("slug", VStr "red-mug-large");
                              ("createdAt", VStr "2025-01-01T00:00:00.000Z");
                              ("updatedAt", VStr "2025-01-01T00:00:00.000Z")]) |}) /\
  spec_lowercase "Red  Mug (Large)" = "red  mug (large)" /\
  stretches_to_hyphen spec_whitespace "red  mug (large)" = "red-mug-(large)" /\
  spec_strip "red-mug-(large)" = "red-mug-large" /\
  spec_slug "Red  Mug (Large)" = "red-mug-large".
Proof. vm_compute. repeat split; reflexivity. Qed.

(** Slugs of names with characters beyond ASCII: a no-break space is
    whitespace, an accented capital is lowered and then dropped, since it
    is no word character. *)
Example slugs_beyond_ascii :
  slugify ("a" +:+ String (ascii_of_nat 160) "b") = "a-b" /\
  toLowerCase (String (ascii_of_nat 201) "COLE") = String (ascii_of_nat 233) "cole" /\
  slugify (String (ascii_of_nat 201) "COLE 1") = "cole-1".
Proof. vm_compute. repeat split; reflexivity. Qed.

(** A name that is only a no-break space is no name; a stock that
    overflows is not finite; an object with a property [toString] of its
    own cannot be made a number, and the handler answers 500; a failing
    disk gives 500 as well. *)
Example rejected_products :
  @POST example_runtime
    {| new_id := "id-1"; now := "2025-01-01T00:00:00.000Z"; io_failure := None |}
    (Some (VObj [("name", VStr (String (ascii_of_nat 160) EmptyString));
                 ("price", VNum (Fin 1))]))
    three_products
  = (three_products,
     {| status := 400;
        body := Rejected ["name is required and must be a non-empty string"] |}) /\
  @POST example_runtime
    {| new_id := "id-1"; now := "2025-01-01T00:00:00.000Z"; io_failure := None |}
    (Some (VObj [("name", VStr "x"); ("price", VNum (Fin 1)); ("stock", VStr "1e400")]))
    three_products
  = (three_products,
     {| status := 400; body := Rejected ["stock must be a number"] |}) /\
  @POST example_runtime
    {| new_id := "id-1"; now := "2025-01-01T00:00:00.000Z"; io_failure := None |}
    (Some (VObj [("name", VStr "x"); ("price", VObj [("toString", VNum (Fin 1))])]))
    three_products
  = (three_products,
     {| status := 500; body := Failure "Internal Server Error" |}) /\
  @POST example_runtime
    {| new_id := "id-1"; now := "2025-01-01T00:00:00.000Z"; io_failure := Some None |}
    (Some (VObj [("name", VStr "x"); ("price", VNum (Fin 1))]))
    three_products
  = (None, {| status := 500; body := Failure "Internal Server Error" |}).
Proof. vm_compute. repeat split; reflexivity. Qed.

(** Sorted by a key that every object inherits, the products stay as the
    file has them, whatever the order asked. *)
Example sorted_by_constructor :
  @GET example_runtime [("sort", "constructor"); ("order", "asc")] three_products
  = @GET example_runtime [("sort", "constructor"); ("order", "desc")] three_products /\
  @GET example_runtime [("sort", "constructor"); ("order", "asc")] three_products
  = {| status := 200;
       body := PageOf (readProductsFromFile three_products)
                 {| meta_total := 3; meta_page := Fin 1; meta_limit := Fin 20 |} |}.
Proof. vm_compute. split; reflexivity. Qed.

(** The start of a page is computed as the engine computes it: for page
    1.7 and limit 10 it is 7, where exact arithmetic on the number that
    "1.7" reads as would give a little less. *)
Example start_of_a_fractional_page :
  js_mul (js_sub (StringToNumber "1.7") (Fin 1)) (Fin 10) = Fin 7 /\
  num_lt (num_mul (num_sub (StringToNumber "1.7") (Fin 1)) (Fin 10)) (Fin 7) = true.
Proof. vm_compute. split; reflexivity. Qed.

(** Numbers read from strings are binary64 values. *)
Example numbers_from_strings :
  StringToNumber "12.5" = Fin (25 # 2) /\
  StringToNumber "1e400" = PosInf /\
  StringToNumber "-1e400" = NegInf /\
  StringToNumber "1e-400" = Fin 0 /\
  StringToNumber "9007199254740993" = Fin 9007199254740992 /\
  StringToNumber "0.1" = Fin (3602879701896397 # 36028797018963968) /\
  StringToNumber "0x10" = Fin 16.
Proof. vm_compute. repeat split; reflexivity. Qed.

End ProductExamples.

(** ** Passwords stay out of responses *)

Section Passwords.
Import Users.
Context `{Runtime}.

Lemma has_key_without_key (k : string) (fields : list (string * value)) :
  has_key k (without_key k fields) = false.
Proof.
  induction fields as [|[k' v] rest IH]; simpl; [reflexivity|].
  destruct (String.eqb k' k) eqn:E; simpl; [exact IH|].
  rewrite String.eqb_sym, E. exact IH.
Qed.

Lemma sanitizeUser_truthy (user : value) :
  truthy user = true ->
  sanitizeUser user = VObj (without_key "password" (own_fields user)).
Proof. intros Ht. unfold sanitizeUser. rewrite Ht. reflexivity. Qed.

Lemma sanitizeUser_no_password (user : value) :
  exposes_password (sanitizeUser user) = false.
Proof.
  unfold sanitizeUser. destruct (truthy user) eqn:Ht; cbn [negb].
  - apply has_key_without_key.
  - destruct user as [| |b|n|s|l|f]; try reflexivity; try discriminate.
    destruct s; [reflexivity | discriminate].
Qed.

Section Handlers.
Context {S : Type} (adapter : Adapter S).

Lemma GET_password_free (request : Request) (db : S) :
  password_free (body (GET adapter request db)).
Proof.
  unfold GET, GET_try.
  destruct (given (param_id request)) as [id|].
  - destruct (getById adapter (VStr id) db) as [result|message]; cbn [bind];
      [|reflexivity].
    destruct (truthy result) eqn:Ht; cbn [negb]; [|reflexivity].
    cbn [respond body]. rewrite (sanitizeUser_truthy _ Ht). apply has_key_without_key.
  - destruct (given (param_email request)) as [email|].
    + destruct (getByEmail adapter (VStr email) db) as [result|message]; cbn [bind];
        [|reflexivity].
      destruct (truthy result) eqn:Ht; cbn [negb]; [|reflexivity].
      cbn [respond body]. rewrite (sanitizeUser_truthy _ Ht). apply has_key_without_key.
    + destruct (getAll adapter db) as [users|message]; cbn [bind]; [|reflexivity].
      cbn [respond body password_free].
      destruct users as [| | | | |l|]; try constructor.
      apply Forall_fmap, Forall_forall. intros u _. apply sanitizeUser_no_password.
Qed.

Lemma POST_no_password (now : string) (request : Request) (db : S) :
  exposes_password (body (POST adapter now request db).2) = false.
Proof.
  unfold POST, POST_try.
  destruct (json request) as [b|message]; cbn [bind with_catch]; [|reflexivity].
  destruct (negb (truthy b) || _ || _); [reflexivity|].
  destruct (getByEmail adapter (get_prop b "email") db) as [existing|message];
    cbn [bind with_catch]; [|reflexivity].
  destruct (truthy existing); [reflexivity|].
  destruct (hashPassword (get_prop b "password")) as [hashed|message];
    cbn [bind with_catch]; [|reflexivity].
  destruct (create adapter _ db) as [[db' created]|message];
    cbn [bind with_catch]; [|reflexivity].
  apply sanitizeUser_no_password.
Qed.

Lemma PUT_no_password (now : string) (request : Request) (db : S) :
  exposes_password (body (PUT adapter now request db).2) = false.
Proof.
  unfold PUT, PUT_try.
  assert (Hmain :
    exposes_password
      (body (with_catch db
         (let! updates := json request in
          let! existing :=
            find_existing adapter (given (param_id request))
              (given (param_email request)) db in
          if negb (truthy existing)
          then Ok (db, respond 404 (error_body "User not found"))
          else
            let! password := read_prop updates "password" in
            let! updatePayload1 :=
              (if truthy password
               then let! hashed := hashPassword password in
                    Ok (set_prop "password" (VStr hashed) (own_fields updates))
               else Ok (own_fields updates)) in
            let updatePayload := VObj (set_prop "updatedAt" (VStr now) updatePayload1) in
            let targetId :=
              nullish_default (get_prop existing "id")
                (json_string (given (param_id request))) in
            if negb (truthy targetId)
            then Ok (db, respond 500 (error_body "Unable to determine user id"))
            else
              let! out := updateById adapter targetId updatePayload db in
              let updated := out.2 in
              Ok (out.1, respond 200 (sanitizeUser updated)))).2) = false).
  { destruct (json request) as [updates|message]; cbn [bind with_catch]; [|reflexivity].
    destruct (find_existing adapter _ _ db) as [existing|message];
      cbn [bind with_catch]; [|reflexivity].
    destruct (negb (truthy existing)); [reflexivity|].
    destruct (read_prop updates "password") as [password|message];
      cbn [bind with_catch]; [|reflexivity].
    destruct (if truthy password then _ else _) as [payload1|message];
      cbn [bind with_catch]; [|reflexivity].
    cbv zeta.
    destruct (negb (truthy _)); [reflexivity|].
    destruct (updateById adapter _ _ db) as [[db' updated]|message];
      cbn [bind with_catch]; [|reflexivity].
    apply sanitizeUser_no_password. }
  destruct (given (param_id request)), (given (param_email request));
    first [exact Hmain | reflexivity].
Qed.

Lemma DELETE_no_password (request : Request) (db : S) :
  exposes_password (body (DELETE adapter request db).2) = false /\
  exposes_password (get_prop (body (DELETE adapter request db).2) "user") = false.
Proof.
  unfold DELETE, DELETE_try.
  assert (Hmain :
    let response :=
      (with_catch db
         (let! existing :=
            find_existing adapter (given (param_id request))
              (given (param_email request)) db in
          if negb (truthy existing)
          then Ok (db, respond 404 (error_body "User not found"))
          else
            let targetId :=
              nullish_default (get_prop existing "id")
                (json_string (given (param_id request))) in
            if negb (truthy targetId)
            then Ok (db, respond 500 (error_body "Unable to determine user id"))
            else
              let! out := deleteById adapter targetId db in
              let deleted := out.2 in
              Ok (out.1, respond 200 (VObj [("success", VBool true);
                                            ("user", sanitizeUser deleted)])))).2 in
    exposes_password (body response) = false /\
    exposes_password (get_prop (body response) "user") = false).
  { cbv zeta.
    destruct (find_existing adapter _ _ db) as [existing|message];
      cbn [bind with_catch]; [|split; reflexivity].
    destruct (negb (truthy existing)); [split; reflexivity|].
    destruct (negb (truthy _)); [split; reflexivity|].
    destruct (deleteById adapter _ db) as [[db' deleted]|message];
      cbn [bind with_catch]; [|split; reflexivity].
    split; [reflexivity|]. apply sanitizeUser_no_password. }
  destruct (given (param_id request)), (given (param_email request));
    first [exact Hmain | split; reflexivity].
Qed.

End Handlers.

Lemma order_json_user (o : Orders.FullOrder) : user_projection_only (Orders.order_json o).
Proof.
  unfold user_projection_only. cbn.
  destruct (Orders.fo_user o) as [u|]; [right|left; reflexivity].
  eexists _, _, _. reflexivity.
Qed.

(** C7: whatever the adapter returns, the user routes send user objects
    only after [sanitizeUser], which leaves no own property "password":
    not on the object GET, POST and PUT send, not on the elements of the
    array GET sends, not on the user DELETE sends; and every order sent by
    GET and POST /orders carries, as its user, null or an object with just
    id, name and email. *)
Theorem no_password_in_responses :
  (forall v, exposes_password (sanitizeUser v) = false) /\
  (forall (S : Type) (adapter : Adapter S) (now : string) (request : Request) (db : S),
      password_free (body (GET adapter request db)) /\
      exposes_password (body (POST adapter now request db).2) = false /\
      exposes_password (body (PUT adapter now request db).2) = false /\
      exposes_password (body (DELETE adapter request db).2) = false /\
      exposes_password (get_prop (body (DELETE adapter request db).2) "user") = false) /\
  (forall (db : Orders.Store) (request : Orders.Request),
      Forall (fun o => user_projection_only (Orders.order_json o))
        (orders_in (Orders.body (Orders.GET db))) /\
      Forall (fun o => user_projection_only (Orders.order_json o))
        (orders_in (Orders.body (Orders.POST request db).2))).
Proof.
  split; [exact sanitizeUser_no_password|]. split.
  - intros S adapter now request db.
    split; [apply GET_password_free|].
    split; [apply POST_no_password|].
    split; [apply PUT_no_password|].
    apply DELETE_no_password.
  - intros db request.
    split; apply Forall_forall; intros o _; apply order_json_user.
Qed.

End Passwords.

Section UserExamples.
Import Users.

(** A user is registered, then listed, updated and deleted: the stored
    record keeps the hashed password, no response shows it. *)
Example registered_user_hidden :
  let store := memoryStore "uuid-1" "2025-01-01T00:00:00.000Z" in
  let registered :=
    @POST example_runtime _ store "2025-01-01T00:00:00.000Z"
      {| param_id := None; param_email := None;
         json := Ok (VObj [("email", VStr "ann@example.com"); ("password", VStr "secret")]) |}
      [] in
  map_get "uuid-1" registered.1
  = Some (VObj [("id", VStr "uuid-1"); ("name", VNull); ("email", VStr "ann@example.com");
                ("password", VStr "sha256:secret"); ("role", VStr "user");
                ("createdAt", VStr "2025-01-01T00:00:00.000Z");
                ("updatedAt", VStr "2025-01-01T00:00:00.000Z")]) /\
  registered.2
  = {| status := 201;
       body := VObj [("id", VStr "uuid-1"); ("name", VNull);
                     ("email", VStr "ann@example.com"); ("role", VStr "user");
                     ("createdAt", VStr "2025-01-01T00:00:00.000Z");
                     ("updatedAt", VStr "2025-01-01T00:00:00.000Z")] |} /\
  body (GET store
          {| param_id := None; param_email := None; json := Throw "no body" |}
          registered.1)
  = VArr [VObj [("id", VStr "uuid-1"); ("name", VNull);
                ("email", VStr "ann@example.com"); ("role", VStr "user");
                ("createdAt", VStr "2025-01-01T00:00:00.000Z");
                ("updatedAt", VStr "2025-01-01T00:00:00.000Z")]] /\
  body (DELETE store
          {| param_id := Some "uuid-1"; param_email := None; json := Throw "no body" |}
          registered.1).2
  = VObj [("success", VBool true);
          ("user", VObj [("id", VStr "uuid-1"); ("name", VNull);
                         ("email", VStr "ann@example.com"); ("role", VStr "user");
                         ("createdAt", VStr "2025-01-01T00:00:00.000Z");
                         ("updatedAt", VStr "2025-01-01T00:00:00.000Z")])].
Proof. vm_compute. repeat split; reflexivity. Qed.

End UserExamples.

(* ===================================================================== *)
(** * Further properties *)
(* ===================================================================== *)

(** ** Orders: acceptance, failure, history *)

Section OrderOutcomes.
Import Orders.
Context `{Runtime}.

(** X1: A validated payload is answered with 201 exactly when its user exists
    and every item names a product that exists and, if it tracks stock,
    has at least the quantity asked. *)
Theorem order_accepted_iff (request : Request) (db : Store) (payload : value)
    (data : CreateOrderRequest) :
  json request = Ok payload ->
  validateOrderPayload payload = Ok data ->
  (status (POST request db).2 = 201
   <-> is_Some (users db !! userId data) /\ Forall (in_stock db) (items data)).
Proof.
  intros Hjson Hvalid. split.
  - apply (POST_201 _ _ _ _ Hjson Hvalid).
  - intros [Huser Hall]. rewrite (POST_success _ _ _ _ Hjson Hvalid Huser Hall).
    reflexivity.
Qed.

Lemma POST_rejected_store (request : Request) (db : Store) :
  status (POST request db).2 <> 201 -> (POST request db).1 = db.
Proof.
  unfold POST.
  destruct (let! payload := json request in validateOrderPayload payload)
    as [data|message]; [|reflexivity].
  destruct (user_findUnique (userId data) db); [|reflexivity].
  destruct (check_items _ (items data)); [reflexivity|].
  destruct (create_order data _ db) as [[db' created]|message]; [|reflexivity].
  intros Hst. exfalso. apply Hst. reflexivity.
Qed.

(** X2: Whatever the request, an answer other than 201 comes with the store
    exactly as it was: nothing is written on a rejected order, be it
    refused by validation, for its user, for a product or for stock, or
    failed on an error. *)
Theorem rejected_order_writes_nothing (request : Request) (db : Store) :
  status (POST request db).2 <> 201 ->
  (POST request db).1 = db /\
  GET (POST request db).1 = GET db.
Proof.
  intros Hst. rewrite (POST_rejected_store _ _ Hst). split; reflexivity.
Qed.

Lemma decrement_for_keeps (db0 : Store) (its : list OrderItemRequest)
    (m : gmap string ProductRow) (k : string) :
  r_name <$> foldl (decrement_for db0) m its !! k = r_name <$> m !! k /\
  r_price <$> foldl (decrement_for db0) m its !! k = r_price <$> m !! k /\
  (is_Some (foldl (decrement_for db0) m its !! k ≫= r_stock)
   <-> is_Some (m !! k ≫= r_stock)).
Proof.
  revert m. induction its as [|item rest IH]; intros m; [tauto|].
  cbn [foldl]. destruct (IH (decrement_for db0 m item)) as (IH1 & IH2 & IH3).
  rewrite IH1, IH2, IH3. clear IH IH1 IH2 IH3. unfold decrement_for.
  destruct (products db0 !! productId item) as [row|]; [|tauto].
  destruct (r_stock row); [|tauto].
  rewrite lookup_alter. case_decide; [|tauto].
  subst k. destruct (m !! productId item) as [[nm pr [st|]]|]; cbn;
    repeat split; intros; eauto; tauto.
Qed.

(** X3: Whatever the request, the handler never touches the users, never
    removes or rewrites an order or an item row that was there (it only
    appends), and never adds or removes a product, renames it, reprices it,
    or changes whether it tracks stock. *)
Theorem order_creation_only_appends (request : Request) (db : Store) :
  users (POST request db).1 = users db /\
  (exists new, orders (POST request db).1 = orders db ++ new) /\
  (exists new, orderItems (POST request db).1 = orderItems db ++ new) /\
  (forall k,
      r_name <$> products (POST request db).1 !! k = r_name <$> products db !! k /\
      r_price <$> products (POST request db).1 !! k = r_price <$> products db !! k /\
      (is_Some (products (POST request db).1 !! k ≫= r_stock)
       <-> is_Some (products db !! k ≫= r_stock))).
Proof.
  destruct (Nat.eq_dec (status (POST request db).2) 201) as [Hst|Hst].
  - destruct (json request) as [payload|message] eqn:Hjson;
      [|unfold POST in Hst; rewrite Hjson in Hst; cbn in Hst;
        unfold catch_status in Hst;
        destruct (_ || _) in Hst; discriminate].
    destruct (validateOrderPayload payload) as [data|message] eqn:Hvalid;
      [|unfold POST in Hst; rewrite Hjson in Hst; cbn [bind] in Hst;
        rewrite Hvalid in Hst; cbn in Hst; unfold catch_status in Hst;
        destruct (_ || _) in Hst; discriminate].
    destruct (POST_201 _ _ _ _ Hjson Hvalid Hst) as [Huser Hall].
    rewrite (POST_success _ _ _ _ Hjson Hvalid Huser Hall).
    cbn [fst store_after users orders orderItems products].
    split; [reflexivity|]. split; [eauto|]. split; [eauto|].
    intros k. apply decrement_for_keeps.
  - rewrite (POST_rejected_store _ _ Hst).
    split; [reflexivity|].
    split; [exists []; symmetry; apply app_nil_r|].
    split; [exists []; symmetry; apply app_nil_r|].
    intros k. tauto.
Qed.

(** X4: A validated payload whose user is not in the store is answered with
    404 "User not found." whatever its items, and nothing is written. *)
Theorem unknown_user_answered_404 (request : Request) (db : Store) (payload : value)
    (data : CreateOrderRequest) :
  json request = Ok payload ->
  validateOrderPayload payload = Ok data ->
  users db !! userId data = None ->
  POST request db = (db, {| status := 404; body := Failure "User not found." |}).
Proof.
  intros Hjson Hvalid Huser.
  rewrite (POST_validated _ _ _ _ Hjson Hvalid), Huser. reflexivity.
Qed.

Lemma check_items_first_missing (productsById : gmap string Product)
    (before after : list OrderItemRequest) (item : OrderItemRequest) :
  Forall (passes productsById) before ->
  productsById !! productId item = None ->
  check_items productsById (before ++ item :: after) =
  Some {| status := 404; body := Failure ("Product not found: " +:+ productId item) |}.
Proof.
  intros Hbefore Hprod.
  induction Hbefore as [|it rest (prod' & Hprod' & Hok) _ IH]; simpl.
  - rewrite Hprod. reflexivity.
  - rewrite Hprod'. destruct (p_stock prod') as [s|] eqn:Hs; [|exact IH].
    rewrite (Hok s eq_refl). exact IH.
Qed.

(** X5: When the payload is valid, the user exists, and the first item to fail
    a check names a product that is not in the store, the answer is 404
    with a message that ends in that product id; nothing is written, also
    when later items are over stock. *)
Theorem unknown_product_answered_404 (request : Request) (db : Store) (payload : value)
    (data : CreateOrderRequest) (before after : list OrderItemRequest)
    (item : OrderItemRequest) :
  json request = Ok payload ->
  validateOrderPayload payload = Ok data ->
  is_Some (users db !! userId data) ->
  items data = before ++ item :: after ->
  Forall (in_stock db) before ->
  products db !! productId item = None ->
  POST request db =
  (db, {| status := 404; body := Failure ("Product not found: " +:+ productId item) |}).
Proof.
  intros Hjson Hvalid [user Huser] Hitems Hbefore Hnone.
  rewrite (POST_validated _ _ _ _ Hjson Hvalid), Huser.
  set (ids := remove_dups (productId <$> items data)).
  assert (Hids : forall it, it ∈ items data -> productId it ∈ ids).
  { intros it Hin. apply productId_in_ids. exact Hin. }
  rewrite Hitems in Hids |- *.
  rewrite (check_items_first_missing (fetched db ids) before after item).
  - reflexivity.
  - rewrite Forall_forall in Hbefore |- *. intros it Hin.
    apply passes_fetched; [|auto].
    apply Hids. apply elem_of_app. left. exact Hin.
  - rewrite fetched_lookup, decide_True, Hnone; [reflexivity|].
    apply Hids. apply elem_of_app. right. left.
Qed.

End OrderOutcomes.

(** ** Orders: what a validated request looks like *)

Section ValidatedRequests.
Import Orders.

Lemma validateItem_well_formed (it : value) (idx : nat) (item : OrderItemRequest) :
  validateItem it idx = Ok item ->
  well_formed_item item /\ productId item = as_string (get_prop it "productId").
Proof.
  intros Hit. destruct (validateItem_Ok _ _ _ Hit) as (Hq & Hpid & Hquant).
  split; [|exact Hpid]. unfold well_formed_item. split; [|split].
  - rewrite Hpid. unfold validateItem in Hit.
    destruct (negb (String.eqb (typeof it) "object") || is_null it);
      [discriminate Hit|].
    destruct (get_prop it "productId") as [| |b|n|s|l|f]; simpl in Hit;
      rewrite ?orb_true_r in Hit; try discriminate Hit.
    destruct s; simpl in Hit; [discriminate Hit|]. simpl. discriminate.
  - apply quantity_rejected_false in Hq as (x & Hx & Hpos & Hint).
    exists x. rewrite Hquant, Hx. auto.
  - unfold validateItem in Hit.
    destruct (negb (String.eqb (typeof it) "object") || is_null it);
      [discriminate Hit|].
    destruct (negb (truthy (get_prop it "productId")) || _); [discriminate Hit|].
    destruct (quantity_rejected (get_prop it "quantity")); [discriminate Hit|].
    destruct (is_undefined (get_prop it "price")); simpl in Hit.
    + injection Hit as <-. intros p. discriminate.
    + destruct (get_prop it "price") as [| |b|n|s|l|f]; simpl in Hit;
        try discriminate Hit.
      destruct (isFinite n) eqn:Hfin; simpl in Hit; [|discriminate Hit].
      injection Hit as <-. intros p [= <-]. exact Hfin.
Qed.

Lemma Array_map_validateItem_items (arr : list value) (idx : nat)
    (its : list OrderItemRequest) :
  Array_map validateItem arr idx = Ok its ->
  Forall well_formed_item its /\
  productId <$> its = (fun it => as_string (get_prop it "productId")) <$> arr.
Proof.
  revert idx its. induction arr as [|it rest IH]; intros idx its; simpl.
  - intros [= <-]. split; [constructor | reflexivity].
  - destruct (validateItem it idx) as [item|] eqn:Hit; simpl; [|discriminate].
    destruct (Array_map validateItem rest (S idx)) as [its'|] eqn:Hrest; simpl;
      [|discriminate].
    intros [= <-]. destruct (IH _ _ Hrest) as [Hall Hids].
    destruct (validateItem_well_formed _ _ _ Hit) as [Hwf Hpid].
    split; [constructor; assumption|]. cbn. rewrite Hpid. f_equal. exact Hids.
Qed.

(** X6: A request that validation returns has a non-empty user id taken from
    the payload, as many items as the payload and at least one, with the
    payload's product ids in the payload's order; every item has a
    non-empty product id, a finite positive whole quantity and, when it has
    a price, a finite one; and the total is finite and not negative. *)
Theorem validated_request_well_formed (payload : value) (data : CreateOrderRequest) :
  validateOrderPayload payload = Ok data ->
  userId data <> EmptyString /\
  get_prop payload "userId" = VStr (userId data) /\
  items data <> [] /\
  productId <$> items data
  = (fun it => as_string (get_prop it "productId")) <$> as_array (get_prop payload "items") /\
  Forall well_formed_item (items data) /\
  (exists t, total data = Fin t /\ (0 <= t)%Q).
Proof.
  intros Hvalid.
  destruct (validateOrderPayload_Ok _ _ Hvalid) as (Hmap & Htotal & Huser).
  destruct (Array_map_validateItem_items _ _ _ Hmap) as [Hall Hids].
  revert Hvalid. unfold validateOrderPayload.
  destruct (negb (String.eqb (typeof payload) "object") || is_null payload);
    [discriminate|].
  destruct (negb (truthy (get_prop payload "userId")) || _) eqn:Hu; [discriminate|].
  destruct (negb (isArray (get_prop payload "items")) || _) eqn:Hitems; [discriminate|].
  rewrite Hmap. cbn [bind].
  destruct (negb (String.eqb (typeof (get_prop payload "total")) "number") || _ || _)
    eqn:Ht; [discriminate|].
  intros _. split; [|split; [exact Huser|split; [|split; [exact Hids|split; [exact Hall|]]]]].
  - rewrite Huser in Hu. simpl in Hu. destruct (userId data); [discriminate|discriminate].
  - intros Hnil. apply orb_false_iff in Hitems as [_ Hlen].
    apply Nat.eqb_neq in Hlen. apply Hlen.
    apply (f_equal (fmap productId)) in Hnil. rewrite Hids in Hnil.
    apply fmap_nil_inv in Hnil. rewrite Hnil. reflexivity.
  - rewrite Htotal in Ht. simpl in Ht.
    destruct (total data) as [t| | |]; simpl in Ht; try discriminate.
    exists t. split; [reflexivity|].
    destruct (Qle_bool 0 t) eqn:E; [|discriminate].
    apply Qle_bool_iff. exact E.
Qed.

End ValidatedRequests.

(** ** Orders: listing and re-reading what was created *)

Section OrderRoundTrip.
Import Orders.
Context `{Runtime}.

Lemma imap_snoc {A B : Type} (f : nat -> A -> B) (l : list A) (x : A) :
  imap f (l ++ [x]) = imap f l ++ [f (List.length l) x].
Proof.
  rewrite imap_app. cbn. rewrite Nat.add_0_r. reflexivity.
Qed.

(** X7: After a creation answered with 201, GET lists the order just created
    first, exactly as the creation returned it, followed by as many orders
    as there were before. *)
Theorem created_order_listed_first (request : Request) (db : Store) (payload : value)
    (data : CreateOrderRequest) :
  json request = Ok payload ->
  validateOrderPayload payload = Ok data ->
  status (POST request db).2 = 201 ->
  exists created older,
    body (POST request db).2 = Created (Some created) /\
    GET (POST request db).1
    = {| status := 200; body := Listing (created :: older) |} /\
    List.length older = List.length (orders db).
Proof.
  intros Hjson Hvalid Hst.
  destruct (POST_201 _ _ _ _ Hjson Hvalid Hst) as [Huser Hall].
  rewrite (POST_success _ _ _ _ Hjson Hvalid Huser Hall). cbn [fst snd body].
  eexists _, _. split; [reflexivity|].
  unfold GET, order_findMany. cbn [store_after orders].
  rewrite imap_snoc, reverse_snoc. split; [reflexivity|].
  rewrite length_reverse, length_imap. reflexivity.
Qed.

(** X8: Whatever the request, if every item row belonged to an order of the
    table before, the same holds after. *)
Theorem item_rows_keep_their_order (request : Request) (db : Store) :
  items_reference_orders db -> items_reference_orders (POST request db).1.
Proof.
  intros Hinv.
  destruct (Nat.eq_dec (status (POST request db).2) 201) as [Hst|Hst];
    [|rewrite (POST_rejected_store _ _ Hst); exact Hinv].
  destruct (json request) as [payload|message] eqn:Hjson;
    [|unfold POST in Hst; rewrite Hjson in Hst; cbn in Hst;
      unfold catch_status in Hst; destruct (_ || _) in Hst; discriminate].
  destruct (validateOrderPayload payload) as [data|message] eqn:Hvalid;
    [|unfold POST in Hst; rewrite Hjson in Hst; cbn [bind] in Hst;
      rewrite Hvalid in Hst; cbn in Hst; unfold catch_status in Hst;
      destruct (_ || _) in Hst; discriminate].
  destruct (POST_201 _ _ _ _ Hjson Hvalid Hst) as [Huser Hall].
  rewrite (POST_success _ _ _ _ Hjson Hvalid Huser Hall).
  unfold items_reference_orders in *. cbn [fst store_after orders orderItems].
  rewrite length_app. cbn [List.length]. apply Forall_app. split.
  - eapply Forall_impl; [exact Hinv|]. cbn. intros row Hrow. lia.
  - apply Forall_fmap, Forall_forall. intros item _. cbn. lia.
Qed.

Lemma filter_none_of_order (rows : list OrderItemRow) (id : nat) :
  Forall (fun row => (oi_orderId row < id)%nat) rows ->
  List.filter (fun row => (oi_orderId row =? id)%nat) rows = [].
Proof.
  induction 1 as [|row rest Hlt _ IH]; [reflexivity|].
  cbn. replace (oi_orderId row =? id)%nat with false
    by (symmetry; apply Nat.eqb_neq; lia).
  exact IH.
Qed.

Lemma filter_all_of_order (db : Store) (id : nat) (its : list OrderItemRequest) :
  List.filter (fun row => (oi_orderId row =? id)%nat) (item_row db id <$> its)
  = item_row db id <$> its.
Proof.
  induction its as [|item rest IH]; [reflexivity|].
  cbn. rewrite Nat.eqb_refl. f_equal. exact IH.
Qed.

(** X9: In a store where every item row belongs to an order of the table, the
    order a creation returns carries one item per item of the payload, in
    the payload's order, each with the product id and the quantity asked
    and with the price recorded for it. *)
Theorem created_order_reproduces_items (request : Request) (db : Store)
    (payload : value) (data : CreateOrderRequest) :
  json request = Ok payload ->
  validateOrderPayload payload = Ok data ->
  status (POST request db).2 = 201 ->
  items_reference_orders db ->
  exists created,
    body (POST request db).2 = Created (Some created) /\
    fi_row <$> fo_items created
    = (fun item =>
         {| oi_orderId := List.length (orders db);
            oi_productId := productId item;
            oi_quantity := quantity item;
            oi_price := snapshot_price db item |}) <$> items data.
Proof.
  intros Hjson Hvalid Hst Hinv.
  destruct (POST_201 _ _ _ _ Hjson Hvalid Hst) as [Huser Hall].
  rewrite (POST_success _ _ _ _ Hjson Hvalid Huser Hall). cbn [fst snd body].
  eexists. split; [reflexivity|].
  cbn [hydrate fo_items store_after orderItems].
  rewrite <- list_fmap_compose.
  rewrite List.filter_app, (filter_none_of_order _ _ Hinv), filter_all_of_order.
  cbn [app]. rewrite <- list_fmap_compose. reflexivity.
Qed.

End OrderRoundTrip.

(** ** Products: slugs *)

Section Slugs.
Import Products.

Lemma all_chars_impl (P Q : ascii -> bool) (s : string) :
  (forall c, P c = true -> Q c = true) ->
  all_chars P s = true -> all_chars Q s = true.
Proof.
  intros HPQ. induction s as [|c s IH]; simpl; [reflexivity|].
  intros Hs. apply andb_true_iff in Hs as [Hc Hs].
  rewrite (HPQ c Hc), IH by exact Hs. reflexivity.
Qed.

Lemma slug_char_plain (c : ascii) :
  slug_char c = true ->
  is_space c = false /\ has_lower c = false /\ is_word c || is_hyphen c = true.
Proof.
  destruct c as [[] [] [] [] [] [] [] []]; simpl; intros E;
    first [discriminate E | repeat split; reflexivity].
Qed.

Lemma trim_without_spaces (s : string) :
  all_chars (fun c => negb (is_space c)) s = true -> trim s = s.
Proof.
  intros Hs. unfold trim.
  assert (Hstart : trimStart s = s).
  { destruct s as [|c s]; [reflexivity|]. simpl in *.
    apply andb_true_iff in Hs as [Hc _]. apply negb_true_iff in Hc.
    rewrite Hc. reflexivity. }
  rewrite Hstart. clear Hstart.
  induction s as [|c s IH]; [reflexivity|].
  simpl in Hs. apply andb_true_iff in Hs as [Hc Hs]. apply negb_true_iff in Hc.
  cbn [trimEnd]. rewrite (IH Hs). destruct s; [rewrite Hc|]; reflexivity.
Qed.

Lemma toLowerCase_lower (s : string) :
  all_chars (fun c => negb (has_lower c)) s = true -> toLowerCase s = s.
Proof.
  induction s as [|c s IH]; simpl; [reflexivity|].
  intros Hs. apply andb_true_iff in Hs as [Hc Hs]. apply negb_true_iff in Hc.
  unfold lower_char. rewrite Hc, (IH Hs). reflexivity.
Qed.

Lemma spaces_to_hyphen_without_spaces (in_run : bool) (s : string) :
  all_chars (fun c => negb (is_space c)) s = true -> spaces_to_hyphen in_run s = s.
Proof.
  revert in_run. induction s as [|c s IH]; intros in_run; simpl; [reflexivity|].
  intros Hs. apply andb_true_iff in Hs as [Hc Hs]. apply negb_true_iff in Hc.
  rewrite Hc, (IH false Hs). reflexivity.
Qed.

Lemma strip_non_word_of_words (s : string) :
  all_chars (fun c => is_word c || is_hyphen c) s = true -> strip_non_word s = s.
Proof.
  induction s as [|c s IH]; simpl; [reflexivity|].
  intros Hs. apply andb_true_iff in Hs as [Hc Hs].
  rewrite Hc, (IH Hs). reflexivity.
Qed.

Lemma collapse_hyphens_single (after_hyphen : bool) (s : string) :
  includes s "--" = false ->
  (after_hyphen = true -> starts_with_hyphen s = false) ->
  collapse_hyphens after_hyphen s = s.
Proof.
  revert after_hyphen. induction s as [|c s IH]; intros after_hyphen; [reflexivity|].
  rewrite includes_unfold, prefix_two_hyphens. intros Hinc Hstart.
  apply orb_false_iff in Hinc as [Hpre Hrest].
  cbn [collapse_hyphens starts_with_hyphen] in *.
  destruct (is_hyphen c) eqn:Hc.
  - destruct after_hyphen; [specialize (Hstart eq_refl); discriminate|].
    rewrite (IH true Hrest); [reflexivity|]. intros _. exact Hpre.
  - rewrite (IH false Hrest); [reflexivity|]. discriminate.
Qed.

(** X10: A slug is its own slug: [slugify] changes nothing in a string it
    produced, whatever string of Latin-1 characters it produced it from
    (no-break spaces and accented letters included). *)
Theorem slugify_idempotent (str : string) : slugify (slugify str) = slugify str.
Proof.
  pose proof (slugify_chars str) as Hchars.
  pose proof (slugify_no_double_hyphen str) as Hdouble.
  set (t := slugify str) in *. unfold slugify at 1.
  rewrite trim_without_spaces
    by (eapply all_chars_impl; [|exact Hchars];
        intros c Hc; apply slug_char_plain in Hc as (-> & _); reflexivity).
  rewrite toLowerCase_lower
    by (eapply all_chars_impl; [|exact Hchars];
        intros c Hc; apply slug_char_plain in Hc as (_ & -> & _); reflexivity).
  rewrite spaces_to_hyphen_without_spaces
    by (eapply all_chars_impl; [|exact Hchars];
        intros c Hc; apply slug_char_plain in Hc as (-> & _); reflexivity).
  rewrite strip_non_word_of_words
    by (eapply all_chars_impl; [|exact Hchars];
        intros c Hc; apply slug_char_plain in Hc as (_ & _ & Hw); exact Hw).
  apply collapse_hyphens_single; [exact Hdouble | discriminate].
Qed.

End Slugs.

(** ** Products: validation and creation *)

Section ProductValidation.
Import Products.
Context `{Runtime}.







Lemma validation_errors_nonempty (body : value) (errors : list string) :
  validateProductPayload body = Ok (Invalid errors) -> errors <> [].
Proof.
  unfold validateProductPayload.
  destruct (negb (truthy body) || _); [intros [= <-]; discriminate|].
  cbv zeta.
  destruct (price_rejected _) as [price_bad|]; cbn [bind]; [|discriminate].
  destruct (stock_rejected _) as [stock_bad|]; cbn [bind]; [|discriminate].
  destruct (negb (truthy _) || _ || _); destruct price_bad, stock_bad;
    cbn [app List.length Nat.ltb Nat.leb]; intros [= <-]; discriminate.
Qed.

(** X12: POST on the file store has four outcomes and no other.  When
    [Number] throws on the price or the stock the answer is 500 and the
    file is untouched; when the body does not validate, a body that is not
    JSON included, it is 400 with a non-empty error list and the file is
    untouched; when the body validates and the file cannot be read or
    written it is 500; and when it validates and the file system works it
    is 201, with the new product, as JSON keeps it, at the head of the
    file and as many products behind it as there were. *)
Theorem product_post_outcome (env : Env) (body : option value) (file : DataFile) :
  match validateProductPayload (default body VNull) with
  | Throw _ =>
      POST env body file
      = (file, {| status := 500; body := Failure "Internal Server Error" |})
  | Ok (Invalid errors) =>
      POST env body file = (file, {| status := 400; body := Rejected errors |}) /\
      errors <> []
  | Ok (Valid _) =>
      match io_failure env with
      | Some remains =>
          POST env body file
          = (remains, {| status := 500; body := Failure "Internal Server Error" |})
      | None =>
          exists (created : value) (older : list value),
            POST env body file
            = (Some (VArr (JSON_roundtrip created :: older)),
               {| status := 201; body := Stored created |}) /\
            List.length older = List.length (readProductsFromFile file)
      end
  end.
Proof.
  unfold POST.
  destruct (validateProductPayload (default body VNull)) as [[payload|errors]|] eqn:Hv;
    [| |reflexivity].
  - destruct (validateProductPayload_name _ _ Hv) as (name & _ & Hname).
    unfold newProduct, slug_or_default. rewrite Hname.
    destruct (io_failure env); destruct (v_slug payload); cbn [bind];
      try reflexivity;
      match goal with |- context [Stored ?c] => exists c end;
      exists (map (fun e => if is_undefined e then VNull else JSON_roundtrip e)
                (readProductsFromFile file));
      (split; [reflexivity | apply length_map]).
  - split; [reflexivity|]. exact (validation_errors_nonempty _ _ Hv).
Qed.

End ProductValidation.

(** ** Catalog: what a query returns *)

Section CatalogResults.
Import Products.
Context `{Runtime}.

Lemma Array_filter_sublist (f : value -> Result bool) (arr kept : list value) :
  Array_filter f arr = Ok kept -> kept `sublist_of` arr.
Proof.
  revert kept. induction arr as [|p rest IH]; intros kept; simpl.
  - intros [= <-]. constructor.
  - destruct (f p) as [keep|]; simpl; [|discriminate].
    destruct (Array_filter f rest) as [kept'|]; simpl; [|discriminate].
    intros [= <-]. destruct keep; [apply sublist_skip|apply sublist_cons]; auto.
Qed.

Lemma insert_sorted_Permutation (cmp : value -> value -> Result number) (x : value)
    (sorted out : list value) :
  insert_sorted cmp x sorted = Ok out -> out ≡ₚ x :: sorted.
Proof.
  revert out. induction sorted as [|y rest IH]; intros out; cbn [insert_sorted].
  - intros [= <-]. reflexivity.
  - destruct (cmp x y) as [c|]; cbn [bind]; [|discriminate].
    destruct (num_lt (Fin 0) c).
    + destruct (insert_sorted cmp x rest) as [tail|]; cbn [bind]; [|discriminate].
      intros [= <-]. rewrite (IH tail eq_refl). apply perm_swap.
    + intros [= <-]. reflexivity.
Qed.

Lemma Array_sort_Permutation (cmp : value -> value -> Result number)
    (arr out : list value) :
  Array_sort cmp arr = Ok out -> out ≡ₚ arr.
Proof.
  revert out. induction arr as [|x rest IH]; intros out; simpl.
  - intros [= <-]. reflexivity.
  - destruct (Array_sort cmp rest) as [sorted|]; simpl; [|discriminate].
    intros Hins. rewrite (insert_sorted_Permutation _ _ _ _ Hins).
    constructor. apply IH. reflexivity.
Qed.

Lemma Array_slice_sublist {A : Type} (arr : list A) (start end_ : number) :
  Array_slice arr start end_ `sublist_of` arr.
Proof.
  unfold Array_slice. etransitivity; [apply sublist_take | apply sublist_drop].
Qed.

(** The three stages, one after the other. *)
Lemma query_file_stages (q : Query) (products paged : list value) (meta : Meta) :
  query_file q products = Ok (paged, meta) ->
  exists filtered sorted,
    filtered `sublist_of` products /\ sorted ≡ₚ filtered /\
    meta_total meta = List.length sorted /\
    paged = Array_slice sorted
              (js_mul (js_sub (page q) (Fin 1)) (limit q))
              (js_add (js_mul (js_sub (page q) (Fin 1)) (limit q)) (limit q)).
Proof.
  unfold query_file.
  destruct (if is_empty (search q) then _ else _) as [f1|] eqn:H1; simpl; [|discriminate].
  destruct (match category q with Some c => _ | None => _ end) as [f2|] eqn:H2; simpl;
    [|discriminate].
  destruct (Array_sort _ f2) as [f|] eqn:H3; simpl; [|discriminate].
  intros [= <- <-]. exists f2, f. split; [|split; [|split; reflexivity]].
  - transitivity f1.
    + destruct (category q); [apply (Array_filter_sublist _ _ _ H2)|].
      injection H2 as <-. reflexivity.
    + destruct (is_empty (search q)); [injection H1 as <-; reflexivity|].
      apply (Array_filter_sublist _ _ _ H1).
  - apply (Array_sort_Permutation _ _ _ H3).
Qed.

(** X13: Every product a query returns is a product of the file, the page is
    never longer than the total reported, and the total is never more than
    the number of products in the file: filtering only drops products and
    sorting neither drops nor repeats any. *)
Theorem query_returns_products_of_the_file (q : Query) (products paged : list value)
    (meta : Meta) :
  query_file q products = Ok (paged, meta) ->
  (forall p, p ∈ paged -> p ∈ products) /\
  (List.length paged <= meta_total meta)%nat /\
  (meta_total meta <= List.length products)%nat.
Proof.
  intros Hq. destruct (query_file_stages _ _ _ _ Hq) as (f & sorted & Hf & Hs & Ht & Hp).
  subst paged. split; [|split].
  - intros p Hin. eapply elem_of_sublist; [|exact Hf].
    rewrite <- Hs. eapply elem_of_sublist; [exact Hin|]. apply Array_slice_sublist.
  - rewrite Ht. apply sublist_length, Array_slice_sublist.
  - rewrite Ht, (Permutation_length Hs). apply sublist_length. exact Hf.
Qed.

(** *** Pages *)

Lemma Qtrunc_integer (q : Q) (n : Z) : (q == inject_Z n)%Q -> Qtrunc q = n.
Proof.
  unfold Qeq, Qtrunc. simpl. intros Hq. rewrite Z.mul_1_r in Hq. rewrite Hq.
  apply Z.quot_mul. discriminate.
Qed.

Lemma is_integral_whole (q : Q) (n : Z) : (q == inject_Z n)%Q -> is_integral q = true.
Proof.
  intros Hq. unfold is_integral. apply Qeq_bool_iff.
  rewrite Hq at 1. rewrite Qfloor_Z. symmetry. exact Hq.
Qed.

Lemma relative_index_integer (len : nat) (q : Q) (n : Z) :
  (q == inject_Z n)%Q -> (0 <= n)%Z ->
  relative_index len (Fin q) = Nat.min (Z.to_nat n) len.
Proof.
  intros Hq Hn. unfold relative_index. cbn [ToIntegerOrInfinity].
  rewrite (Qtrunc_integer _ _ Hq).
  destruct (n <? 0)%Z eqn:E; [apply Z.ltb_lt in E; lia | reflexivity].
Qed.

Lemma window_of_list {A : Type} (all : list A) (a l : nat) :
  take (Nat.min (a + l) (List.length all) - Nat.min a (List.length all))
    (drop (Nat.min a (List.length all)) all)
  = take l (drop a all).
Proof.
  destruct (Nat.le_gt_cases (List.length all) a) as [Hge|Hlt].
  - rewrite (drop_ge all a) by exact Hge.
    rewrite (Nat.min_r a) by exact Hge. rewrite drop_ge by reflexivity.
    rewrite !take_nil. reflexivity.
  - rewrite (Nat.min_l a) by lia.
    destruct (Nat.le_gt_cases (a + l) (List.length all)) as [Hin|Hout].
    + rewrite Nat.min_l by exact Hin. f_equal. lia.
    + rewrite Nat.min_r by lia.
      rewrite take_ge by (rewrite length_drop; lia).
      rewrite take_ge by (rewrite length_drop; lia). reflexivity.
Qed.

(** X14: When a query succeeds, there is one list of matches, as long as the
    total reported, of which every whole-number page is a window: page [p]
    with limit [l] is the [l] matches that follow the first [(p - 1) * l].
    So a page never holds more than [l] products, and successive pages
    neither overlap nor skip a product. *)
Theorem pages_are_windows (q : Query) (products paged : list value) (meta : Meta) :
  query_file q products = Ok (paged, meta) ->
  exists all : list value,
    List.length all = meta_total meta /\
    forall p l : Z, (1 <= p)%Z -> (0 <= l)%Z ->
      query_file {| search := search q; category := category q;
                    page := num_of_Z p; limit := num_of_Z l;
                    sort := sort q; order := order q |} products
      = Ok (take (Z.to_nat l) (drop (Z.to_nat ((p - 1) * l)) all),
            {| meta_total := List.length all;
               meta_page := num_of_Z p; meta_limit := num_of_Z l |}).
Proof.
  unfold query_file at 1.
  destruct (if is_empty (search q) then _ else _) as [f1|] eqn:H1; simpl; [|discriminate].
  destruct (match category q with Some c => _ | None => _ end) as [f2|] eqn:H2; simpl;
    [|discriminate].
  destruct (Array_sort _ f2) as [all|] eqn:H3; simpl; [|discriminate].
  intros [= <- <-]. exists all. split; [reflexivity|].
  intros p l Hp Hl. unfold query_file. cbn [search category sort order page limit].
  rewrite H1. cbn [bind]. rewrite H2. cbn [bind]. rewrite H3. cbn [bind].
  f_equal. f_equal. unfold Array_slice.
  set (before := Qred (inject_Z p + - 1)).
  assert (Hbefore : (before == inject_Z (p - 1))%Q).
  { unfold before. rewrite Qred_correct. unfold Z.sub.
    rewrite inject_Z_plus, inject_Z_opp. reflexivity. }
  assert (Hsub : js_sub (num_of_Z p) (Fin 1) = Fin before).
  { unfold js_sub, rounded, num_of_Z. cbn [num_sub num_neg num_add].
    rewrite (is_integral_whole (inject_Z p) p), (is_integral_whole 1 1) by reflexivity.
    reflexivity. }
  rewrite Hsub.
  set (start := Qred (before * inject_Z l)).
  assert (Hstart : (start == inject_Z ((p - 1) * l))%Q).
  { unfold start. rewrite Qred_correct, Hbefore, inject_Z_mult. reflexivity. }
  assert (Hmul : js_mul (Fin before) (num_of_Z l) = Fin start).
  { unfold js_mul, rounded, num_of_Z. cbn [num_mul].
    rewrite (is_integral_whole before (p - 1) Hbefore),
      (is_integral_whole (inject_Z l) l) by reflexivity.
    reflexivity. }
  rewrite Hmul.
  assert (Hend : (Qred (start + inject_Z l) == inject_Z ((p - 1) * l + l))%Q).
  { rewrite Qred_correct, Hstart, inject_Z_plus. reflexivity. }
  assert (Hadd : js_add (Fin start) (num_of_Z l) = Fin (Qred (start + inject_Z l))).
  { unfold js_add, rounded, num_of_Z. cbn [num_add].
    rewrite (is_integral_whole start _ Hstart),
      (is_integral_whole (inject_Z l) l) by reflexivity.
    reflexivity. }
  rewrite Hadd.
  rewrite (relative_index_integer _ start _ Hstart) by nia.
  rewrite (relative_index_integer _ (Qred (start + inject_Z l)) _ Hend) by nia.
  replace (Z.to_nat ((p - 1) * l + l)) with (Z.to_nat ((p - 1) * l) + Z.to_nat l)%nat
    by nia.
  apply window_of_list.
Qed.

End CatalogResults.

(** ** Catalog: search terms, unreadable products, empty files *)

Section CatalogEdges.
Import Products.
Context `{Runtime}.

Lemma is_empty_toLowerCase (s : string) : is_empty (toLowerCase s) = is_empty s.
Proof. destruct s; reflexivity. Qed.

(** X15: Two search terms that differ only in the case of their letters, the
    accented letters of Latin-1 included, get the same answer to the same
    query: the same page, the same total, or the same failure. *)
Theorem search_term_case_is_ignored (q : Query) (term1 term2 : string)
    (products : list value) :
  toLowerCase term1 = toLowerCase term2 ->
  query_file {| search := term1; category := category q; page := page q;
                limit := limit q; sort := sort q; order := order q |} products
  = query_file {| search := term2; category := category q; page := page q;
                  limit := limit q; sort := sort q; order := order q |} products.
Proof.
  intros Hcase. unfold query_file. cbn [search category page limit sort order].
  rewrite <- (is_empty_toLowerCase term1), <- (is_empty_toLowerCase term2), Hcase.
  reflexivity.
Qed.

Lemma Array_filter_throws (f : value -> Result bool) (arr : list value) (p : value) :
  p ∈ arr -> (exists message, f p = Throw message) ->
  exists message, Array_filter f arr = Throw message.
Proof.
  intros Hin [message Hp]. induction arr as [|x rest IH]; [inversion Hin|].
  cbn [Array_filter]. apply elem_of_cons in Hin as [<-|Hin].
  - rewrite Hp. eauto.
  - destruct (f x) as [keep|m]; cbn [bind]; [|eauto].
    destruct (IH Hin) as [m Hm]. rewrite Hm. eauto.
Qed.

(** X16: One product of the file that is null, or whose name is something
    truthy other than a string, is enough for every query with a search
    term to be answered with 500, whatever the other products are. *)
Theorem unsearchable_product_fails_search (params : SearchParams) (file : DataFile)
    (p : value) :
  is_empty (search (parse_query params)) = false ->
  p ∈ readProductsFromFile file ->
  nullish p = true \/
  (truthy (get_prop p "name") = true /\
   String.eqb (typeof (get_prop p "name")) "string" = false) ->
  GET params file = {| status := 500; body := Failure "Internal Server Error" |}.
Proof.
  intros Hsearch Hin Hbad. unfold GET, query_file. rewrite Hsearch.
  destruct (Array_filter_throws
              (matches_search (toLowerCase (search (parse_query params))))
              _ p Hin) as [message Hthrow].
  { unfold matches_search, read_prop. destruct Hbad as [Hnull|[Htruthy Hstr]].
    - rewrite Hnull. cbn [bind]. eauto.
    - destruct (nullish p); cbn [bind]; [eauto|].
      unfold text_matches. rewrite Htruthy.
      destruct (get_prop p "name"); try discriminate Hstr; cbn [bind]; eauto. }
  rewrite Hthrow. reflexivity.
Qed.

(** X17: A data file that does not hold an array, or holds an empty one, reads
    as an empty catalogue: every query is answered with 200, no product
    and a total of 0. *)
Theorem empty_file_empty_page (params : SearchParams) (file : DataFile) :
  readProductsFromFile file = [] ->
  GET params file
  = {| status := 200;
       body := PageOf [] {| meta_total := 0;
                            meta_page := page (parse_query params);
                            meta_limit := limit (parse_query params) |} |}.
Proof.
  intros Hfile. unfold GET, query_file. rewrite Hfile.
  destruct (is_empty (search (parse_query params)));
    destruct (category (parse_query params)); cbn [Array_filter Array_sort bind];
    unfold Array_slice; rewrite drop_nil, take_nil; reflexivity.
Qed.

End CatalogEdges.

(** ** Users: sanitizing *)

Section Sanitizing.
Import Users.

Lemma assoc_without_key (k j : string) (fields : list (string * value)) :
  j <> k -> assoc j (without_key k fields) = assoc j fields.
Proof.
  intros Hne. induction fields as [|[k' v] rest IH]; [reflexivity|].
  cbn [without_key List.filter fst assoc] in *.
  destruct (String.eqb k' k) eqn:E; cbn [negb assoc].
  - apply String.eqb_eq in E. subst k'.
    apply String.eqb_neq in Hne. rewrite Hne. exact IH.
  - destruct (String.eqb j k'); [reflexivity | exact IH].
Qed.

Lemma without_key_twice (k : string) (fields : list (string * value)) :
  without_key k (without_key k fields) = without_key k fields.
Proof.
  induction fields as [|[k' v] rest IH]; [reflexivity|].
  cbn [without_key List.filter fst] in *.
  destruct (String.eqb k' k) eqn:E; cbn [negb]; [exact IH|].
  cbn [List.filter fst]. rewrite E. cbn [negb]. f_equal. exact IH.
Qed.

(** X18: Sanitizing a user object removes the password and nothing else: every
    other property reads as before; and sanitizing twice is sanitizing
    once. *)
Theorem sanitizeUser_keeps_the_rest (user : value) :
  (forall fields k, user = VObj fields -> k <> "password" ->
     get_prop (sanitizeUser user) k = get_prop user k) /\
  sanitizeUser (sanitizeUser user) = sanitizeUser user.
Proof.
  split.
  - intros fields k -> Hk. cbn. apply assoc_without_key. exact Hk.
  - unfold sanitizeUser at 2 3. destruct (truthy user) eqn:Ht; cbn [negb].
    + unfold sanitizeUser. cbn [truthy negb own_fields].
      rewrite without_key_twice. reflexivity.
    + unfold sanitizeUser. rewrite Ht. reflexivity.
Qed.

End Sanitizing.

(** ** Users: what the handlers answer and when they write *)

Section UserOutcomes.
Import Users.
Context `{Runtime} {S : Type} (adapter : Adapter S).

(** X19: Whatever the adapter does, the store a handler returns is the one it
    was given unless it answers with success: 201 for POST, 200 for PUT
    and DELETE. *)
Theorem user_store_changes_only_on_success (now : string) (request : Request) (db : S) :
  (status (POST adapter now request db).2 <> 201 -> (POST adapter now request db).1 = db) /\
  (status (PUT adapter now request db).2 <> 200 -> (PUT adapter now request db).1 = db) /\
  (status (DELETE adapter request db).2 <> 200 -> (DELETE adapter request db).1 = db).
Proof.
  split; [|split].
  - unfold POST, POST_try.
    destruct (json request) as [b|]; cbn [bind with_catch]; [|reflexivity].
    destruct (negb (truthy b) || _ || _); [reflexivity|].
    destruct (getByEmail adapter _ db) as [existing|]; cbn [bind with_catch];
      [|reflexivity].
    destruct (truthy existing); [reflexivity|].
    destruct (hashPassword _) as [hashed|]; cbn [bind with_catch]; [|reflexivity].
    destruct (create adapter _ db) as [[db' created]|]; cbn [bind with_catch];
      [|reflexivity].
    intros Hst. exfalso. apply Hst. reflexivity.
  - unfold PUT, PUT_try.
    destruct (given (param_id request)) as [id|] eqn:Hid;
      destruct (given (param_email request)) as [email|] eqn:Hemail;
      try reflexivity;
      (destruct (json request) as [updates|]; cbn [bind with_catch]; [|reflexivity];
       destruct (find_existing adapter _ _ db) as [existing|]; cbn [bind with_catch];
         [|reflexivity];
       destruct (negb (truthy existing)); [reflexivity|];
       destruct (read_prop updates "password") as [password|]; cbn [bind with_catch];
         [|reflexivity];
       destruct (if truthy password then _ else _) as [payload1|];
         cbn [bind with_catch]; [|reflexivity];
       cbv zeta; destruct (negb (truthy _)); [reflexivity|];
       destruct (updateById adapter _ _ db) as [[db' updated]|];
         cbn [bind with_catch]; [|reflexivity];
       intros Hst; exfalso; apply Hst; reflexivity).
  - unfold DELETE, DELETE_try.
    destruct (given (param_id request)) as [id|] eqn:Hid;
      destruct (given (param_email request)) as [email|] eqn:Hemail;
      try reflexivity;
      (destruct (find_existing adapter _ _ db) as [existing|]; cbn [bind with_catch];
         [|reflexivity];
       destruct (negb (truthy existing)); [reflexivity|];
       cbv zeta; destruct (negb (truthy _)); [reflexivity|];
       destruct (deleteById adapter _ db) as [[db' deleted]|];
         cbn [bind with_catch]; [|reflexivity];
       intros Hst; exfalso; apply Hst; reflexivity).
Qed.

(** Without an id and without an email in the query, PUT and DELETE answer
    400 before reading the body or the store. *)
Theorem update_and_delete_need_an_identifier (now : string) (request : Request) (db : S) :
  given (param_id request) = None ->
  given (param_email request) = None ->
  PUT adapter now request db
  = (db, respond 400 (error_body "id or email query parameter is required")) /\
  DELETE adapter request db
  = (db, respond 400 (error_body "id or email query parameter is required")).
Proof.
  intros Hid Hemail. unfold PUT, PUT_try, DELETE, DELETE_try.
  rewrite Hid, Hemail. split; reflexivity.
Qed.

(** When the lookup by id, or by email if no id is given, finds nothing,
    DELETE answers 404, and so does PUT once its body is read; the store
    is left alone. *)
Theorem unknown_user_is_not_updated_or_deleted (now : string) (request : Request)
    (db : S) (existing updates : value) :
  is_Some (given (param_id request)) \/ is_Some (given (param_email request)) ->
  find_existing adapter (given (param_id request)) (given (param_email request)) db
  = Ok existing ->
  truthy existing = false ->
  json request = Ok updates ->
  PUT adapter now request db = (db, respond 404 (error_body "User not found")) /\
  DELETE adapter request db = (db, respond 404 (error_body "User not found")).
Proof.
  intros Hgiven Hfind Hfalsy Hjson. unfold PUT, PUT_try, DELETE, DELETE_try.
  rewrite Hjson, Hfind. cbn [bind]. rewrite Hfalsy. cbn [negb with_catch].
  destruct (given (param_id request)), (given (param_email request));
    try (split; reflexivity).
  destruct Hgiven as [[? E]|[? E]]; discriminate E.
Qed.

End UserOutcomes.

(** ** Users: the in-memory store behind the handlers *)

Section MemoryStore.
Import Users.
Context `{Runtime}.

Lemma map_get_set (k : string) (v : value) (m : Memory) :
  map_get k (map_set k v m) = Some v.
Proof.
  induction m as [|[k' v'] rest IH]; cbn [map_set map_get].
  - rewrite String.eqb_refl. reflexivity.
  - destruct (String.eqb k' k) eqn:E; cbn [map_get]; rewrite E; [reflexivity|exact IH].
Qed.

Lemma map_get_set_other (k j : string) (v : value) (m : Memory) :
  j <> k -> map_get j (map_set k v m) = map_get j m.
Proof.
  intros Hne. induction m as [|[k' v'] rest IH]; cbn [map_set map_get].
  - replace (String.eqb k j) with false; [reflexivity|].
    symmetry. apply String.eqb_neq. congruence.
  - destruct (String.eqb k' k) eqn:E; cbn [map_get].
    + apply String.eqb_eq in E. subst k'.
      replace (String.eqb k j) with false; [reflexivity|].
      symmetry. apply String.eqb_neq. congruence.
    + destruct (String.eqb k' j); [reflexivity | exact IH].
Qed.

Lemma map_get_delete (k j : string) (m : Memory) :
  map_get j (map_delete k m) = if String.eqb j k then None else map_get j m.
Proof.
  induction m as [|[k' v'] rest IH]; cbn [map_delete List.filter fst map_get].
  - destruct (String.eqb j k); reflexivity.
  - fold (map_delete k rest). destruct (String.eqb k' k) eqn:E; cbn [negb map_get].
    + rewrite IH. apply String.eqb_eq in E. subst k'.
      destruct (String.eqb j k) eqn:E'; [reflexivity|].
      rewrite String.eqb_sym, E'. reflexivity.
    + rewrite IH. destruct (String.eqb k' j) eqn:E'; [|reflexivity].
      apply String.eqb_eq in E'. subst k'. rewrite E. reflexivity.
Qed.

Lemma find_in_map_set (P : value -> bool) (k : string) (v : value) (m : Memory) :
  List.find P (snd <$> m) = None -> P v = true ->
  List.find P (snd <$> map_set k v m) = Some v.
Proof.
  intros Hnone Hv. induction m as [|[k' v'] rest IH]; cbn [map_set].
  - cbn. rewrite Hv. reflexivity.
  - cbn in Hnone. destruct (P v') eqn:Hv'; [discriminate|].
    destruct (String.eqb k' k); cbn.
    + rewrite Hv. reflexivity.
    + rewrite Hv'. apply IH. exact Hnone.
Qed.

(** A value read from the store that carries a given email is an object,
    an array or a non-empty string, so it counts as found. *)
Lemma same_email_truthy (v : value) (e : string) :
  strict_equals (get_prop v "email") (VStr e) = true -> truthy v = true.
Proof.
  destruct v as [| |b|n|s|l|f]; cbn; try discriminate; try reflexivity.
  destruct s; cbn; [discriminate | reflexivity].
Qed.

Lemma getByEmail_null (uuid now e : string) (m : Memory) :
  getByEmail (memoryStore uuid now) (VStr e) m = Ok VNull ->
  List.find (fun v => strict_equals (get_prop v "email") (VStr e)) (snd <$> m) = None.
Proof.
  cbn. destruct (List.find _ (snd <$> m)) as [v|] eqn:Hfind; [|reflexivity].
  apply find_some in Hfind as [_ Hv]. cbn. intros [= ->]. discriminate Hv.
Qed.

(** X20: Registering an email that the store does not know, with a string
    password, answers 201 and puts one record under the generated id.
    The record keeps the SHA-256 digest of the password, not the password;
    the response is the record without it; and right after, the user can
    be fetched by that id and by that email, each time with the very body
    the registration returned. *)
Theorem registered_user_can_be_fetched (uuid now e pw : string) (body : value)
    (m : Memory) :
  uuid <> EmptyString -> e <> EmptyString -> pw <> EmptyString ->
  get_prop body "email" = VStr e ->
  get_prop body "password" = VStr pw ->
  truthy body = true ->
  getByEmail (memoryStore uuid now) (VStr e) m = Ok VNull ->
  exists record,
    POST (memoryStore uuid now) now
      {| param_id := None; param_email := None; json := Ok body |} m
    = (map_set uuid record m, respond 201 (sanitizeUser record)) /\
    get_prop record "id" = VStr uuid /\
    get_prop record "email" = VStr e /\
    get_prop record "password" = VStr (sha256_hex pw) /\
    exposes_password (sanitizeUser record) = false /\
    GET (memoryStore uuid now)
      {| param_id := Some uuid; param_email := None; json := Throw "no body" |}
      (map_set uuid record m)
    = respond 200 (sanitizeUser record) /\
    GET (memoryStore uuid now)
      {| param_id := None; param_email := Some e; json := Throw "no body" |}
      (map_set uuid record m)
    = respond 200 (sanitizeUser record).
Proof.
  intros Huuid He Hpw Hemail Hpass Hbody Hfree.
  pose proof (getByEmail_null _ _ _ _ Hfree) as Hfind.
  assert (Hu : is_empty uuid = false) by (destruct uuid; [congruence|reflexivity]).
  assert (Hne : is_empty e = false) by (destruct e; [congruence|reflexivity]).
  assert (Hnp : is_empty pw = false) by (destruct pw; [congruence|reflexivity]).
  exists (VObj [("id", VStr uuid);
                ("name", nullish_default (get_prop body "name") VNull);
                ("email", VStr e);
                ("password", VStr (sha256_hex pw));
                ("role", nullish_default (get_prop body "role") (VStr "user"));
                ("createdAt", VStr now); ("updatedAt", VStr now)]).
  split.
  - unfold POST, POST_try. cbn [json bind]. rewrite Hbody, Hemail, Hpass.
    cbn [truthy]. rewrite Hne, Hnp. cbn [negb orb]. rewrite Hfree.
    cbn [bind truthy hashPassword]. reflexivity.
  - split; [reflexivity|]. split; [reflexivity|]. split; [reflexivity|].
    split; [reflexivity|]. split.
    + unfold GET, GET_try. cbn [param_id given]. rewrite Hu.
      cbn [memoryStore getById key_of mbind option_bind bind].
      rewrite map_get_set. reflexivity.
    + unfold GET, GET_try. cbn [param_id param_email given]. rewrite Hne.
      cbn [memoryStore getByEmail bind].
      rewrite (find_in_map_set _ _ _ _ Hfind) by (cbn; apply String.eqb_refl).
      reflexivity.
Qed.

(** X21: An email that some stored record already carries cannot be registered
    again: POST answers 409 and the store stays as it is, whatever the
    password and the other fields. *)
Theorem known_email_is_refused (uuid now e : string) (body : value) (m : Memory)
    (k : string) (u : value) :
  (k, u) ∈ m ->
  get_prop u "email" = VStr e ->
  e <> EmptyString ->
  truthy body = true ->
  get_prop body "email" = VStr e ->
  truthy (get_prop body "password") = true ->
  POST (memoryStore uuid now) now
    {| param_id := None; param_email := None; json := Ok body |} m
  = (m, respond 409 (error_body "Email already in use")).
Proof.
  intros Hin Hu He Hbody Hemail Hpass.
  assert (Hne : is_empty e = false) by (destruct e; [congruence|reflexivity]).
  unfold POST, POST_try. cbn [json bind]. rewrite Hbody, Hemail, Hpass.
  cbn [truthy]. rewrite Hne. cbn [negb orb].
  cbn [memoryStore getByEmail bind].
  destruct (List.find _ (snd <$> m)) as [v|] eqn:Hfind.
  - apply find_some in Hfind as [_ Hv]. cbn [or_null].
    rewrite (same_email_truthy _ _ Hv). reflexivity.
  - exfalso.
    assert (Hu' : strict_equals (get_prop u "email") (VStr e) = false).
    { apply (find_none _ _ Hfind u).
      apply list_elem_of_In, list_elem_of_fmap. exists (k, u). auto. }
    rewrite Hu in Hu'. cbn in Hu'. rewrite String.eqb_refl in Hu'. discriminate.
Qed.

(** X22: Deleting by id a record that is stored under that id and carries it
    answers 200 with the record, password removed; afterwards the id is
    answered with 404, and every other id reads as before. *)
Theorem deleted_user_is_gone (uuid now k : string) (u : value) (m : Memory) :
  k <> EmptyString ->
  map_get k m = Some u ->
  truthy u = true ->
  get_prop u "id" = VStr k ->
  DELETE (memoryStore uuid now)
    {| param_id := Some k; param_email := None; json := Throw "no body" |} m
  = (map_delete k m,
     respond 200 (VObj [("success", VBool true); ("user", sanitizeUser u)])) /\
  GET (memoryStore uuid now)
    {| param_id := Some k; param_email := None; json := Throw "no body" |}
    (map_delete k m)
  = respond 404 (error_body "User not found") /\
  (forall j, j <> k -> map_get j (map_delete k m) = map_get j m).
Proof.
  intros Hk Hget Htruthy Hid.
  assert (Hne : is_empty k = false) by (destruct k; [congruence|reflexivity]).
  split; [|split].
  - unfold DELETE, DELETE_try. cbn [param_id param_email given]. rewrite Hne.
    unfold find_existing. cbn [memoryStore getById key_of mbind option_bind].
    rewrite Hget. cbn [or_null bind]. rewrite Htruthy. cbn [negb].
    rewrite Hid. cbn [nullish_default nullish is_undefined is_null orb truthy].
    rewrite Hne. cbn [negb memoryStore deleteById key_of mbind option_bind].
    rewrite Hget. reflexivity.
  - unfold GET, GET_try. cbn [param_id given]. rewrite Hne.
    cbn [memoryStore getById key_of mbind option_bind bind].
    rewrite map_get_delete, String.eqb_refl. reflexivity.
  - intros j Hj. rewrite map_get_delete.
    apply String.eqb_neq in Hj. rewrite Hj. reflexivity.
Qed.

Lemma assoc_set_prop (k j : string) (v : value) (fields : list (string * value)) :
  assoc j (set_prop k v fields) = if String.eqb j k then v else assoc j fields.
Proof.
  induction fields as [|[k' v'] rest IH]; cbn [set_prop assoc].
  - reflexivity.
  - destruct (String.eqb k k') eqn:E; cbn [assoc].
    + apply String.eqb_eq in E. subst k'.
      destruct (String.eqb j k) eqn:E'; [reflexivity|].
      apply assoc_without_key. apply String.eqb_neq. exact E'.
    + rewrite IH. destruct (String.eqb j k') eqn:E'; [|reflexivity].
      apply String.eqb_eq in E'. subst k'.
      rewrite String.eqb_sym, E. reflexivity.
Qed.

(** X23: Changing the password of a stored user, by id, answers 200; the record
    put back under the same id holds the SHA-256 digest of the new
    password, not the password, and the time of the change; every other
    property is the one the record had; and the response is the new record
    without its password. *)
Theorem password_change_stores_the_digest (uuid now k pw : string)
    (fields : list (string * value)) (m : Memory) :
  k <> EmptyString -> pw <> EmptyString ->
  map_get k m = Some (VObj fields) ->
  assoc "id" fields = VStr k ->
  exists updated,
    PUT (memoryStore uuid now) now
      {| param_id := Some k; param_email := None;
         json := Ok (VObj [("password", VStr pw)]) |} m
    = (map_set k updated m, respond 200 (sanitizeUser updated)) /\
    get_prop updated "password" = VStr (sha256_hex pw) /\
    get_prop updated "updatedAt" = VStr now /\
    (forall j, j <> "password" -> j <> "updatedAt" ->
       get_prop updated j = assoc j fields /\
       get_prop (sanitizeUser updated) j = assoc j fields) /\
    exposes_password (sanitizeUser updated) = false.
Proof.
  intros Hk Hpw Hget Hid.
  assert (Hne : is_empty k = false) by (destruct k; [congruence|reflexivity]).
  assert (Hnp : is_empty pw = false) by (destruct pw; [congruence|reflexivity]).
  exists (VObj (set_prop "updatedAt" (VStr now)
                  (set_prop "updatedAt" (VStr now)
                     (set_prop "password" (VStr (sha256_hex pw)) fields)))).
  split; [|split; [|split; [|split]]].
  - unfold PUT, PUT_try. cbn [param_id param_email given json]. rewrite Hne.
    cbn [bind]. unfold find_existing.
    cbn [memoryStore getById key_of mbind option_bind]. rewrite Hget.
    cbn [or_null bind truthy negb read_prop nullish is_undefined is_null orb
         get_prop assoc String.eqb Ascii.eqb Bool.eqb].
    rewrite Hnp. cbn [negb bind hashPassword own_fields set_prop String.eqb
                      Ascii.eqb Bool.eqb without_key List.filter].
    rewrite Hid. cbn [nullish_default nullish is_undefined is_null orb truthy].
    rewrite Hne. cbn [negb memoryStore updateById key_of mbind option_bind].
    rewrite Hget. reflexivity.
  - cbn [get_prop]. rewrite !assoc_set_prop. reflexivity.
  - cbn [get_prop]. rewrite !assoc_set_prop. reflexivity.
  - intros j Hj1 Hj2. apply String.eqb_neq in Hj2.
    pose proof Hj1 as Hj1'. apply String.eqb_neq in Hj1'.
    cbn [sanitizeUser]. unfold sanitizeUser. cbn [truthy negb own_fields get_prop].
    rewrite assoc_without_key by exact Hj1.
    rewrite !assoc_set_prop, Hj2, Hj1'. split; reflexivity.
  - unfold sanitizeUser, exposes_password. cbn [truthy negb own_fields].
    apply has_key_without_key.
Qed.

End MemoryStore.

(** ** The cart's checkout against the order route *)

Section Checkout.
Import Cart.
Context `{Runtime}.

Lemma checkout_payload_has_no_user (items : list value) (meta payload : value) :
  checkout_payload items meta = Ok payload ->
  String.eqb (typeof (JSON_roundtrip payload)) "object" = true /\
  is_null (JSON_roundtrip payload) = false /\
  get_prop (JSON_roundtrip payload) "userId" = VUndefined.
Proof.
  unfold checkout_payload.
  destruct (checkout_items items) as [lines|]; cbn [bind]; [|discriminate].
  intros [= <-]. cbn. destruct (is_undefined meta); repeat split; reflexivity.
Qed.

Lemma checkout_items_of_objects (items : list value) :
  Forall (fun i => nullish i = false) items ->
  exists lines, checkout_items items = Ok lines.
Proof.
  induction 1 as [|i rest Hi _ [lines IH]]; [eexists; reflexivity|].
  cbn [checkout_items]. unfold checkout_item, getPriceValue, read_prop. rewrite Hi.
  cbn [bind].
  destruct (is_undefined (get_prop i "price") || is_null (get_prop i "price"));
    [|destruct (String.eqb (typeof (get_prop i "price")) "number");
      [|destruct (_ && _)]];
    cbn [bind]; rewrite IH; cbn [bind]; eexists; reflexivity.
Qed.

(** X24: The payload the cart sends never has a user id, so the order route
    turns every checkout away: whatever is in the cart and in the store,
    no order is written and the cart is not emptied; and when the cart
    holds at least one item and no item is null, the answer is 400 and the
    message shown is "Failed to create order (400)", the route's own
    explanation being under a key the cart does not read. *)
Theorem checkout_never_places_an_order (items : list value) (meta : value)
    (db : Orders.Store) :
  store (handleCheckout items meta db) = db /\
  cart (handleCheckout items meta db) = items /\
  (items <> [] -> Forall (fun i => nullish i = false) items ->
   text (handleCheckout items meta db) = "Failed to create order (400)").
Proof.
  unfold handleCheckout.
  destruct (List.length items =? 0)%nat eqn:Hlen.
  - split; [reflexivity|]. split; [reflexivity|].
    intros Hne. destruct items; [congruence|discriminate].
  - destruct (checkout_payload items meta) as [payload|message] eqn:Hpay.
    + destruct (checkout_payload_has_no_user _ _ _ Hpay) as (Hobj & Hnull & Huser).
      assert (Hpost :
        Orders.POST {| Orders.json := Ok (JSON_roundtrip payload) |} db
        = (db, {| Orders.status := 400;
                  Orders.body := Orders.Failure "Missing or invalid 'userId'." |})).
      { unfold Orders.POST. cbn [Orders.json bind].
        unfold Orders.validateOrderPayload. rewrite Hobj, Hnull, Huser. reflexivity. }
      rewrite Hpost. cbn. repeat split; reflexivity.
    + split; [reflexivity|]. split; [reflexivity|].
      intros _ Hall. exfalso.
      destruct (checkout_items_of_objects _ Hall) as [lines Hlines].
      unfold checkout_payload in Hpay. rewrite Hlines in Hpay. discriminate Hpay.
Qed.

End Checkout.

(** ** The SafeUser guard and sanitizing *)

Section SafeUsers.
Import Users UserTypes.

Lemma string_of_nat_not_id (i : nat) : String.eqb "id" (string_of_nat i) = false.
Proof. unfold string_of_nat. destruct (Nat.to_uint i); reflexivity. Qed.

Lemma string_of_nat_not_email (i : nat) : String.eqb "email" (string_of_nat i) = false.
Proof. unfold string_of_nat. destruct (Nat.to_uint i); reflexivity. Qed.

Lemma assoc_index_fields (k : string) (elems : list value) (g : nat -> nat) :
  (forall i, String.eqb k (string_of_nat i) = false) ->
  assoc k (imap (fun i e => (string_of_nat (g i), e)) elems) = VUndefined.
Proof.
  intros Hk. revert g. induction elems as [|e rest IH]; intros g; [reflexivity|].
  cbn [imap assoc]. rewrite Hk. apply (IH (fun i => g (S i))).
Qed.

Lemma array_get_name (k : string) (elems : list value) (i : nat) :
  (forall i, String.eqb k (string_of_nat i) = false) ->
  array_get elems i k = VUndefined.
Proof.
  intros Hk. revert i. induction elems as [|e rest IH]; intros i; [reflexivity|].
  cbn [array_get]. rewrite Hk. apply IH.
Qed.

(** X25: Sanitizing never changes the verdict of the SafeUser guard: a value
    passes it after [sanitizeUser] exactly when it passed it before. *)
Theorem sanitizing_keeps_the_guard (user : value) :
  isSafeUser (sanitizeUser user) = isSafeUser user.
Proof.
  unfold sanitizeUser. destruct (truthy user) eqn:Ht; cbn [negb]; [|reflexivity].
  destruct user as [| |b|n|s|l|f]; try discriminate Ht.
  - unfold isSafeUser. rewrite Ht. reflexivity.
  - unfold isSafeUser. rewrite Ht. reflexivity.
  - unfold isSafeUser. cbn [truthy typeof negb orb own_fields get_prop].
    rewrite assoc_without_key by discriminate.
    pose proof (assoc_index_fields "id" (char_values s) (fun i => i)
                  string_of_nat_not_id) as Hid.
    unfold index_fields. cbn beta in Hid. rewrite Hid.
    destruct (negb (is_empty s)); reflexivity.
  - unfold isSafeUser.
    cbn [truthy typeof negb orb own_fields get_prop String.eqb Ascii.eqb Bool.eqb].
    rewrite assoc_without_key by discriminate.
    pose proof (assoc_index_fields "id" l (fun i => i) string_of_nat_not_id) as Hid.
    unfold index_fields. cbn beta in Hid. rewrite Hid.
    rewrite (array_get_name "id" _ _ string_of_nat_not_id). reflexivity.
  - unfold isSafeUser. cbn [truthy typeof negb orb own_fields get_prop String.eqb].
    rewrite !assoc_without_key by discriminate. reflexivity.
Qed.

End SafeUsers.

(** ** The further properties on the sample data *)

Section MoreOrderExamples.
Import Orders.

Lemma order_accepted_iff_witness :
  status (@POST example_runtime
            (Sample.request (Sample.payload "u1" [Sample.line "p1" 2] 40))
            Sample.shop).2 = 201
  <-> is_Some (users Sample.shop !! userId (Sample.data "u1" [Sample.item "p1" 2] 40)) /\
      Forall (in_stock Sample.shop) (items (Sample.data "u1" [Sample.item "p1" 2] 40)).
Proof.
  apply (@order_accepted_iff example_runtime
           (Sample.request (Sample.payload "u1" [Sample.line "p1" 2] 40))
           Sample.shop
           (Sample.payload "u1" [Sample.line "p1" 2] 40)
           (Sample.data "u1" [Sample.item "p1" 2] 40)).
  - reflexivity.
  - vm_compute. reflexivity.
Defined.

Lemma rejected_order_writes_nothing_witness :
  (@POST example_runtime
     (Sample.request (Sample.payload "u1" [Sample.line "p1" 9] 180)) Sample.shop).1
  = Sample.shop /\
  GET (@POST example_runtime
         (Sample.request (Sample.payload "u1" [Sample.line "p1" 9] 180)) Sample.shop).1
  = GET Sample.shop.
Proof.
  apply (@rejected_order_writes_nothing example_runtime
           (Sample.request (Sample.payload "u1" [Sample.line "p1" 9] 180)) Sample.shop).
  vm_compute. discriminate.
Defined.

Lemma unknown_user_answered_404_witness :
  @POST example_runtime
    (Sample.request (Sample.payload "u9" [Sample.line "p1" 2] 40)) Sample.shop
  = (Sample.shop, {| status := 404; body := Failure "User not found." |}).
Proof.
  apply (@unknown_user_answered_404 example_runtime
           (Sample.request (Sample.payload "u9" [Sample.line "p1" 2] 40))
           Sample.shop
           (Sample.payload "u9" [Sample.line "p1" 2] 40)
           (Sample.data "u9" [Sample.item "p1" 2] 40)).
  - reflexivity.
  - vm_compute. reflexivity.
  - vm_compute. reflexivity.
Defined.

Lemma unknown_product_answered_404_witness :
  @POST example_runtime
    (Sample.request
       (Sample.payload "u1"
          [Sample.line "p1" 1; Sample.line "p9" 1; Sample.line "p3" 99] 40))
    Sample.shop
  = (Sample.shop,
     {| status := 404;
        body := Failure ("Product not found: " +:+ productId (Sample.item "p9" 1)) |}).
Proof.
  apply (@unknown_product_answered_404 example_runtime
           (Sample.request
              (Sample.payload "u1"
                 [Sample.line "p1" 1; Sample.line "p9" 1; Sample.line "p3" 99] 40))
           Sample.shop
           (Sample.payload "u1"
              [Sample.line "p1" 1; Sample.line "p9" 1; Sample.line "p3" 99] 40)
           (Sample.data "u1"
              [Sample.item "p1" 1; Sample.item "p9" 1; Sample.item "p3" 99] 40)
           [Sample.item "p1" 1] [Sample.item "p3" 99] (Sample.item "p9" 1)).
  - reflexivity.
  - vm_compute. reflexivity.
  - exists {| u_name := Some "Ann"; u_email := "ann@example.com";
              u_password := "9f86d081884c7d65" |}.
    vm_compute. reflexivity.
  - reflexivity.
  - constructor; [|constructor].
    exists {| r_name := "Mug"; r_price := Some (Fin 20); r_stock := Some (Fin 5) |}.
    split; [vm_compute; reflexivity|].
    intros stock [= <-]. vm_compute. reflexivity.
  - vm_compute. reflexivity.
Defined.

Lemma validated_request_well_formed_witness :
  userId (Sample.data "u1" [Sample.item "p1" 2] 40) <> EmptyString /\
  get_prop (Sample.payload "u1" [Sample.line "p1" 2] 40) "userId"
  = VStr (userId (Sample.data "u1" [Sample.item "p1" 2] 40)) /\
  items (Sample.data "u1" [Sample.item "p1" 2] 40) <> [] /\
  productId <$> items (Sample.data "u1" [Sample.item "p1" 2] 40)
  = (fun it => as_string (get_prop it "productId"))
      <$> as_array (get_prop (Sample.payload "u1" [Sample.line "p1" 2] 40) "items") /\
  Forall well_formed_item (items (Sample.data "u1" [Sample.item "p1" 2] 40)) /\
  (exists t, total (Sample.data "u1" [Sample.item "p1" 2] 40) = Fin t /\ (0 <= t)%Q).
Proof.
  apply (validated_request_well_formed
           (Sample.payload "u1" [Sample.line "p1" 2] 40)
           (Sample.data "u1" [Sample.item "p1" 2] 40)).
  vm_compute. reflexivity.
Defined.

Lemma created_order_listed_first_witness :
  exists created older,
    body (@POST example_runtime
            (Sample.request (Sample.payload "u1" [Sample.line "p3" 1] 45))
            MoreSample.after_two_mugs).2
    = Created (Some created) /\
    GET (@POST example_runtime
           (Sample.request (Sample.payload "u1" [Sample.line "p3" 1] 45))
           MoreSample.after_two_mugs).1
    = {| status := 200; body := Listing (created :: older) |} /\
    List.length older = List.length (orders MoreSample.after_two_mugs).
Proof.
  apply (@created_order_listed_first example_runtime
           (Sample.request (Sample.payload "u1" [Sample.line "p3" 1] 45))
           MoreSample.after_two_mugs
           (Sample.payload "u1" [Sample.line "p3" 1] 45)
           (Sample.data "u1" [Sample.item "p3" 1] 45)).
  - reflexivity.
  - vm_compute. reflexivity.
  - vm_compute. reflexivity.
Defined.

Lemma item_rows_keep_their_order_witness :
  items_reference_orders
    (@POST example_runtime
       (Sample.request (Sample.payload "u1" [Sample.line "p3" 1] 45))
       MoreSample.after_two_mugs).1.
Proof.
  apply (@item_rows_keep_their_order example_runtime
           (Sample.request (Sample.payload "u1" [Sample.line "p3" 1] 45))
           MoreSample.after_two_mugs).
  vm_compute. repeat constructor.
Defined.

Lemma created_order_reproduces_items_witness :
  exists created,
    body (@POST example_runtime
            (Sample.request (Sample.payload "u1" [Sample.line "p3" 1] 45))
            MoreSample.after_two_mugs).2
    = Created (Some created) /\
    fi_row <$> fo_items created
    = (fun item =>
         {| oi_orderId := List.length (orders MoreSample.after_two_mugs);
            oi_productId := productId item;
            oi_quantity := quantity item;
            oi_price := snapshot_price MoreSample.after_two_mugs item |})
        <$> items (Sample.data "u1" [Sample.item "p3" 1] 45).
Proof.
  apply (@created_order_reproduces_items example_runtime
           (Sample.request (Sample.payload "u1" [Sample.line "p3" 1] 45))
           MoreSample.after_two_mugs
           (Sample.payload "u1" [Sample.line "p3" 1] 45)
           (Sample.data "u1" [Sample.item "p3" 1] 45)).
  - reflexivity.
  - vm_compute. reflexivity.
  - vm_compute. reflexivity.
  - vm_compute. repeat constructor.
Defined.

End MoreOrderExamples.

Section MoreCatalogExamples.
Import Products.


Lemma query_returns_products_of_the_file_witness :
  (forall p, p ∈ [MoreSample.anvil; MoreSample.bucket] ->
     p ∈ readProductsFromFile three_products) /\
  (List.length [MoreSample.anvil; MoreSample.bucket]
   <= meta_total {| meta_total := 3; meta_page := Fin 1; meta_limit := Fin 2 |})%nat /\
  (meta_total {| meta_total := 3; meta_page := Fin 1; meta_limit := Fin 2 |}
   <= List.length (readProductsFromFile three_products))%nat.
Proof.
  apply (@query_returns_products_of_the_file example_runtime MoreSample.by_name
           (readProductsFromFile three_products)
           [MoreSample.anvil; MoreSample.bucket]
           {| meta_total := 3; meta_page := Fin 1; meta_limit := Fin 2 |}).
  vm_compute. reflexivity.
Defined.

Lemma pages_are_windows_witness :
  exists all : list value,
    List.length all
    = meta_total {| meta_total := 3; meta_page := Fin 1; meta_limit := Fin 2 |} /\
    forall p l : Z, (1 <= p)%Z -> (0 <= l)%Z ->
      @query_file example_runtime
        {| search := search MoreSample.by_name; category := category MoreSample.by_name;
           page := num_of_Z p; limit := num_of_Z l;
           sort := sort MoreSample.by_name; order := order MoreSample.by_name |}
        (readProductsFromFile three_products)
      = Ok (take (Z.to_nat l) (drop (Z.to_nat ((p - 1) * l)) all),
            {| meta_total := List.length all;
               meta_page := num_of_Z p; meta_limit := num_of_Z l |}).
Proof.
  apply (@pages_are_windows example_runtime MoreSample.by_name
           (readProductsFromFile three_products)
           [MoreSample.anvil; MoreSample.bucket]
           {| meta_total := 3; meta_page := Fin 1; meta_limit := Fin 2 |}).
  vm_compute. reflexivity.
Defined.

(** "ÉCOLE" and "école", the E with an acute accent being character 201
    in upper case and 233 in lower case. *)
Lemma search_term_case_is_ignored_witness :
  @query_file example_runtime
    {| search := String (ascii_of_nat 201) "COLE"; category := category MoreSample.by_name;
       page := page MoreSample.by_name; limit := limit MoreSample.by_name;
       sort := sort MoreSample.by_name; order := order MoreSample.by_name |}
    (readProductsFromFile three_products)
  = @query_file example_runtime
      {| search := String (ascii_of_nat 233) "cole"; category := category MoreSample.by_name;
         page := page MoreSample.by_name; limit := limit MoreSample.by_name;
         sort := sort MoreSample.by_name; order := order MoreSample.by_name |}
      (readProductsFromFile three_products).
Proof.
  apply (@search_term_case_is_ignored example_runtime MoreSample.by_name
           (String (ascii_of_nat 201) "COLE") (String (ascii_of_nat 233) "cole")
           (readProductsFromFile three_products)).
  vm_compute. reflexivity.
Defined.

Lemma unsearchable_product_fails_search_witness :
  @GET example_runtime [("q", "mug")]
    (Some (VArr [MoreSample.anvil; VObj [("name", VNum (Fin 7))]]))
  = {| status := 500; body := Failure "Internal Server Error" |}.
Proof.
  apply (@unsearchable_product_fails_search example_runtime [("q", "mug")]
           (Some (VArr [MoreSample.anvil; VObj [("name", VNum (Fin 7))]]))
           (VObj [("name", VNum (Fin 7))])).
  - reflexivity.
  - simpl. right. left.
  - right. split; reflexivity.
Defined.

Lemma empty_file_empty_page_witness :
  @GET example_runtime [("page", "3")] None
  = {| status := 200;
       body := PageOf [] {| meta_total := 0;
                            meta_page := page (@parse_query example_runtime [("page", "3")]);
                            meta_limit := limit (@parse_query example_runtime [("page", "3")]) |} |}.
Proof.
  apply (@empty_file_empty_page example_runtime [("page", "3")] None).
  reflexivity.
Defined.

End MoreCatalogExamples.

Section MoreUserExamples.
Import Users.

Lemma registered_user_can_be_fetched_witness :
  exists record,
    @POST example_runtime _ (memoryStore "uuid-1" MoreSample.clock) MoreSample.clock
      {| param_id := None; param_email := None; json := Ok MoreSample.registration |} []
    = (map_set "uuid-1" record [], respond 201 (sanitizeUser record)) /\
    get_prop record "id" = VStr "uuid-1" /\
    get_prop record "email" = VStr "ann@example.com" /\
    get_prop record "password" = VStr (@sha256_hex example_runtime "secret") /\
    exposes_password (sanitizeUser record) = false /\
    GET (memoryStore "uuid-1" MoreSample.clock)
      {| param_id := Some "uuid-1"; param_email := None; json := Throw "no body" |}
      (map_set "uuid-1" record [])
    = respond 200 (sanitizeUser record) /\
    GET (memoryStore "uuid-1" MoreSample.clock)
      {| param_id := None; param_email := Some "ann@example.com"; json := Throw "no body" |}
      (map_set "uuid-1" record [])
    = respond 200 (sanitizeUser record).
Proof.
  apply (@registered_user_can_be_fetched example_runtime "uuid-1" MoreSample.clock
           "ann@example.com" "secret" MoreSample.registration []).
  - discriminate.
  - discriminate.
  - discriminate.
  - reflexivity.
  - reflexivity.
  - reflexivity.
  - reflexivity.
Defined.

Lemma known_email_is_refused_witness :
  @POST example_runtime _ (memoryStore "uuid-2" MoreSample.clock) MoreSample.clock
    {| param_id := None; param_email := None; json := Ok MoreSample.registration |}
    MoreSample.accounts
  = (MoreSample.accounts, respond 409 (error_body "Email already in use")).
Proof.
  apply (@known_email_is_refused example_runtime "uuid-2" MoreSample.clock
           "ann@example.com" MoreSample.registration MoreSample.accounts
           "uuid-1" MoreSample.ann).
  - left.
  - reflexivity.
  - discriminate.
  - reflexivity.
  - reflexivity.
  - reflexivity.
Defined.

Lemma deleted_user_is_gone_witness :
  DELETE (memoryStore "uuid-2" MoreSample.clock)
    {| param_id := Some "uuid-1"; param_email := None; json := Throw "no body" |}
    MoreSample.accounts
  = (map_delete "uuid-1" MoreSample.accounts,
     respond 200 (VObj [("success", VBool true); ("user", sanitizeUser MoreSample.ann)])) /\
  GET (memoryStore "uuid-2" MoreSample.clock)
    {| param_id := Some "uuid-1"; param_email := None; json := Throw "no body" |}
    (map_delete "uuid-1" MoreSample.accounts)
  = respond 404 (error_body "User not found") /\
  (forall j, j <> "uuid-1" ->
     map_get j (map_delete "uuid-1" MoreSample.accounts) = map_get j MoreSample.accounts).
Proof.
  apply (deleted_user_is_gone "uuid-2" MoreSample.clock "uuid-1" MoreSample.ann
           MoreSample.accounts).
  - discriminate.
  - reflexivity.
  - reflexivity.
  - reflexivity.
Defined.

Lemma password_change_stores_the_digest_witness :
  exists updated,
    @PUT example_runtime _ (memoryStore "uuid-2" "2025-02-02T00:00:00.000Z")
      "2025-02-02T00:00:00.000Z"
      {| param_id := Some "uuid-1"; param_email := None;
         json := Ok (VObj [("password", VStr "hunter2")]) |} MoreSample.accounts
    = (map_set "uuid-1" updated MoreSample.accounts, respond 200 (sanitizeUser updated)) /\
    get_prop updated "password" = VStr (@sha256_hex example_runtime "hunter2") /\
    get_prop updated "updatedAt" = VStr "2025-02-02T00:00:00.000Z" /\
    (forall j, j <> "password" -> j <> "updatedAt" ->
       get_prop updated j = assoc j (own_fields MoreSample.ann) /\
       get_prop (sanitizeUser updated) j = assoc j (own_fields MoreSample.ann)) /\
    exposes_password (sanitizeUser updated) = false.
Proof.
  apply (@password_change_stores_the_digest example_runtime "uuid-2"
           "2025-02-02T00:00:00.000Z" "uuid-1" "hunter2"
           (own_fields MoreSample.ann) MoreSample.accounts).
  - discriminate.
  - discriminate.
  - reflexivity.
  - reflexivity.
Defined.

End MoreUserExamples.

Section CheckoutExamples.
Import Cart.

(** Two mugs that the shop has in stock, in the cart of a shop that knows
    the customer: the checkout fails all the same. *)
Lemma checkout_never_places_an_order_witness :
  store (@handleCheckout example_runtime [MoreSample.mugs] (VObj []) Sample.shop)
  = Sample.shop /\
  cart (@handleCheckout example_runtime [MoreSample.mugs] (VObj []) Sample.shop)
  = [MoreSample.mugs] /\
  text (@handleCheckout example_runtime [MoreSample.mugs] (VObj []) Sample.shop)
  = "Failed to create order (400)".
Proof.
  destruct (@checkout_never_places_an_order example_runtime [MoreSample.mugs] (VObj [])
              Sample.shop) as (Hstore & Hcart & Htext).
  split; [exact Hstore|]. split; [exact Hcart|].
  apply Htext; [discriminate | repeat constructor].
Defined.

End CheckoutExamples.
